(** * Appointment confirmation and its e-mail notification

    A shallow embedding of
      - [src/services/emailService.js]: [validateEmailConfig],
        [createTransporter], [sendOTPEmail],
        [sendAppointmentConfirmationEmail];
      - [src/routes/doctor.js]: the handler of
        [POST /appointments/:appointmentId/confirm] and [getDoctorById].

    JavaScript values that the code only reads as text are [option string]
    ([None] is [undefined]); exceptions are an explicit outcome of a small
    state-and-exception monad whose state holds the appointment collection
    and the trace of actions on the collaborators (SMTP relay, database).
    Console output is not modelled. *)

From Stdlib Require Import ZArith String Ascii List Bool Lia DecimalString.
From stdpp Require Import gmap strings list fin_maps.

Open Scope Z_scope.

(** ** JavaScript text helpers *)

Module JS.

(** [`${v}`]: interpolation in a template literal; [undefined] prints as
    such. *)
Definition interp (v : option string) : string :=
  match v with
  | Some s => s
  | None => "undefined"
  end.

(** Truthiness of a string-or-undefined value: [undefined] and the empty
    string are falsy. *)
Definition truthy (v : option string) : bool :=
  match v with
  | Some EmptyString => false
  | Some _ => true
  | None => false
  end.

(** [a || b] on such values. *)
Definition or_else (a : option string) (b : string) : string :=
  match a with
  | Some (String c s) => String c s
  | _ => b
  end.

(** Decimal rendering of an integer. *)
Definition dec (z : Z) : string := NilZero.string_of_int (Z.to_int z).

(** Two-digit rendering, as the [2-digit] fields of a date. *)
Definition dec2 (z : Z) : string :=
  if z <? 10 then "0" +:+ dec z else dec z.

(** [hay.includes(needle)]. *)
Fixpoint includes (needle hay : string) : bool :=
  String.prefix needle hay ||
  match hay with
  | EmptyString => false
  | String _ rest => includes needle rest
  end.

(** The double-quote character, and a helper that turns every backquote of
    a literal into it: the templates of the source are full of HTML
    attributes, and no rendered text of the source holds a backquote. *)
Definition dquote : ascii := ascii_of_nat 34.
Definition bquote : ascii := ascii_of_nat 96.

Fixpoint q (s : string) : string :=
  match s with
  | EmptyString => EmptyString
  | String c rest => String (if Ascii.eqb c bquote then dquote else c) (q rest)
  end.

Definition newline : string := String (ascii_of_nat 10) EmptyString.

(** The lines of a multi-line template literal, joined by line feeds. *)
Fixpoint lines (l : list string) : string :=
  match l with
  | [] => EmptyString
  | [x] => x
  | x :: rest => x +:+ newline +:+ lines rest
  end.

End JS.

(** ** Dates: [new Date(s)], [toLocaleDateString] *)

Module JSDate.

Definition msPerDay : Z := 86400000.

Definition isLeap (y : Z) : bool :=
  ((y mod 4 =? 0) && negb (y mod 100 =? 0)) || (y mod 400 =? 0).

Definition daysInMonth (y m : Z) : Z :=
  if m =? 2 then (if isLeap y then 29 else 28)
  else if (m =? 4) || (m =? 6) || (m =? 9) || (m =? 11) then 30
  else 31.

(** Day number (0 is 1970-01-01) of a date of the proleptic Gregorian
    calendar. *)
Definition daysFromCivil (y m d : Z) : Z :=
  let y' := if m <=? 2 then y - 1 else y in
  let era := y' / 400 in
  let yoe := y' - era * 400 in
  let mp := (m + 9) mod 12 in
  let doy := (153 * mp + 2) / 5 + d - 1 in
  let doe := yoe * 365 + yoe / 4 - yoe / 100 + doy in
  era * 146097 + doe - 719468.

(** The inverse: year, month and day of a day number. *)
Definition civilFromDays (z : Z) : Z * Z * Z :=
  let z' := z + 719468 in
  let era := z' / 146097 in
  let doe := z' - era * 146097 in
  let yoe := (doe - doe / 1460 + doe / 36524 - doe / 146096) / 365 in
  let doy := doe - (365 * yoe + yoe / 4 - yoe / 100) in
  let mp := (5 * doy + 2) / 153 in
  let d := doy - (153 * mp + 2) / 5 + 1 in
  let m := if mp <? 10 then mp + 3 else mp - 9 in
  let y := yoe + era * 400 in
  (if m <=? 2 then y + 1 else y, m, d).

(** 0 is Sunday; day 0 was a Thursday. *)
Definition weekday (z : Z) : Z := (z + 4) mod 7.

Definition digit (c : ascii) : option Z :=
  let n := Z.of_nat (nat_of_ascii c) in
  if (48 <=? n) && (n <=? 57) then Some (n - 48) else None.

Fixpoint digits (acc : Z) (l : list ascii) : option Z :=
  match l with
  | [] => Some acc
  | c :: rest =>
      match digit c with
      | Some d => digits (acc * 10 + d) rest
      | None => None
      end
  end.

(** The date-only form [YYYY-MM-DD] of the ECMAScript date-time string
    format, which [Date.parse] reads as midnight UTC. Only dates of the
    calendar (years 0001 to 9999) are read here; every other string is
    left to the host's parser, see [Host]. *)
Definition parseDateOnly (s : string) : option Z :=
  match list_ascii_of_string s with
  | [y1; y2; y3; y4; "-"%char; m1; m2; "-"%char; d1; d2] =>
      match digits 0 [y1; y2; y3; y4], digits 0 [m1; m2], digits 0 [d1; d2] with
      | Some y, Some m, Some d =>
          if (1 <=? y) && (1 <=? m) && (m <=? 12) && (1 <=? d) && (d <=? daysInMonth y m)
          then Some (daysFromCivil y m d * msPerDay)
          else None
      | _, _, _ => None
      end
  | _ => None
  end.

(** Default locales of the host for which the no-argument
    [toLocaleDateString()] is rendered. *)
Inductive Locale := en_US | en_GB | en_IN | de_DE.

(** What the code takes from the machine it runs on. *)
Record Host := {
  (** minutes to add to UTC at a given instant to get local time *)
  tzOffset : Z -> Z;
  (** the default locale of [toLocaleDateString()] *)
  defaultLocale : Locale;
  (** [Date.parse] on strings outside the date-only form: the engine's
      own rules; [None] is NaN *)
  hostParse : string -> option Z;
  (** [Date.now()] *)
  now : Z
}.

(** [new Date(v)] for a string-or-undefined [v]: the time value, [None]
    for an invalid date. [new Date(undefined)] is invalid. *)
Definition newDate (h : Host) (v : option string) : option Z :=
  match v with
  | None => None
  | Some s =>
      match parseDateOnly s with
      | Some t => Some t
      | None => hostParse h s
      end
  end.

(** Local calendar day of an instant. *)
Definition localDay (h : Host) (t : Z) : Z :=
  (t + tzOffset h t * 60000) / msPerDay.

Definition weekdayName (w : Z) : string :=
  if w =? 0 then "Sunday" else if w =? 1 then "Monday"
  else if w =? 2 then "Tuesday" else if w =? 3 then "Wednesday"
  else if w =? 4 then "Thursday" else if w =? 5 then "Friday"
  else "Saturday".

Definition monthName (m : Z) : string :=
  if m =? 1 then "January" else if m =? 2 then "February"
  else if m =? 3 then "March" else if m =? 4 then "April"
  else if m =? 5 then "May" else if m =? 6 then "June"
  else if m =? 7 then "July" else if m =? 8 then "August"
  else if m =? 9 then "September" else if m =? 10 then "October"
  else if m =? 11 then "November" else "December".

(** The year as the formats print it: the year of the era. Only years
    from 1 on are reached through [parseDateOnly]. *)
Definition yearOfEra (y : Z) : Z := if y <=? 0 then 1 - y else y.

(** [d.toLocaleDateString('en-US', {weekday: 'long', year: 'numeric',
    month: 'long', day: 'numeric'})]. *)
Definition toLocaleDateString_long (h : Host) (d : option Z) : string :=
  match d with
  | None => "Invalid Date"
  | Some t =>
      let z := localDay h t in
      let '(y, m, dd) := civilFromDays z in
      weekdayName (weekday z) +:+ ", " +:+ monthName m +:+ " " +:+ JS.dec dd
        +:+ ", " +:+ JS.dec (yearOfEra y)
  end.

(** [d.toLocaleDateString()]: no locale, no options, hence the host's
    default locale with numeric year, month and day. *)
Definition toLocaleDateString (h : Host) (d : option Z) : string :=
  match d with
  | None => "Invalid Date"
  | Some t =>
      let '(y, m, dd) := civilFromDays (localDay h t) in
      let yy := JS.dec (yearOfEra y) in
      match defaultLocale h with
      | en_US => JS.dec m +:+ "/" +:+ JS.dec dd +:+ "/" +:+ yy
      | en_GB => JS.dec2 dd +:+ "/" +:+ JS.dec2 m +:+ "/" +:+ yy
      | en_IN => JS.dec dd +:+ "/" +:+ JS.dec m +:+ "/" +:+ yy
      | de_DE => JS.dec dd +:+ "." +:+ JS.dec m +:+ "." +:+ yy
      end
  end.

(** [new Date().getFullYear()]. *)
Definition currentYear (h : Host) : Z :=
  let '(y, _, _) := civilFromDays (localDay h (now h)) in y.

End JSDate.

(** ** Records of the two collections *)

Module Doctor.

(** A document of the doctor collection, after [doctorSchema]. *)
Record t := {
  name : string;
  email : string;
  passwordHash : string;
  phone : option string;
  gender : option string;
  status : option string;
  idproof : option string;
  profilePicture : option string;
  doctorid : option string;
  specialization : option string;
  location : option string
}.

End Doctor.

Module Appointment.

(** Modelled from the spec: the appointment schema ([models/appointment.js]
    is not among the sources). The fields are those of section 3 of the
    specification under the names the handler and the mailer read and
    write; the handler treats them as text, so they are text here. The
    [_id] of a document is its key in the collection, see [Store]. *)
Record t := {
  patientName : option string;
  patientEmail : option string;
  description : option string;
  doctorid : string;
  status : option string;
  timeSlot : option string;
  appointmentDate : option string;
  confirmationMessage : option string;
  createdAt : option Z
}.

End Appointment.

(** ** Exceptions, actions on the collaborators, and the monad *)

Module Err.

(** A thrown [Error]: the properties the handlers read. Every value the
    collaborators throw is such an object. *)
Record t := {
  code : option string;
  message : option string;
  responseCode : option Z
}.

(** [new Error(msg)]. *)
Definition ofMessage (msg : option string) : t :=
  {| code := None; message := msg; responseCode := None |}.

End Err.

Module Mail.

(** The [mailOptions] object handed to [transporter.sendMail]. *)
Record Options := {
  from : string;
  to : option string;
  subject : string;
  html : string;
  text : option string
}.

(** The [info] object [sendMail] resolves to. *)
Record Info := { info_messageId : string }.

(** The result object of the two senders:
    [{ success, messageId?, error?, details? }]. *)
Record Result := {
  success : bool;
  messageId : option string;
  error : option string;
  details : option string
}.

End Mail.

Inductive Event :=
| EvFindAppointment (id doctorid : string)
| EvSave (id : string) (doc : Appointment.t)
| EvFindDoctor (doctorid : string)
| EvVerify
| EvSendMail (opts : Mail.Options).

Inductive Outcome (A : Type) : Type :=
| Returns (a : A)
| Throws (e : Err.t).

Arguments Returns {A} a.
Arguments Throws {A} e.

(** The state a request runs in: the appointment collection, from [_id] to
    the rest of the document, and the actions on the collaborators so far,
    oldest first. *)
Record Store := {
  appointments : gmap string Appointment.t;
  trace : list Event
}.

Definition M (A : Type) : Type := Store -> Outcome A * Store.

Definition ret {A : Type} (a : A) : M A := fun s => (Returns a, s).

Definition throw {A : Type} (e : Err.t) : M A := fun s => (Throws e, s).

Definition bind {A B : Type} (m : M A) (k : A -> M B) : M B :=
  fun s =>
    match m s with
    | (Returns a, s') => k a s'
    | (Throws e, s') => (Throws e, s')
    end.

(** [try { body } catch (error) { handler }]. *)
Definition try_catch {A : Type} (body : M A) (handler : Err.t -> M A) : M A :=
  fun s =>
    match body s with
    | (Returns a, s') => (Returns a, s')
    | (Throws e, s') => handler e s'
    end.

Definition emit (ev : Event) : M unit :=
  fun s => (Returns tt, {| appointments := appointments s; trace := trace s ++ [ev] |}).

Definition getAppointments : M (gmap string Appointment.t) :=
  fun s => (Returns (appointments s), s).

Definition putAppointments (m : gmap string Appointment.t) : M unit :=
  fun s => (Returns tt, {| appointments := m; trace := trace s |}).

Notation "'let*' x ':=' m 'in' k" := (bind m (fun x => k))
  (at level 10, x name, m at level 100, k at level 200).

(** ** The world outside the process *)

Record World := {
  host : JSDate.Host;
  (** [process.env.EMAIL_USER], [process.env.EMAIL_PASS] *)
  EMAIL_USER : option string;
  EMAIL_PASS : option string;
  (** what [transporter.verify()] does: [None] resolves, [Some e] rejects *)
  smtpVerify : option Err.t;
  (** what [transporter.sendMail(opts)] does *)
  smtpSendMail : Mail.Options -> Outcome Mail.Info;
  (** a query on the appointment collection rejects with this error *)
  findAppointmentFault : option Err.t;
  (** [save()] rejects with this error *)
  saveFault : option Err.t;
  (** the doctor collection, in natural order, and the fault of a query *)
  doctors : list Doctor.t;
  findDoctorFault : option Err.t;
  (** the model names registered with mongoose *)
  mongooseModels : list string
}.

(** ** [services/emailService.js] *)

Module EmailService.

Record ConfigCheck := { valid : bool; config_error : option string }.

Definition validateEmailConfig (w : World) : ConfigCheck :=
  if negb (JS.truthy (EMAIL_USER w)) then
    {| valid := false; config_error := Some "EMAIL_USER is not set in environment variables" |}
  else if negb (JS.truthy (EMAIL_PASS w)) then
    {| valid := false; config_error := Some "EMAIL_PASS is not set in environment variables" |}
  else {| valid := true; config_error := None |}.

(** The transporter [nodemailer.createTransport] builds: its credentials. *)
Record Transporter := { auth_user : option string; auth_pass : option string }.

Definition createTransporter (w : World) : M Transporter :=
  let config := validateEmailConfig w in
  if negb (valid config) then throw (Err.ofMessage (config_error config))
  else ret {| auth_user := EMAIL_USER w; auth_pass := EMAIL_PASS w |}.

(** [await transporter.verify()]: one round trip to the relay. *)
Definition verify (w : World) (tr : Transporter) : M unit :=
  let* _ := emit EvVerify in
  match smtpVerify w with
  | None => ret tt
  | Some e => throw e
  end.

(** [await transporter.sendMail(mailOptions)]. *)
Definition sendMail (w : World) (tr : Transporter) (opts : Mail.Options) : M Mail.Info :=
  let* _ := emit (EvSendMail opts) in
  match smtpSendMail w opts with
  | Returns info => ret info
  | Throws e => throw e
  end.

Definition codeIs (e : Err.t) (c : string) : bool :=
  match Err.code e with
  | Some c' => String.eqb c' c
  | None => false
  end.

Definition failure (msg : option string) (det : option string) : Mail.Result :=
  {| Mail.success := false; Mail.messageId := None; Mail.error := msg; Mail.details := det |}.

Definition sent (info : Mail.Info) : Mail.Result :=
  {| Mail.success := true; Mail.messageId := Some (Mail.info_messageId info);
     Mail.error := None; Mail.details := None |}.

Definition otpHtml (otp : option string) (year : Z) : string :=
  JS.lines
    [ "";
      JS.q "        <div style=`font-family: Arial, sans-serif; max-width: 600px; margin: 0 auto; padding: 20px; background-color: #f9f9f9;`>";
      JS.q "          <div style=`background-color: #ffffff; padding: 30px; border-radius: 10px; box-shadow: 0 2px 4px rgba(0,0,0,0.1);`>";
      JS.q "            <h2 style=`color: #3B82F6; text-align: center; margin-bottom: 20px;`>Email Verification</h2>";
      JS.q "            <p style=`color: #333333; font-size: 16px; line-height: 1.6;`>";
      "              Hello,";
      "            </p>";
      JS.q "            <p style=`color: #333333; font-size: 16px; line-height: 1.6;`>";
      "              Thank you for registering with our Healthcare Portal. Please use the OTP below to verify your email address:";
      "            </p>";
      JS.q "            <div style=`background-color: #3B82F6; color: #ffffff; padding: 20px; border-radius: 8px; text-align: center; margin: 30px 0;`>";
      JS.q "              <h1 style=`margin: 0; font-size: 32px; letter-spacing: 5px;`>" +:+ JS.interp otp +:+ "</h1>";
      "            </div>";
      JS.q "            <p style=`color: #666666; font-size: 14px; line-height: 1.6;`>";
      "              This OTP is valid for 10 minutes. If you didn't request this OTP, please ignore this email.";
      "            </p>";
      JS.q "            <hr style=`border: none; border-top: 1px solid #e0e0e0; margin: 30px 0;`>";
      JS.q "            <p style=`color: #999999; font-size: 12px; text-align: center; margin: 0;`>";
      "              © " +:+ JS.dec year +:+ " Healthcare Portal. All rights reserved.";
      "            </p>";
      "          </div>";
      "        </div>";
      "      " ].

(** The [catch] block of [sendOTPEmail]. *)
Definition otpFailure (e : Err.t) : Mail.Result :=
  let errorMessage :=
    if codeIs e "EAUTH" then
      "Email authentication failed. Please check your EMAIL_USER and EMAIL_PASS in .env file. Make sure you're using a Gmail App Password."
    else if codeIs e "ECONNECTION" || codeIs e "ETIMEDOUT" then
      "Connection error. Please check your internet connection and try again."
    else if bool_decide (Err.responseCode e = Some 535) then
      "Authentication failed. Please verify your Gmail App Password is correct."
    else JS.or_else (Err.message e) "Failed to send OTP email." in
  failure (Some errorMessage) (Err.message e).

(** The [mailOptions] of [sendOTPEmail]. *)
Definition otpMailOptions (w : World) (email otp : option string) : Mail.Options :=
  {| Mail.from := JS.q "`Medicare` <" +:+ JS.interp (EMAIL_USER w) +:+ ">";
     Mail.to := email;
     Mail.subject := "Email Verification OTP - Medicare";
     Mail.html := otpHtml otp (JSDate.currentYear (host w));
     Mail.text := None |}.

Definition sendOTPEmail (w : World) (email otp : option string) : M Mail.Result :=
  try_catch
    (let config := validateEmailConfig w in
     if negb (valid config) then ret (failure (config_error config) None)
     else
       let* transporter := createTransporter w in
       let* _ := verify w transporter in
       let mailOptions := otpMailOptions w email otp in
       let* info := sendMail w transporter mailOptions in
       ret (sent info))
    (fun e => ret (otpFailure e)).

Definition confirmationHtml (formattedDate : string)
    (patientName timeSlot confirmationMessage description : option string)
    (doctorDetails : option Doctor.t) (year : Z) : string :=
  JS.lines
    [ "";
      JS.q "        <div style=`font-family: Arial, sans-serif; max-width: 600px; margin: 0 auto; padding: 20px; background-color: #f9f9f9;`>";
      JS.q "          <div style=`background: linear-gradient(135deg, #667eea 0%, #764ba2 100%); color: white; padding: 30px; text-align: center; border-radius: 10px 10px 0 0;`>";
      JS.q "            <h1 style=`margin: 0; font-size: 28px;`>Appointment Confirmed! 🎉</h1>";
      JS.q "            <p style=`margin: 10px 0 0 0; font-size: 16px; opacity: 0.9;`>Your healthcare appointment has been scheduled</p>";
      "          </div>";
      "          ";
      JS.q "          <div style=`background-color: #ffffff; padding: 30px; border-radius: 0 0 10px 10px; box-shadow: 0 2px 4px rgba(0,0,0,0.1);`>";
      JS.q "            <h2 style=`color: #333333; margin-bottom: 20px;`>Dear " +:+ JS.interp patientName +:+ ",</h2>";
      JS.q "            <p style=`color: #333333; font-size: 16px; line-height: 1.6;`>";
      "              We're pleased to inform you that your appointment has been confirmed. Here are your appointment details:";
      "            </p>";
      "            ";
      JS.q "            <div style=`background-color: #f8f9fa; padding: 20px; border-radius: 8px; margin: 20px 0; border-left: 4px solid #667eea;`>";
      JS.q "              <h3 style=`color: #333333; margin-top: 0;`>Appointment Details</h3>";
      JS.q "              <p style=`color: #333333; margin: 8px 0;`><strong>Date:</strong> " +:+ formattedDate +:+ "</p>";
      JS.q "              <p style=`color: #333333; margin: 8px 0;`><strong>Time Slot:</strong> " +:+ JS.interp timeSlot +:+ "</p>";
      "              " +:+ (match doctorDetails with Some d => JS.q "<p style=`color: #333333; margin: 8px 0;`><strong>Doctor:</strong> Dr. " +:+ Doctor.name d +:+ "</p>" | None => "" end);
      "              " +:+ (match doctorDetails with Some d => if JS.truthy (Doctor.specialization d) then JS.q "<p style=`color: #333333; margin: 8px 0;`><strong>Specialization:</strong> " +:+ JS.interp (Doctor.specialization d) +:+ "</p>" else "" | None => "" end);
      "              " +:+ (if JS.truthy confirmationMessage then JS.q "<p style=`color: #333333; margin: 8px 0;`><strong>Doctor's Note:</strong> " +:+ JS.interp confirmationMessage +:+ "</p>" else "");
      "              " +:+ (if JS.truthy description then JS.q "<p style=`color: #333333; margin: 8px 0;`><strong>Your Concern:</strong> " +:+ JS.interp description +:+ "</p>" else "");
      "            </div>";
      "";
      JS.q "            <h3 style=`color: #333333; margin-bottom: 15px;`>Important Reminders:</h3>";
      JS.q "            <ul style=`color: #333333; padding-left: 20px; margin-bottom: 20px;`>";
      JS.q "              <li style=`margin-bottom: 8px;`>Please arrive 15 minutes before your scheduled time</li>";
      JS.q "              <li style=`margin-bottom: 8px;`>Bring any relevant medical reports or documents</li>";
      JS.q "              <li style=`margin-bottom: 8px;`>Carry your ID proof and insurance details if applicable</li>";
      JS.q "              <li style=`margin-bottom: 8px;`>In case of emergency, contact the hospital directly</li>";
      "            </ul>";
      "";
      JS.q "            <p style=`color: #333333; font-size: 16px; line-height: 1.6;`>";
      "              If you need to reschedule or cancel your appointment, please contact us at least 24 hours in advance.";
      "            </p>";
      "            ";
      JS.q "            <div style=`text-align: center; margin: 30px 0;`>";
      JS.q "              <a href=`#` style=`display: inline-block; padding: 12px 24px; background: #667eea; color: white; text-decoration: none; border-radius: 5px; font-weight: bold;`>";
      "                Add to Calendar";
      "              </a>";
      "            </div>";
      "          </div>";
      "          ";
      JS.q "          <div style=`text-align: center; margin-top: 20px; padding: 20px; color: #666; font-size: 12px;`>";
      "            <p>Thank you for choosing MediCare Hub for your healthcare needs.</p>";
      "            <p>If you have any questions, please contact our support team.</p>";
      "            <p>© " +:+ JS.dec year +:+ " MediCare Hub. All rights reserved.</p>";
      "          </div>";
      "        </div>";
      "      " ].

Definition confirmationText (formattedDate : string)
    (patientName timeSlot confirmationMessage description : option string)
    (doctorDetails : option Doctor.t) (year : Z) : string :=
  JS.lines
    [ "";
      "Appointment Confirmed";
      "";
      "Dear " +:+ JS.interp patientName +:+ ",";
      "";
      "Your appointment has been confirmed with the following details:";
      "";
      "Date: " +:+ formattedDate;
      "Time: " +:+ JS.interp timeSlot;
      (match doctorDetails with Some d => "Doctor: Dr. " +:+ Doctor.name d | None => "" end);
      (match doctorDetails with Some d => if JS.truthy (Doctor.specialization d) then "Specialization: " +:+ JS.interp (Doctor.specialization d) else "" | None => "" end);
      (if JS.truthy confirmationMessage then "Doctor's Note: " +:+ JS.interp confirmationMessage else "");
      (if JS.truthy description then "Your Concern: " +:+ JS.interp description else "");
      "";
      "Important Reminders:";
      "- Please arrive 15 minutes before your scheduled time";
      "- Bring any relevant medical reports or documents";
      "- Carry your ID proof and insurance details if applicable";
      "- In case of emergency, contact the hospital directly";
      "";
      "If you need to reschedule or cancel, please contact us at least 24 hours in advance.";
      "";
      "Thank you for choosing MediCare Hub.";
      "";
      "© " +:+ JS.dec year +:+ " MediCare Hub. All rights reserved.";
      "      " ].

(** The [catch] block of [sendAppointmentConfirmationEmail]. *)
Definition confirmationFailure (e : Err.t) : Mail.Result :=
  let errorMessage :=
    if codeIs e "EAUTH" then
      "Email authentication failed. Please check your email configuration."
    else if codeIs e "ECONNECTION" || codeIs e "ETIMEDOUT" then
      "Connection error. Please check your internet connection."
    else JS.or_else (Err.message e) "Failed to send appointment confirmation email." in
  failure (Some errorMessage) (Err.message e).

(** The [TypeError] of destructuring an argument that is not an object; the
    text is the engine's for [undefined] (for [null] it ends in [null]). *)
Definition destructureError : Err.t :=
  Err.ofMessage (Some "Cannot destructure property 'patientName' of 'appointmentData' as it is undefined.").

(** [formattedDate]: the long form of the appointment date in [en-US]. *)
Definition formattedDate (w : World) (appointmentDate : option string) : string :=
  JSDate.toLocaleDateString_long (host w) (JSDate.newDate (host w) appointmentDate).

(** The [mailOptions] of [sendAppointmentConfirmationEmail], from the
    destructured properties of [appointmentData]. *)
Definition confirmationMailOptions (w : World) (a : Appointment.t)
    (doctorDetails : option Doctor.t) : Mail.Options :=
  let patientName := Appointment.patientName a in
  let patientEmail := Appointment.patientEmail a in
  let timeSlot := Appointment.timeSlot a in
  let appointmentDate := Appointment.appointmentDate a in
  let confirmationMessage := Appointment.confirmationMessage a in
  let description := Appointment.description a in
  let formattedDate := formattedDate w appointmentDate in
  let year := JSDate.currentYear (host w) in
  {| Mail.from := JS.q "`MediCare Hub` <" +:+ JS.interp (EMAIL_USER w) +:+ ">";
     Mail.to := patientEmail;
     Mail.subject := "Appointment Confirmed - " +:+ formattedDate;
     Mail.html :=
       confirmationHtml formattedDate patientName timeSlot
         confirmationMessage description doctorDetails year;
     Mail.text :=
       Some (confirmationText formattedDate patientName timeSlot
               confirmationMessage description doctorDetails year) |}.

(** [appointmentData] is [None] for [null] or [undefined]; so is
    [doctorDetails]. *)
Definition sendAppointmentConfirmationEmail (w : World)
    (appointmentData : option Appointment.t) (doctorDetails : option Doctor.t)
    : M Mail.Result :=
  try_catch
    (let config := validateEmailConfig w in
     if negb (valid config) then ret (failure (config_error config) None)
     else
       let* transporter := createTransporter w in
       let* _ := verify w transporter in
       match appointmentData with
       | None => throw destructureError
       | Some a =>
           if negb (JS.truthy (Appointment.patientEmail a)) then
             ret (failure (Some "Patient email not found") None)
           else
             let mailOptions := confirmationMailOptions w a doctorDetails in
             let* info := sendMail w transporter mailOptions in
             ret (sent info)
       end)
    (fun e => ret (confirmationFailure e)).

End EmailService.

(** ** [routes/doctor.js] *)

Module DoctorRoutes.

(** What the confirmation handler reads of the request:
    [req.params.appointmentId], [req.session.doctorId] (which the
    [isDoctorLoggedIn] middleware has found set) and three properties of
    [req.body]. *)
Record Request := {
  appointmentId : string;
  doctorId : string;
  timeSlot : option string;
  appointmentDate : option string;
  confirmationMessage : option string
}.

(** The status and the JSON body of the response. *)
Record Response := {
  statusCode : Z;
  success : bool;
  message : string;
  appointment : option Appointment.t;
  emailSent : option bool
}.

(** The identifiers the module binds: its imports and its top-level
    declarations. *)
Definition moduleBindings : list string :=
  [ "Router"; "bcrypt"; "doctor"; "appointment"; "generateCode"; "multer";
    "cloudinary"; "sendAppointmentConfirmationEmail"; "doctorRouter";
    "storage"; "upload"; "isDoctorLoggedIn"; "getDoctorById" ].

(** Reading an identifier: a [ReferenceError] when the module does not bind
    it. *)
Definition resolve (x : string) : M unit :=
  if existsb (String.eqb x) moduleBindings then ret tt
  else throw (Err.ofMessage (Some (x +:+ " is not defined"))).

(** [mongoose.model(name)] with one argument: the registered model, or a
    [MissingSchemaError]. *)
Definition mongoose_model (w : World) (name : string) : M unit :=
  if existsb (String.eqb name) (mongooseModels w) then ret tt
  else throw (Err.ofMessage
                (Some (JS.q "Schema hasn't been registered for model `" +:+ name +:+ JS.q "`."))).

(** The document of the collection that matches the filter
    [{ _id: id, doctorid: doctorid }], if any. *)
Definition matching (coll : gmap string Appointment.t) (id doctorid : string)
    : option Appointment.t :=
  match coll !! id with
  | Some a => if String.eqb (Appointment.doctorid a) doctorid then Some a else None
  | None => None
  end.

(** [await appointment.findOne({ _id: id, doctorid: doctorid })]. *)
Definition appointment_findOne (w : World) (id doctorid : string)
    : M (option Appointment.t) :=
  let* _ := emit (EvFindAppointment id doctorid) in
  match findAppointmentFault w with
  | Some e => throw e
  | None =>
      let* coll := getAppointments in
      ret (matching coll id doctorid)
  end.

(** [await foundAppointment.save()]. *)
Definition save (w : World) (id : string) (doc : Appointment.t) : M unit :=
  let* _ := emit (EvSave id doc) in
  match saveFault w with
  | Some e => throw e
  | None =>
      let* coll := getAppointments in
      putAppointments (<[id := doc]> coll)
  end.

(** [await Doctor.findOne({ doctorid: doctorId })]. *)
Definition doctor_findOne (w : World) (doctorId : string) : M (option Doctor.t) :=
  let* _ := emit (EvFindDoctor doctorId) in
  match findDoctorFault w with
  | Some e => throw e
  | None =>
      ret (find (fun d => match Doctor.doctorid d with
                          | Some i => String.eqb i doctorId
                          | None => false
                          end) (doctors w))
  end.

Definition getDoctorById (w : World) (doctorId : string) : M (option Doctor.t) :=
  try_catch
    (let* _ := resolve "mongoose" in
     let* _ := mongoose_model w "Doctor" in
     doctor_findOne w doctorId)
    (fun _ => ret None).

(** The sentence stored when the request carries no message of its own. *)
Definition defaultMessage (w : World) (timeSlot appointmentDate : option string) : string :=
  "Your appointment has been confirmed for " +:+ JS.interp timeSlot +:+ " on "
    +:+ JSDate.toLocaleDateString (host w) (JSDate.newDate (host w) appointmentDate).

(** The assignments of the handler to the document it found. *)
Definition confirmed (w : World) (req : Request) (a : Appointment.t) : Appointment.t :=
  {| Appointment.patientName := Appointment.patientName a;
     Appointment.patientEmail := Appointment.patientEmail a;
     Appointment.description := Appointment.description a;
     Appointment.doctorid := Appointment.doctorid a;
     Appointment.status := Some "confirmed";
     Appointment.timeSlot := timeSlot req;
     Appointment.appointmentDate := appointmentDate req;
     Appointment.confirmationMessage :=
       Some (JS.or_else (confirmationMessage req)
               (defaultMessage w (timeSlot req) (appointmentDate req)));
     Appointment.createdAt := Appointment.createdAt a |}.

(** The three responses of the handler. *)
Definition notFound : Response :=
  {| statusCode := 404; success := false;
     message := "Appointment not found";
     appointment := None; emailSent := None |}.

Definition ok (foundAppointment : Appointment.t) : Response :=
  {| statusCode := 200; success := true;
     message := "Appointment confirmed successfully. Patient will be notified.";
     appointment := Some foundAppointment; emailSent := Some true |}.

Definition serverError (error : Err.t) : Response :=
  {| statusCode := 500; success := false;
     message := "Error confirming appointment: " +:+ JS.interp (Err.message error);
     appointment := None; emailSent := None |}.

(** The handler of [POST /appointments/:appointmentId/confirm], over the two
    collaborators it calls inside its inner [try]. *)
Definition confirmHandlerWith
    (lookup : string -> M (option Doctor.t))
    (sendEmail : option Appointment.t -> option Doctor.t -> M Mail.Result)
    (w : World) (req : Request) : M Response :=
  try_catch
    (let* foundAppointment := appointment_findOne w (appointmentId req) (doctorId req) in
     match foundAppointment with
     | None => ret notFound
     | Some a =>
         let doc := confirmed w req a in
         let* _ := save w (appointmentId req) doc in
         let* _ :=
           try_catch
             (let* doctorDetails := lookup (doctorId req) in
              let* emailResult := sendEmail (Some doc) doctorDetails in
              ret tt)
             (fun emailError => ret tt) in
         ret (ok doc)
     end)
    (fun error => ret (serverError error)).

(** The handler as the module wires it. *)
Definition confirmHandler (w : World) (req : Request) : M Response :=
  confirmHandlerWith (getDoctorById w) (EmailService.sendAppointmentConfirmationEmail w) w req.

End DoctorRoutes.

(** ** The scenario of the specification, and a few hosts *)

Module Scenario.

Definition utcHost : JSDate.Host :=
  {| JSDate.tzOffset := fun _ => 0;
     JSDate.defaultLocale := JSDate.en_US;
     JSDate.hostParse := fun _ => None;
     JSDate.now := 1717200000000 |}.

(** Appointment [a1], assigned to doctor [d1], requested by [p@x.com]. *)
Definition a1 : Appointment.t :=
  {| Appointment.patientName := None;
     Appointment.patientEmail := Some "p@x.com";
     Appointment.description := None;
     Appointment.doctorid := "d1";
     Appointment.status := Some "requested";
     Appointment.timeSlot := None;
     Appointment.appointmentDate := None;
     Appointment.confirmationMessage := None;
     Appointment.createdAt := None |}.

(** The same appointment without a patient e-mail. *)
Definition a1_noEmail : Appointment.t :=
  {| Appointment.patientName := None;
     Appointment.patientEmail := None;
     Appointment.description := None;
     Appointment.doctorid := "d1";
     Appointment.status := Some "requested";
     Appointment.timeSlot := None;
     Appointment.appointmentDate := None;
     Appointment.confirmationMessage := None;
     Appointment.createdAt := None |}.

(** Doctor [d1]: Smith, cardiology. *)
Definition smith : Doctor.t :=
  {| Doctor.name := "Smith";
     Doctor.email := "smith@x.com";
     Doctor.passwordHash := "$2a$10$hash";
     Doctor.phone := None;
     Doctor.gender := None;
     Doctor.status := Some "approved";
     Doctor.idproof := None;
     Doctor.profilePicture := None;
     Doctor.doctorid := Some "d1";
     Doctor.specialization := Some "Cardiology";
     Doctor.location := None |}.

(** A machine on which everything works: the relay accepts the credentials
    and the message, the database answers. *)
Definition world : World :=
  {| host := utcHost;
     EMAIL_USER := Some "clinic@example.com";
     EMAIL_PASS := Some "app-password";
     smtpVerify := None;
     smtpSendMail := fun _ => Returns {| Mail.info_messageId := "<1@example.com>" |};
     findAppointmentFault := None;
     saveFault := None;
     doctors := [smith];
     findDoctorFault := None;
     mongooseModels := ["doctor"; "appointment"] |}.

(** The same machine without [EMAIL_USER]. *)
Definition world_noUser : World :=
  {| host := utcHost;
     EMAIL_USER := None;
     EMAIL_PASS := Some "app-password";
     smtpVerify := None;
     smtpSendMail := fun _ => Returns {| Mail.info_messageId := "<1@example.com>" |};
     findAppointmentFault := None;
     saveFault := None;
     doctors := [smith];
     findDoctorFault := None;
     mongooseModels := ["doctor"; "appointment"] |}.

(** The same machine with a relay that refuses the credentials. *)
Definition world_badAuth : World :=
  {| host := utcHost;
     EMAIL_USER := Some "clinic@example.com";
     EMAIL_PASS := Some "wrong";
     smtpVerify :=
       Some {| Err.code := Some "EAUTH"; Err.message := Some "Invalid login";
               Err.responseCode := Some 535 |};
     smtpSendMail := fun _ => Returns {| Mail.info_messageId := "<1@example.com>" |};
     findAppointmentFault := None;
     saveFault := None;
     doctors := [smith];
     findDoctorFault := None;
     mongooseModels := ["doctor"; "appointment"] |}.

Definition store0 : Store :=
  {| appointments := {[ "a1" := a1 ]}; trace := [] |}.

Definition store_noEmail : Store :=
  {| appointments := {[ "a1" := a1_noEmail ]}; trace := [] |}.

(** [confirm("a1", "d1", "10:00-10:30", "2024-06-01")]. *)
Definition request : DoctorRoutes.Request :=
  {| DoctorRoutes.appointmentId := "a1";
     DoctorRoutes.doctorId := "d1";
     DoctorRoutes.timeSlot := Some "10:00-10:30";
     DoctorRoutes.appointmentDate := Some "2024-06-01";
     DoctorRoutes.confirmationMessage := None |}.

(** The same call by doctor [d2]. *)
Definition request_d2 : DoctorRoutes.Request :=
  {| DoctorRoutes.appointmentId := "a1";
     DoctorRoutes.doctorId := "d2";
     DoctorRoutes.timeSlot := Some "10:00-10:30";
     DoctorRoutes.appointmentDate := Some "2024-06-01";
     DoctorRoutes.confirmationMessage := None |}.

(** A second call for another slot on another day. *)
Definition request_again : DoctorRoutes.Request :=
  {| DoctorRoutes.appointmentId := "a1";
     DoctorRoutes.doctorId := "d1";
     DoctorRoutes.timeSlot := Some "14:00-14:30";
     DoctorRoutes.appointmentDate := Some "2024-06-03";
     DoctorRoutes.confirmationMessage := Some "Moved to Monday" |}.

End Scenario.

(** ** The wording of the specification, for comparison *)

Module Spec.

(** Section 8: the generated sentence embeds the time slot and the long-form
    date (weekday, month name, day, year). *)
Definition longFormMessage (w : World) (timeSlot appointmentDate : option string) : string :=
  "Your appointment has been confirmed for " +:+ JS.interp timeSlot +:+ " on "
    +:+ EmailService.formattedDate w appointmentDate.

End Spec.

(** The store after some more actions on the collaborators. *)
Definition addTrace (s : Store) (evs : list Event) : Store :=
  {| appointments := appointments s; trace := trace s ++ evs |}.

(** The store after a write of [doc] under [id], and more actions. *)
Definition written (s : Store) (id : string) (doc : Appointment.t) (evs : list Event) : Store :=
  {| appointments := <[id := doc]> (appointments s); trace := trace s ++ evs |}.

(** A computation that leaves the appointment collection as it found it. *)
Definition readOnly {A : Type} (m : M A) : Prop :=
  forall s, appointments (snd (m s)) = appointments s.

(** The value a run returned, if it did not throw. *)
Definition returned {A : Type} (r : Outcome A * Store) : option A :=
  match fst r with
  | Returns a => Some a
  | Throws _ => None
  end.

From stdpp Require Import sorting.

Open Scope Z_scope.

(** ** [services/emailService.js]: the connection check *)

Module EmailVerify.

(** The result object of [verifyEmailConnection]:
    [{ success, message?, error? }]. *)
Record Result := {
  success : bool;
  message : option string;
  error : option string
}.

(** The [catch] block of [verifyEmailConnection]. *)
Definition verifyFailure (e : Err.t) : Result :=
  if EmailService.codeIs e "EAUTH" then
    {| success := false; message := None;
       error := Some "Authentication failed. Please check your EMAIL_USER and EMAIL_PASS. Make sure you're using a Gmail App Password, not your regular password." |}
  else if EmailService.codeIs e "ECONNECTION" then
    {| success := false; message := None;
       error := Some "Connection failed. Please check your internet connection." |}
  else
    {| success := false; message := None;
       error := Some (JS.or_else (Err.message e) "Failed to verify email configuration") |}.

Definition verifyEmailConnection (w : World) : M Result :=
  try_catch
    (let config := EmailService.validateEmailConfig w in
     if negb (EmailService.valid config) then
       ret {| success := false; message := None;
              error := EmailService.config_error config |}
     else
       let* transporter := EmailService.createTransporter w in
       let* _ := EmailService.verify w transporter in
       ret {| success := true; message := Some "Email configuration is valid";
              error := None |})
    (fun e => ret (verifyFailure e)).

End EmailVerify.

(** ** [routes/doctor.js]: the session guard and the read-only routes *)

Module Session.

(** What the routes keep in [req.session]. *)
Record t := {
  doctorId : option string;
  doctorEmail : option string
}.

End Session.

(** What a route does with the response: [res.redirect], [res.render] of
    the dashboard view, or a status with a body. *)
Inductive Reply (A : Type) : Type :=
| Redirect (location : string)
| Render (view : string) (doctor : Doctor.t) (appointments : list (string * Appointment.t))
| Respond (a : A).

Arguments Redirect {A} location.
Arguments Render {A} view doctor appointments.
Arguments Respond {A} a.

Module DoctorPages.

(** [isDoctorLoggedIn]: [next()] when [req.session] exists and its
    [doctorId] is truthy, a redirect to the login page otherwise. The
    continuation is handed the id the routes then read from the session. *)
Definition isDoctorLoggedIn {R : Type} (session : option Session.t)
    (next : string -> R) (redirect : string -> R) : R :=
  match session with
  | Some ss =>
      match Session.doctorId ss with
      | Some (String c rest) => next (String c rest)
      | _ => redirect "/doctorLogin"
      end
  | None => redirect "/doctorLogin"
  end.

(** [req.body] of the confirmation request. *)
Record ConfirmBody := {
  timeSlot : option string;
  appointmentDate : option string;
  confirmationMessage : option string
}.

(** [POST /appointments/:appointmentId/confirm] as the router mounts it:
    the guard, then the handler. *)
Definition confirmRoute (w : World) (session : option Session.t)
    (appointmentId : string) (body : ConfirmBody) : M (Reply DoctorRoutes.Response) :=
  isDoctorLoggedIn session
    (fun doctorId =>
       let* resp :=
         DoctorRoutes.confirmHandler w
           {| DoctorRoutes.appointmentId := appointmentId;
              DoctorRoutes.doctorId := doctorId;
              DoctorRoutes.timeSlot := timeSlot body;
              DoctorRoutes.appointmentDate := appointmentDate body;
              DoctorRoutes.confirmationMessage := confirmationMessage body |} in
       ret (Respond resp))
    (fun location => ret (Redirect location)).

(** The order of [.sort({ createdAt: -1 })]: latest first, documents
    without the field last. *)
Definition createdAtLe (x y : option Z) : bool :=
  match x, y with
  | None, _ => true
  | Some _, None => false
  | Some a, Some b => a <=? b
  end.

Definition latestFirst (x y : string * Appointment.t) : Prop :=
  createdAtLe (Appointment.createdAt (snd y)) (Appointment.createdAt (snd x)) = true.

#[global] Instance latestFirst_dec x y : Decision (latestFirst x y).
Proof. unfold latestFirst. apply _. Defined.

(** [await appointment.find({ doctorid: doctorId }).sort({ createdAt: -1 })]:
    the documents of the doctor, each with its [_id]. Documents with the
    same [createdAt] come in the order the collection yields them. *)
Definition appointment_find (w : World) (coll : gmap string Appointment.t)
    (doctorId : string) : Outcome (list (string * Appointment.t)) :=
  match findAppointmentFault w with
  | Some e => Throws e
  | None =>
      Returns (merge_sort latestFirst
                 (filter (fun p => String.eqb (Appointment.doctorid (snd p)) doctorId = true)
                    (map_to_list coll)))
  end.

(** The body of the responses of [GET /appointments]. *)
Record ListResponse := {
  list_statusCode : Z;
  list_success : bool;
  list_message : option string;
  list_appointments : option (list (string * Appointment.t))
}.

(** [GET /appointments]. *)
Definition appointmentsRoute (w : World) (session : option Session.t)
    (coll : gmap string Appointment.t) : Reply ListResponse :=
  isDoctorLoggedIn session
    (fun doctorId =>
       match appointment_find w coll doctorId with
       | Returns appointments =>
           Respond {| list_statusCode := 200; list_success := true;
                      list_message := None;
                      list_appointments := Some appointments |}
       | Throws error =>
           Respond {| list_statusCode := 500; list_success := false;
                      list_message := Some "Error fetching appointments";
                      list_appointments := None |}
       end)
    (fun location => Redirect location).

(** [await doctor.findOne({ doctorid: doctorId })] on the doctor
    collection of the world. *)
Definition doctor_byId (w : World) (doctorId : string) : Outcome (option Doctor.t) :=
  match findDoctorFault w with
  | Some e => Throws e
  | None =>
      Returns (find (fun d => match Doctor.doctorid d with
                              | Some i => String.eqb i doctorId
                              | None => false
                              end) (doctors w))
  end.

(** The body of the [500] page of the dashboard: [res.status(500).send]. *)
Record Page := {
  page_statusCode : Z;
  page_text : string
}.

(** [GET /dashboard]. *)
Definition dashboardRoute (w : World) (session : option Session.t)
    (coll : gmap string Appointment.t) : Reply Page :=
  isDoctorLoggedIn session
    (fun doctorId =>
       match doctor_byId w doctorId with
       | Throws error =>
           Respond {| page_statusCode := 500;
                      page_text := "Error loading dashboard: " +:+ JS.interp (Err.message error) |}
       | Returns None => Redirect "/doctorLogin"
       | Returns (Some foundDoctor) =>
           match appointment_find w coll doctorId with
           | Throws error =>
               Respond {| page_statusCode := 500;
                          page_text := "Error loading dashboard: "
                                         +:+ JS.interp (Err.message error) |}
           | Returns appointments => Render "doctorDashboard" foundDoctor appointments
           end
       end)
    (fun location => Redirect location).

(** A doctor document without its [passwordHash]:
    [select] with the field excluded. *)
Record PublicDoctor := {
  pub_name : string;
  pub_email : string;
  pub_phone : option string;
  pub_gender : option string;
  pub_status : option string;
  pub_idproof : option string;
  pub_profilePicture : option string;
  pub_doctorid : option string;
  pub_specialization : option string;
  pub_location : option string
}.

Definition withoutPasswordHash (d : Doctor.t) : PublicDoctor :=
  {| pub_name := Doctor.name d;
     pub_email := Doctor.email d;
     pub_phone := Doctor.phone d;
     pub_gender := Doctor.gender d;
     pub_status := Doctor.status d;
     pub_idproof := Doctor.idproof d;
     pub_profilePicture := Doctor.profilePicture d;
     pub_doctorid := Doctor.doctorid d;
     pub_specialization := Doctor.specialization d;
     pub_location := Doctor.location d |}.

(** The body of the responses of [GET /profile]. *)
Record ProfileResponse := {
  profile_statusCode : Z;
  profile_success : bool;
  profile_message : option string;
  profile_doctor : option PublicDoctor
}.

(** [GET /profile]. *)
Definition profileRoute (w : World) (session : option Session.t) : Reply ProfileResponse :=
  isDoctorLoggedIn session
    (fun doctorId =>
       match doctor_byId w doctorId with
       | Throws error =>
           Respond {| profile_statusCode := 500; profile_success := false;
                      profile_message := Some "Error fetching profile";
                      profile_doctor := None |}
       | Returns None =>
           Respond {| profile_statusCode := 404; profile_success := false;
                      profile_message := Some "Doctor not found";
                      profile_doctor := None |}
       | Returns (Some foundDoctor) =>
           Respond {| profile_statusCode := 200; profile_success := true;
                      profile_message := None;
                      profile_doctor := Some (withoutPasswordHash foundDoctor) |}
       end)
    (fun location => Redirect location).

End DoctorPages.

(** ** [routes/doctor.js]: registration, login, logout, profile picture *)

Module Auth.

(** The calls these routes make on their collaborators. *)
Inductive Call :=
| CallFindByEmail (email : option string)
| CallHash (password : option string)
| CallCompare (password : option string) (hash : string)
| CallCreate (doc : Doctor.t)
| CallUpload (path : string)
| CallUpdatePicture (doctorId url : string)
| CallDestroy.

(** The state of these routes: the doctor collection in natural order, the
    session of the connection as its next request sees it, and the calls so
    far, oldest first. *)
Record State := {
  doctorColl : list Doctor.t;
  session : option Session.t;
  calls : list Call
}.

(** What these routes take from outside the process. *)
Record Env := {
  (** [bcrypt.hash(password, saltRounds)] *)
  bcryptHash : option string -> Outcome string;
  (** [bcrypt.compare(password, hash)] *)
  bcryptCompare : option string -> string -> Outcome bool;
  (** the value of [generateCode()]; [services/uniqueID.js] is not among
      the sources *)
  generatedCode : string;
  (** [String.prototype.toLowerCase] *)
  toLowerCase : string -> string;
  (** a query on the doctor collection rejects with this error *)
  findFault : option Err.t;
  (** the [ValidationError] of a document whose required [name], [email] or
      [passwordHash] is missing or empty *)
  validationError : Doctor.t -> Err.t;
  (** the database refuses the insertion of a valid document *)
  createFault : Doctor.t -> list Doctor.t -> option Err.t;
  (** [findOneAndUpdate] rejects with this error *)
  updateFault : option Err.t;
  (** [cloudinary.uploader.upload(path, ...)]: the [secure_url] of the
      stored file *)
  cloudinaryUpload : string -> Outcome string;
  (** the session store fails to destroy the session *)
  destroyError : option Err.t
}.

Definition St (A : Type) : Type := State -> Outcome A * State.

Definition sret {A : Type} (a : A) : St A := fun s => (Returns a, s).

Definition sthrow {A : Type} (e : Err.t) : St A := fun s => (Throws e, s).

Definition sbind {A B : Type} (m : St A) (k : A -> St B) : St B :=
  fun s =>
    match m s with
    | (Returns a, s') => k a s'
    | (Throws e, s') => (Throws e, s')
    end.

Definition stry {A : Type} (body : St A) (handler : Err.t -> St A) : St A :=
  fun s =>
    match body s with
    | (Returns a, s') => (Returns a, s')
    | (Throws e, s') => handler e s'
    end.

Definition call (c : Call) : St unit :=
  fun s => (Returns tt, {| doctorColl := doctorColl s; session := session s;
                           calls := calls s ++ [c] |}).

Definition getDoctors : St (list Doctor.t) := fun s => (Returns (doctorColl s), s).

Definition putDoctors (l : list Doctor.t) : St unit :=
  fun s => (Returns tt, {| doctorColl := l; session := session s; calls := calls s |}).

Definition getSession : St (option Session.t) := fun s => (Returns (session s), s).

Definition putSession (ss : option Session.t) : St unit :=
  fun s => (Returns tt, {| doctorColl := doctorColl s; session := ss; calls := calls s |}).

(** Lift an outcome of the outside world. *)
Definition outcome {A : Type} (o : Outcome A) : St A :=
  match o with
  | Returns a => sret a
  | Throws e => sthrow e
  end.

Notation "'let+' x ':=' m 'in' k" := (sbind m (fun x => k))
  (at level 10, x name, m at level 100, k at level 200).

(** The first document with this e-mail. An [undefined] e-mail matches no
    document, every document having one. *)
Definition byEmail (email : option string) (d : Doctor.t) : bool :=
  match email with
  | Some e => String.eqb (Doctor.email d) e
  | None => false
  end.

(** [await doctor.findOne({ email })]. *)
Definition doctor_findByEmail (env : Env) (email : option string) : St (option Doctor.t) :=
  let+ _ := call (CallFindByEmail email) in
  match findFault env with
  | Some e => sthrow e
  | None =>
      let+ coll := getDoctors in
      sret (find (byEmail email) coll)
  end.

(** [await bcrypt.hash(password, saltRounds)]. *)
Definition bcrypt_hash (env : Env) (password : option string) : St string :=
  let+ _ := call (CallHash password) in
  outcome (bcryptHash env password).

(** [await bcrypt.compare(password, hash)]. *)
Definition bcrypt_compare (env : Env) (password : option string) (hash : string) : St bool :=
  let+ _ := call (CallCompare password hash) in
  outcome (bcryptCompare env password hash).

(** The [required] validator of a string path: a non-empty string. *)
Definition nonEmpty (s : string) : bool :=
  match s with
  | EmptyString => false
  | String _ _ => true
  end.

(** [await doctor.create(doc)]: the validators of [doctorSchema], then the
    insertion. *)
Definition doctor_create (env : Env) (doc : Doctor.t) : St Doctor.t :=
  let+ _ := call (CallCreate doc) in
  if negb (nonEmpty (Doctor.name doc) && nonEmpty (Doctor.email doc)
           && nonEmpty (Doctor.passwordHash doc))
  then sthrow (validationError env doc)
  else
    let+ coll := getDoctors in
    match createFault env doc coll with
    | Some e => sthrow e
    | None =>
        let+ _ := putDoctors (coll ++ [doc]) in
        sret doc
    end.

(** [req.body] of the registration. *)
Record RegisterBody := {
  name : option string;
  email : option string;
  password : option string;
  phone : option string;
  gender : option string;
  specialization : option string;
  location : option string
}.

(** The body of the responses of [POST /register]. *)
Record RegisterResponse := {
  reg_statusCode : Z;
  reg_success : bool;
  reg_message : string;
  reg_doctorId : option string
}.

(** The [TypeError] of [undefined.toLowerCase()]. *)
Definition toLowerCaseError : Err.t :=
  Err.ofMessage (Some "Cannot read properties of undefined (reading 'toLowerCase')").

(** The document [POST /register] hands to [doctor.create]: the object
    literal, with the defaults of the schema for the paths it leaves out.
    An [undefined] [name] or [email] is an absent path, which the
    [required] validator refuses like an empty one. *)
Definition newDoctor (body : RegisterBody) (passwordHash doctorid : string)
    (specialization location : string) : Doctor.t :=
  {| Doctor.name := JS.or_else (name body) "";
     Doctor.email := JS.or_else (email body) "";
     Doctor.passwordHash := passwordHash;
     Doctor.phone := phone body;
     Doctor.gender := gender body;
     Doctor.status := Some "pending";
     Doctor.idproof := None;
     Doctor.profilePicture := None;
     Doctor.doctorid := Some doctorid;
     Doctor.specialization := Some specialization;
     Doctor.location := Some location |}.

(** [POST /register]. *)
Definition register (env : Env) (body : RegisterBody) : St RegisterResponse :=
  stry
    (let+ existingDoctor := doctor_findByEmail env (email body) in
     match existingDoctor with
     | Some _ =>
         sret {| reg_statusCode := 400; reg_success := false;
                 reg_message := "Doctor with this email already exists";
                 reg_doctorId := None |}
     | None =>
         let+ passwordHash := bcrypt_hash env (password body) in
         let doctorid := generatedCode env in
         match specialization body with
         | None => sthrow toLowerCaseError
         | Some sp =>
             match location body with
             | None => sthrow toLowerCaseError
             | Some loc =>
                 let+ newDoc :=
                   doctor_create env
                     (newDoctor body passwordHash doctorid
                        (toLowerCase env sp) (toLowerCase env loc)) in
                 sret {| reg_statusCode := 201; reg_success := true;
                         reg_message :=
                           "Doctor registered successfully! Please wait for admin approval.";
                         reg_doctorId := Some doctorid |}
             end
         end
     end)
    (fun error =>
       sret {| reg_statusCode := 500; reg_success := false;
               reg_message := "Error registering doctor: " +:+ JS.interp (Err.message error);
               reg_doctorId := None |}).

(** [req.body] of the login. *)
Record LoginBody := {
  login_email : option string;
  login_password : option string
}.

(** The body of the responses of [POST /login]. *)
Record LoginResponse := {
  login_statusCode : Z;
  login_success : bool;
  login_message : string;
  login_doctorId : option string;
  login_redirectUrl : option string
}.

Definition invalidCredentials : LoginResponse :=
  {| login_statusCode := 401; login_success := false;
     login_message := "Invalid email or password";
     login_doctorId := None; login_redirectUrl := None |}.

(** The [TypeError] of an assignment to a property of [undefined]. *)
Definition setPropertyError : Err.t :=
  Err.ofMessage (Some "Cannot set properties of undefined (setting 'doctorId')").

(** [req.session.doctorId = ...; req.session.doctorEmail = ...]. *)
Definition setSession (doctorId : option string) (doctorEmail : string) : St unit :=
  let+ ss := getSession in
  match ss with
  | None => sthrow setPropertyError
  | Some _ =>
      putSession (Some {| Session.doctorId := doctorId;
                          Session.doctorEmail := Some doctorEmail |})
  end.

(** [POST /login]. *)
Definition login (env : Env) (body : LoginBody) : St LoginResponse :=
  stry
    (let+ foundDoctor := doctor_findByEmail env (login_email body) in
     match foundDoctor with
     | None => sret invalidCredentials
     | Some d =>
         if negb (bool_decide (Doctor.status d = Some "approved")) then
           sret {| login_statusCode := 403; login_success := false;
                   login_message :=
                     "Your account is pending approval. Please wait for admin approval.";
                   login_doctorId := None; login_redirectUrl := None |}
         else
           let+ isPasswordValid :=
             bcrypt_compare env (login_password body) (Doctor.passwordHash d) in
           if negb isPasswordValid then sret invalidCredentials
           else
             let+ _ := setSession (Doctor.doctorid d) (Doctor.email d) in
             sret {| login_statusCode := 200; login_success := true;
                     login_message := "Login successful";
                     login_doctorId := Doctor.doctorid d;
                     login_redirectUrl := Some "/doctor/dashboard" |}
     end)
    (fun error =>
       sret {| login_statusCode := 500; login_success := false;
               login_message := "Error during login: " +:+ JS.interp (Err.message error);
               login_doctorId := None; login_redirectUrl := None |}).

(** The body of the responses of [POST /logout]. *)
Record LogoutResponse := {
  logout_statusCode : Z;
  logout_success : bool;
  logout_message : string
}.

(** The [TypeError] of a method call on [undefined]. *)
Definition destroyOfUndefined : Err.t :=
  Err.ofMessage (Some "Cannot read properties of undefined (reading 'destroy')").

(** The session a connection gets when the store holds none for it. *)
Definition freshSession : Session.t :=
  {| Session.doctorId := None; Session.doctorEmail := None |}.

(** [POST /logout]: no guard and no [try]. [destroy] removes the session of
    the connection from the store, unless the store fails. *)
Definition logout (env : Env) : St LogoutResponse :=
  let+ ss := getSession in
  match ss with
  | None => sthrow destroyOfUndefined
  | Some _ =>
      let+ _ := call CallDestroy in
      match destroyError env with
      | Some err =>
          sret {| logout_statusCode := 500; logout_success := false;
                  logout_message := "Error logging out" |}
      | None =>
          let+ _ := putSession (Some freshSession) in
          sret {| logout_statusCode := 200; logout_success := true;
                  logout_message := "Logged out successfully" |}
      end
  end.

(** The first document of the list that satisfies [p], replaced by its
    image under [f]; the document as updated. *)
Fixpoint updateFirst (p : Doctor.t -> bool) (f : Doctor.t -> Doctor.t)
    (l : list Doctor.t) : list Doctor.t * option Doctor.t :=
  match l with
  | [] => ([], None)
  | d :: rest =>
      if p d then (f d :: rest, Some (f d))
      else let '(rest', r) := updateFirst p f rest in (d :: rest', r)
  end.

Definition hasDoctorId (doctorId : string) (d : Doctor.t) : bool :=
  match Doctor.doctorid d with
  | Some i => String.eqb i doctorId
  | None => false
  end.

Definition setProfilePicture (url : string) (d : Doctor.t) : Doctor.t :=
  {| Doctor.name := Doctor.name d;
     Doctor.email := Doctor.email d;
     Doctor.passwordHash := Doctor.passwordHash d;
     Doctor.phone := Doctor.phone d;
     Doctor.gender := Doctor.gender d;
     Doctor.status := Doctor.status d;
     Doctor.idproof := Doctor.idproof d;
     Doctor.profilePicture := Some url;
     Doctor.doctorid := Doctor.doctorid d;
     Doctor.specialization := Doctor.specialization d;
     Doctor.location := Doctor.location d |}.

(** [await doctor.findOneAndUpdate({ doctorid }, { profilePicture: url },
    { new: true })], then the selection without the password hash. *)
Definition doctor_updatePicture (env : Env) (doctorId url : string)
    : St (option DoctorPages.PublicDoctor) :=
  let+ _ := call (CallUpdatePicture doctorId url) in
  match updateFault env with
  | Some e => sthrow e
  | None =>
      let+ coll := getDoctors in
      let '(coll', updated) := updateFirst (hasDoctorId doctorId) (setProfilePicture url) coll in
      let+ _ := putDoctors coll' in
      sret (option_map DoctorPages.withoutPasswordHash updated)
  end.

(** [await cloudinary.uploader.upload(path, { folder })]. *)
Definition cloudinary_upload (env : Env) (path : string) : St string :=
  let+ _ := call (CallUpload path) in
  outcome (cloudinaryUpload env path).

(** The body of the responses of [POST /profile/picture]. *)
Record PictureResponse := {
  pic_statusCode : Z;
  pic_success : bool;
  pic_message : string;
  pic_profilePicture : option string;
  pic_doctor : option DoctorPages.PublicDoctor
}.

(** [POST /profile/picture]; [file] is [req.file.path] when the upload
    middleware has stored a file. *)
Definition uploadPicture (env : Env) (file : option string) : St (Reply PictureResponse) :=
  let+ ss := getSession in
  DoctorPages.isDoctorLoggedIn ss
    (fun doctorId =>
       stry
         (match file with
          | None =>
              sret (Respond {| pic_statusCode := 400; pic_success := false;
                               pic_message := "No file uploaded";
                               pic_profilePicture := None; pic_doctor := None |})
          | Some path =>
              let+ secure_url := cloudinary_upload env path in
              let+ updatedDoctor := doctor_updatePicture env doctorId secure_url in
              sret (Respond {| pic_statusCode := 200; pic_success := true;
                               pic_message := "Profile picture uploaded successfully";
                               pic_profilePicture := Some secure_url;
                               pic_doctor := updatedDoctor |})
          end)
         (fun error =>
            sret (Respond {| pic_statusCode := 500; pic_success := false;
                             pic_message := "Error uploading profile picture: "
                                              +:+ JS.interp (Err.message error);
                             pic_profilePicture := None; pic_doctor := None |})))
    (fun location => sret (Redirect location)).

End Auth.

(** The doctor id the guard lets through, if it lets the request through. *)
Definition loggedInAs (session : option Session.t) : option string :=
  DoctorPages.isDoctorLoggedIn session Some (fun _ => None).

(** The state of the account routes after some more calls. *)
Definition addCalls (st : Auth.State) (cs : list Auth.Call) : Auth.State :=
  {| Auth.doctorColl := Auth.doctorColl st; Auth.session := Auth.session st;
     Auth.calls := Auth.calls st ++ cs |}.

(** The same, with the session of a doctor who has just logged in. *)
Definition loggedIn (st : Auth.State) (d : Doctor.t) (cs : list Auth.Call) : Auth.State :=
  {| Auth.doctorColl := Auth.doctorColl st;
     Auth.session := Some {| Session.doctorId := Doctor.doctorid d;
                             Session.doctorEmail := Some (Doctor.email d) |};
     Auth.calls := Auth.calls st ++ cs |}.

(** The same, with one more document in the collection. *)
Definition inserted (st : Auth.State) (doc : Doctor.t) (cs : list Auth.Call) : Auth.State :=
  {| Auth.doctorColl := Auth.doctorColl st ++ [doc]; Auth.session := Auth.session st;
     Auth.calls := Auth.calls st ++ cs |}.

(** The responses of [POST /login] other than the 401. *)
Definition loginPending : Auth.LoginResponse :=
  {| Auth.login_statusCode := 403; Auth.login_success := false;
     Auth.login_message :=
       "Your account is pending approval. Please wait for admin approval.";
     Auth.login_doctorId := None; Auth.login_redirectUrl := None |}.

Definition loginOk (d : Doctor.t) : Auth.LoginResponse :=
  {| Auth.login_statusCode := 200; Auth.login_success := true;
     Auth.login_message := "Login successful";
     Auth.login_doctorId := Doctor.doctorid d;
     Auth.login_redirectUrl := Some "/doctor/dashboard" |}.

Definition loginError (e : Err.t) : Auth.LoginResponse :=
  {| Auth.login_statusCode := 500; Auth.login_success := false;
     Auth.login_message := "Error during login: " +:+ JS.interp (Err.message e);
     Auth.login_doctorId := None; Auth.login_redirectUrl := None |}.

(** The responses of [POST /register]. *)
Definition registerDuplicate : Auth.RegisterResponse :=
  {| Auth.reg_statusCode := 400; Auth.reg_success := false;
     Auth.reg_message := "Doctor with this email already exists";
     Auth.reg_doctorId := None |}.

Definition registerOk (doctorid : string) : Auth.RegisterResponse :=
  {| Auth.reg_statusCode := 201; Auth.reg_success := true;
     Auth.reg_message := "Doctor registered successfully! Please wait for admin approval.";
     Auth.reg_doctorId := Some doctorid |}.

Definition registerError (e : Err.t) : Auth.RegisterResponse :=
  {| Auth.reg_statusCode := 500; Auth.reg_success := false;
     Auth.reg_message := "Error registering doctor: " +:+ JS.interp (Err.message e);
     Auth.reg_doctorId := None |}.

(** An environment in which every collaborator answers, for examples. *)
Definition quietEnv : Auth.Env :=
  {| Auth.bcryptHash := fun _ => Returns "$2a$10$hash";
     Auth.bcryptCompare := fun _ _ => Returns true;
     Auth.generatedCode := "DOC-0042";
     Auth.toLowerCase := fun x => x;
     Auth.findFault := None;
     Auth.validationError := fun _ => Err.ofMessage (Some "doctor validation failed");
     Auth.createFault := fun _ _ => None;
     Auth.updateFault := None;
     Auth.cloudinaryUpload := fun _ => Returns "https://res.cloudinary.com/demo/p.png";
     Auth.destroyError := None |}.

(** A registration form, complete. *)
Definition jonesForm : Auth.RegisterBody :=
  {| Auth.name := Some "Jones"; Auth.email := Some "jones@x.com";
     Auth.password := Some "s3cret"; Auth.phone := Some "555-0100";
     Auth.gender := None; Auth.specialization := Some "neurology";
     Auth.location := Some "pune" |}.

(** The account state of the scenario: doctor Smith, nobody logged in. *)
Definition accounts0 : Auth.State :=
  {| Auth.doctorColl := [Scenario.smith]; Auth.session := Some Auth.freshSession;
     Auth.calls := [] |}.

(** A form with the e-mail of a stored doctor, and one without a location. *)
Definition smithAgainForm : Auth.RegisterBody :=
  {| Auth.name := Some "Smith II"; Auth.email := Some "smith@x.com";
     Auth.password := Some "pw"; Auth.phone := None; Auth.gender := None;
     Auth.specialization := Some "cardiology"; Auth.location := Some "pune" |}.

Definition noLocationForm : Auth.RegisterBody :=
  {| Auth.name := Some "Jones"; Auth.email := Some "jones@x.com";
     Auth.password := Some "s3cret"; Auth.phone := None; Auth.gender := None;
     Auth.specialization := Some "neurology"; Auth.location := None |}.

(** The responses of [POST /profile/picture]. *)
Definition pictureMissing : Auth.PictureResponse :=
  {| Auth.pic_statusCode := 400; Auth.pic_success := false;
     Auth.pic_message := "No file uploaded";
     Auth.pic_profilePicture := None; Auth.pic_doctor := None |}.

Definition pictureError (e : Err.t) : Auth.PictureResponse :=
  {| Auth.pic_statusCode := 500; Auth.pic_success := false;
     Auth.pic_message := "Error uploading profile picture: " +:+ JS.interp (Err.message e);
     Auth.pic_profilePicture := None; Auth.pic_doctor := None |}.

Definition pictureOk (url : string) (doctor : option DoctorPages.PublicDoctor)
    : Auth.PictureResponse :=
  {| Auth.pic_statusCode := 200; Auth.pic_success := true;
     Auth.pic_message := "Profile picture uploaded successfully";
     Auth.pic_profilePicture := Some url; Auth.pic_doctor := doctor |}.

(** The account state of the scenario with doctor Smith logged in. *)
Definition accounts_smith : Auth.State :=
  {| Auth.doctorColl := [Scenario.smith];
     Auth.session := Some {| Session.doctorId := Some "d1";
                             Session.doctorEmail := Some "smith@x.com" |};
     Auth.calls := [] |}.

(** ** The calendar arithmetic, one cycle of 400 years at a time *)

Module Calendar.

(** Day of the cycle for year [yoe] of the cycle (years start in March),
    month [mp] (0 is March) and day [d]: the inner part of
    [JSDate.daysFromCivil]. *)
Definition doeOf (yoe mp d : Z) : Z :=
  yoe * 365 + yoe / 4 - yoe / 100 + ((153 * mp + 2) / 5 + d - 1).

(** Year, month and day of a day of the cycle: the inner part of
    [JSDate.civilFromDays]. *)
Definition cellOf (doe : Z) : Z * Z * Z :=
  let yoe := (doe - doe / 1460 + doe / 36524 - doe / 146096) / 365 in
  let doy := doe - (365 * yoe + yoe / 4 - yoe / 100) in
  let mp := (5 * doy + 2) / 153 in
  (yoe, mp, doy - (153 * mp + 2) / 5 + 1).

(** Length of month [mp] of year [yoe] of the cycle; its January and
    February belong to the civil year after. *)
Definition monthLength (yoe mp : Z) : Z :=
  if mp =? 11 then (if JSDate.isLeap (yoe + 1) then 29 else 28)
  else if (mp =? 1) || (mp =? 3) || (mp =? 6) || (mp =? 8) then 30
  else 31.

Definition range (a : Z) (n : nat) : list Z := map (fun i => a + Z.of_nat i) (seq 0 n).

Definition cellOk (yoe mp d : Z) : bool :=
  let doe := doeOf yoe mp d in
  (0 <=? doe) && (doe <? 146097) &&
  match cellOf doe with
  | (yoe', mp', d') => (yoe' =? yoe) && (mp' =? mp) && (d' =? d)
  end.

End Calendar.

(** ** Date-only strings, for the statements about dates *)

(** The character of a decimal digit. *)
Definition digitChar (k : Z) : ascii := ascii_of_nat (48 + Z.to_nat k).

(** The date-only string [YYYY-MM-DD] of a date. *)
Definition isoDate (y m d : Z) : string :=
  String (digitChar (y / 1000)) (String (digitChar (y / 100 mod 10))
  (String (digitChar (y / 10 mod 10)) (String (digitChar (y mod 10))
  (String "-" (String (digitChar (m / 10)) (String (digitChar (m mod 10))
  (String "-" (String (digitChar (d / 10)) (String (digitChar (d mod 10)) ""))))))))).

(** The world of the scenario on a host five hours behind UTC. *)
Definition world_newYork : World :=
  {| host := {| JSDate.tzOffset := fun _ => -300;
                JSDate.defaultLocale := JSDate.en_US;
                JSDate.hostParse := fun _ => None;
                JSDate.now := 1717200000000 |};
     EMAIL_USER := Some "clinic@example.com";
     EMAIL_PASS := Some "app-password";
     smtpVerify := None;
     smtpSendMail := fun _ => Returns {| Mail.info_messageId := "<1@example.com>" |};
     findAppointmentFault := None;
     saveFault := None;
     doctors := [Scenario.smith];
     findDoctorFault := None;
     mongooseModels := ["doctor"; "appointment"] |}.
(** * Properties *)

(** ** The senders *)

Section Senders.

Variable w : World.

Lemma addTrace_nil s : addTrace s [] = s.
Proof. destruct s; unfold addTrace; simpl. by rewrite app_nil_r. Qed.

Lemma config_valid_iff :
  EmailService.valid (EmailService.validateEmailConfig w) = true <->
  JS.truthy (EMAIL_USER w) = true /\ JS.truthy (EMAIL_PASS w) = true.
Proof.
  unfold EmailService.validateEmailConfig.
  destruct (JS.truthy (EMAIL_USER w)), (JS.truthy (EMAIL_PASS w)); simpl; intuition congruence.
Qed.

Lemma sendAppointmentConfirmationEmail_eq ad d s :
  EmailService.sendAppointmentConfirmationEmail w ad d s =
  let config := EmailService.validateEmailConfig w in
  if negb (EmailService.valid config)
  then (Returns (EmailService.failure (EmailService.config_error config) None), s)
  else
    match smtpVerify w with
    | Some e => (Returns (EmailService.confirmationFailure e), addTrace s [EvVerify])
    | None =>
        match ad with
        | None =>
            (Returns (EmailService.confirmationFailure EmailService.destructureError),
             addTrace s [EvVerify])
        | Some a =>
            if negb (JS.truthy (Appointment.patientEmail a))
            then (Returns (EmailService.failure (Some "Patient email not found") None),
                  addTrace s [EvVerify])
            else
              let opts := EmailService.confirmationMailOptions w a d in
              match smtpSendMail w opts with
              | Returns info =>
                  (Returns (EmailService.sent info), addTrace s [EvVerify; EvSendMail opts])
              | Throws e =>
                  (Returns (EmailService.confirmationFailure e),
                   addTrace s [EvVerify; EvSendMail opts])
              end
        end
    end.
Proof.
  unfold EmailService.sendAppointmentConfirmationEmail, EmailService.createTransporter,
    EmailService.verify, EmailService.sendMail, try_catch, bind, ret, throw, emit, addTrace.
  cbv zeta.
  destruct (EmailService.valid (EmailService.validateEmailConfig w)); cbn [negb]; [|reflexivity].
  cbn [fst snd appointments trace].
  destruct (smtpVerify w); [reflexivity|].
  destruct ad as [a|]; [|reflexivity].
  destruct (JS.truthy (Appointment.patientEmail a)); cbn [negb]; [|reflexivity].
  cbn [fst snd appointments trace].
  rewrite <- app_assoc. cbn [app].
  destruct (smtpSendMail w _); reflexivity.
Qed.

Lemma sendOTPEmail_eq email otp s :
  EmailService.sendOTPEmail w email otp s =
  let config := EmailService.validateEmailConfig w in
  if negb (EmailService.valid config)
  then (Returns (EmailService.failure (EmailService.config_error config) None), s)
  else
    match smtpVerify w with
    | Some e => (Returns (EmailService.otpFailure e), addTrace s [EvVerify])
    | None =>
        let opts := EmailService.otpMailOptions w email otp in
        match smtpSendMail w opts with
        | Returns info =>
            (Returns (EmailService.sent info), addTrace s [EvVerify; EvSendMail opts])
        | Throws e =>
            (Returns (EmailService.otpFailure e), addTrace s [EvVerify; EvSendMail opts])
        end
    end.
Proof.
  unfold EmailService.sendOTPEmail, EmailService.createTransporter,
    EmailService.verify, EmailService.sendMail, try_catch, bind, ret, throw, emit, addTrace.
  cbv zeta.
  destruct (EmailService.valid (EmailService.validateEmailConfig w)); cbn [negb]; [|reflexivity].
  cbn [fst snd appointments trace].
  destruct (smtpVerify w); [reflexivity|].
  cbn [fst snd appointments trace].
  rewrite <- app_assoc. cbn [app].
  destruct (smtpSendMail w _); reflexivity.
Qed.

Lemma sendAppointmentConfirmationEmail_readOnly ad d :
  readOnly (EmailService.sendAppointmentConfirmationEmail w ad d).
Proof.
  intros s. rewrite sendAppointmentConfirmationEmail_eq. cbv zeta.
  repeat match goal with
         | |- context [match ?x with _ => _ end] => destruct x
         end; reflexivity.
Qed.

Lemma sendAppointmentConfirmationEmail_returns ad d s :
  exists res, fst (EmailService.sendAppointmentConfirmationEmail w ad d s) = Returns res.
Proof.
  rewrite sendAppointmentConfirmationEmail_eq. cbv zeta.
  repeat match goal with
         | |- context [match ?x with _ => _ end] => destruct x
         end; eexists; reflexivity.
Qed.

End Senders.

(** ** The confirmation handler *)

Section Handler.

Import DoctorRoutes.

Variable lookup : string -> M (option Doctor.t).
Variable sendEmail : option Appointment.t -> option Doctor.t -> M Mail.Result.
Variable w : World.
Variable req : Request.

Lemma confirmHandlerWith_query_fault s e :
  findAppointmentFault w = Some e ->
  confirmHandlerWith lookup sendEmail w req s
  = (Returns (serverError e), addTrace s [EvFindAppointment (appointmentId req) (doctorId req)]).
Proof.
  intros Hf.
  unfold confirmHandlerWith, appointment_findOne, try_catch, bind, emit, throw, ret.
  rewrite Hf. reflexivity.
Qed.

Lemma confirmHandlerWith_miss s :
  findAppointmentFault w = None ->
  matching (appointments s) (appointmentId req) (doctorId req) = None ->
  confirmHandlerWith lookup sendEmail w req s
  = (Returns notFound, addTrace s [EvFindAppointment (appointmentId req) (doctorId req)]).
Proof.
  intros Hf Hm.
  unfold confirmHandlerWith, appointment_findOne, getAppointments, try_catch, bind,
    emit, throw, ret.
  rewrite Hf. cbn [appointments]. rewrite Hm. reflexivity.
Qed.

Lemma confirmHandlerWith_save_fault s a e :
  findAppointmentFault w = None ->
  matching (appointments s) (appointmentId req) (doctorId req) = Some a ->
  saveFault w = Some e ->
  confirmHandlerWith lookup sendEmail w req s
  = (Returns (serverError e),
     addTrace s [EvFindAppointment (appointmentId req) (doctorId req); EvSave (appointmentId req) (confirmed w req a)]).
Proof.
  intros Hf Hm Hs.
  unfold confirmHandlerWith, appointment_findOne, save, getAppointments, try_catch, bind,
    emit, throw, ret, addTrace.
  rewrite Hf. cbn [appointments trace]. rewrite Hm, Hs.
  cbn [appointments trace]. by rewrite <- app_assoc.
Qed.

(** The state in which the handler enters its inner [try]. *)
Lemma confirmHandlerWith_found s a :
  findAppointmentFault w = None ->
  matching (appointments s) (appointmentId req) (doctorId req) = Some a ->
  saveFault w = None ->
  let doc := confirmed w req a in
  let s1 := written s (appointmentId req) doc [EvFindAppointment (appointmentId req) (doctorId req); EvSave (appointmentId req) doc] in
  confirmHandlerWith lookup sendEmail w req s
  = (Returns (ok doc),
     match lookup (doctorId req) s1 with
     | (Returns doctorDetails, s2) => snd (sendEmail (Some doc) doctorDetails s2)
     | (Throws _, s2) => s2
     end).
Proof.
  intros Hf Hm Hs doc s1.
  unfold confirmHandlerWith, appointment_findOne, save, getAppointments, putAppointments,
    try_catch, bind, emit, throw, ret.
  rewrite Hf. cbn [appointments trace]. rewrite Hm, Hs.
  cbn [appointments trace]. rewrite <- app_assoc. cbn [app].
  subst s1 doc. unfold written.
  destruct (lookup (doctorId req) _) as [[d|e] s2]; [|reflexivity].
  destruct (sendEmail _ d s2) as [[r|e] s3]; reflexivity.
Qed.

Lemma confirmHandlerWith_found_store s a :
  findAppointmentFault w = None ->
  matching (appointments s) (appointmentId req) (doctorId req) = Some a ->
  saveFault w = None ->
  (forall x, readOnly (lookup x)) ->
  (forall ad d, readOnly (sendEmail ad d)) ->
  appointments (snd (confirmHandlerWith lookup sendEmail w req s))
  = <[appointmentId req := confirmed w req a]> (appointments s).
Proof.
  intros Hf Hm Hs Hl He.
  rewrite (confirmHandlerWith_found s a Hf Hm Hs). cbv zeta. cbn [snd].
  match goal with |- context [lookup ?x ?s1] =>
    pose proof (Hl x s1) as H1; destruct (lookup x s1) as [[d|e] s2] end;
    cbn [snd] in H1.
  - rewrite He, H1. reflexivity.
  - rewrite H1. reflexivity.
Qed.

End Handler.

(** ** The handler as wired: [getDoctorById] and the mailer *)

Section Wired.

Import DoctorRoutes.

Variable w : World.

(** [mongoose] is not bound in the module, so the helper catches a
    [ReferenceError] and answers [null], whatever the doctor collection
    holds. *)
Lemma getDoctorById_null doctorId s :
  getDoctorById w doctorId s = (Returns None, s).
Proof. reflexivity. Qed.

Lemma getDoctorById_readOnly doctorId : readOnly (getDoctorById w doctorId).
Proof. intros s. by rewrite getDoctorById_null. Qed.

Lemma matching_owned (coll : gmap string Appointment.t) id doctorid a :
  coll !! id = Some a ->
  Appointment.doctorid a = doctorid ->
  matching coll id doctorid = Some a.
Proof.
  intros Hl Hd. unfold matching. rewrite Hl.
  apply String.eqb_eq in Hd. by rewrite Hd.
Qed.

Lemma matching_not_owned (coll : gmap string Appointment.t) id doctorid :
  (forall a, coll !! id = Some a -> Appointment.doctorid a <> doctorid) ->
  matching coll id doctorid = None.
Proof.
  intros H. unfold matching.
  destruct (coll !! id) as [a|] eqn:Hl; [|reflexivity].
  specialize (H a eq_refl). apply String.eqb_neq in H. by rewrite H.
Qed.

Lemma confirmHandler_found req s a :
  findAppointmentFault w = None ->
  appointments s !! appointmentId req = Some a ->
  Appointment.doctorid a = doctorId req ->
  saveFault w = None ->
  let doc := confirmed w req a in
  let s1 := written s (appointmentId req) doc
              [EvFindAppointment (appointmentId req) (doctorId req);
               EvSave (appointmentId req) doc] in
  confirmHandler w req s
  = (Returns (ok doc),
     snd (EmailService.sendAppointmentConfirmationEmail w (Some doc) None s1)).
Proof.
  intros Hf Hl Hd Hs doc s1. unfold confirmHandler.
  rewrite (confirmHandlerWith_found _ _ w req s a Hf (matching_owned _ _ _ _ Hl Hd) Hs).
  cbv zeta. by rewrite getDoctorById_null.
Qed.

Lemma confirmHandler_found_store req s a :
  findAppointmentFault w = None ->
  appointments s !! appointmentId req = Some a ->
  Appointment.doctorid a = doctorId req ->
  saveFault w = None ->
  appointments (snd (confirmHandler w req s))
  = <[appointmentId req := confirmed w req a]> (appointments s).
Proof.
  intros Hf Hl Hd Hs.
  apply confirmHandlerWith_found_store; auto using matching_owned.
  - intros x. apply getDoctorById_readOnly.
  - intros ad d. apply sendAppointmentConfirmationEmail_readOnly.
Qed.

End Wired.

(** No response of the handler carries [emailSent: false]. *)
Lemma confirmHandlerWith_emailSent_never_false lookup sendEmail w req s resp :
  fst (DoctorRoutes.confirmHandlerWith lookup sendEmail w req s) = Returns resp ->
  DoctorRoutes.emailSent resp <> Some false.
Proof.
  destruct (findAppointmentFault w) as [e|] eqn:Hf.
  { rewrite (confirmHandlerWith_query_fault _ _ _ _ _ e Hf). cbn. by intros [= <-]. }
  destruct (DoctorRoutes.matching (appointments s) (DoctorRoutes.appointmentId req)
              (DoctorRoutes.doctorId req)) as [a|] eqn:Hm.
  2:{ rewrite (confirmHandlerWith_miss _ _ _ _ _ Hf Hm). cbn. by intros [= <-]. }
  destruct (saveFault w) as [e|] eqn:Hs.
  { rewrite (confirmHandlerWith_save_fault _ _ _ _ _ a e Hf Hm Hs). cbn. by intros [= <-]. }
  rewrite (confirmHandlerWith_found _ _ _ _ _ a Hf Hm Hs). cbn. by intros [= <-].
Qed.

(** * The claims *)

(** C4. When no stored appointment has both the requested id and the
    requesting doctor as its assigned doctor, the handler writes nothing: the
    collection is as before and the only action on the database is the query.
    When the query is answered, the response is 404 with [success: false]
    and the message [Appointment not found]. *)
Theorem C4_not_owned_not_found (w : World) (req : DoctorRoutes.Request) (s : Store) :
  (forall a, appointments s !! DoctorRoutes.appointmentId req = Some a ->
             Appointment.doctorid a <> DoctorRoutes.doctorId req) ->
  let r := DoctorRoutes.confirmHandler w req s in
  appointments (snd r) = appointments s /\
  trace (snd r)
    = trace s ++ [EvFindAppointment (DoctorRoutes.appointmentId req) (DoctorRoutes.doctorId req)] /\
  (findAppointmentFault w = None ->
   fst r = Returns {| DoctorRoutes.statusCode := 404;
                      DoctorRoutes.success := false;
                      DoctorRoutes.message := "Appointment not found";
                      DoctorRoutes.appointment := None;
                      DoctorRoutes.emailSent := None |}).
Proof.
  intros Hno r. subst r. unfold DoctorRoutes.confirmHandler.
  apply matching_not_owned in Hno.
  destruct (findAppointmentFault w) as [e|] eqn:Hf.
  - rewrite (confirmHandlerWith_query_fault _ _ _ _ _ e Hf). cbn. by repeat split.
  - rewrite (confirmHandlerWith_miss _ _ _ _ _ Hf Hno). cbn. by repeat split.
Qed.

Lemma C4_witness :
  let r := DoctorRoutes.confirmHandler Scenario.world Scenario.request_d2 Scenario.store0 in
  appointments (snd r) = appointments Scenario.store0 /\
  trace (snd r) = trace Scenario.store0 ++ [EvFindAppointment "a1" "d2"] /\
  (findAppointmentFault Scenario.world = None ->
   fst r = Returns {| DoctorRoutes.statusCode := 404;
                      DoctorRoutes.success := false;
                      DoctorRoutes.message := "Appointment not found";
                      DoctorRoutes.appointment := None;
                      DoctorRoutes.emailSent := None |}).
Proof.
  apply (C4_not_owned_not_found Scenario.world Scenario.request_d2 Scenario.store0).
  intros a H. vm_compute in H. injection H as <-. vm_compute. discriminate.
Defined.

(** C5. Once the appointment is found and the write has succeeded, the
    response is the 200 success response whatever the doctor lookup and the
    sender do, throwing included; the confirmed record stays in the
    collection (the collaborators do not write it), and this holds for the
    handler as the module wires it. *)
Theorem C5_success_whatever_the_notification_does
    (lookup : string -> M (option Doctor.t))
    (sendEmail : option Appointment.t -> option Doctor.t -> M Mail.Result)
    (w : World) (req : DoctorRoutes.Request) (s : Store) (a : Appointment.t) :
  appointments s !! DoctorRoutes.appointmentId req = Some a ->
  Appointment.doctorid a = DoctorRoutes.doctorId req ->
  findAppointmentFault w = None ->
  saveFault w = None ->
  let doc := DoctorRoutes.confirmed w req a in
  let r := DoctorRoutes.confirmHandlerWith lookup sendEmail w req s in
  let r' := DoctorRoutes.confirmHandler w req s in
  (exists resp, fst r = Returns resp /\
     DoctorRoutes.statusCode resp = 200 /\ DoctorRoutes.success resp = true /\
     DoctorRoutes.appointment resp = Some doc) /\
  ((forall x, readOnly (lookup x)) -> (forall ad d, readOnly (sendEmail ad d)) ->
   appointments (snd r) !! DoctorRoutes.appointmentId req = Some doc) /\
  Appointment.status doc = Some "confirmed" /\
  fst r' = Returns (DoctorRoutes.ok doc) /\
  appointments (snd r') !! DoctorRoutes.appointmentId req = Some doc.
Proof.
  intros Hl Hd Hf Hs doc r r'. subst r r'.
  pose proof (matching_owned _ _ _ _ Hl Hd) as Hm.
  split; [|split; [|split; [|split]]].
  - rewrite (confirmHandlerWith_found _ _ _ _ _ a Hf Hm Hs). cbn.
    eexists; repeat split.
  - intros H1 H2. rewrite (confirmHandlerWith_found_store _ _ _ _ _ a Hf Hm Hs H1 H2).
    apply lookup_insert_eq.
  - reflexivity.
  - by rewrite (confirmHandler_found w req s a Hf Hl Hd Hs).
  - rewrite (confirmHandler_found_store w req s a Hf Hl Hd Hs). apply lookup_insert_eq.
Qed.

Lemma C5_witness :
  let boom : Err.t := Err.ofMessage (Some "connection lost") in
  let r := DoctorRoutes.confirmHandlerWith (fun _ => throw boom) (fun _ _ => throw boom)
             Scenario.world Scenario.request Scenario.store0 in
  exists resp, fst r = Returns resp /\
     DoctorRoutes.statusCode resp = 200 /\ DoctorRoutes.success resp = true /\
     DoctorRoutes.appointment resp
       = Some (DoctorRoutes.confirmed Scenario.world Scenario.request Scenario.a1).
Proof.
  refine (proj1 (C5_success_whatever_the_notification_does
                   (fun _ => throw (Err.ofMessage (Some "connection lost")))
                   (fun _ _ => throw (Err.ofMessage (Some "connection lost")))
                   Scenario.world Scenario.request Scenario.store0 Scenario.a1 _ _ _ _));
    reflexivity.
Defined.

(** C6. Confirmation is not guarded to be one-way: on an appointment that
    is already confirmed and owned by the requester, a further call succeeds
    and the stored slot, date and message are those of this call (the
    message supplied, or the generated sentence when none is). *)
Theorem C6_reconfirmation_overwrites (w : World) (req : DoctorRoutes.Request)
    (s : Store) (a : Appointment.t) :
  appointments s !! DoctorRoutes.appointmentId req = Some a ->
  Appointment.doctorid a = DoctorRoutes.doctorId req ->
  Appointment.status a = Some "confirmed" ->
  findAppointmentFault w = None ->
  saveFault w = None ->
  let r := DoctorRoutes.confirmHandler w req s in
  (exists resp, fst r = Returns resp /\
     DoctorRoutes.statusCode resp = 200 /\ DoctorRoutes.success resp = true) /\
  exists a', appointments (snd r) !! DoctorRoutes.appointmentId req = Some a' /\
    Appointment.status a' = Some "confirmed" /\
    Appointment.timeSlot a' = DoctorRoutes.timeSlot req /\
    Appointment.appointmentDate a' = DoctorRoutes.appointmentDate req /\
    Appointment.confirmationMessage a'
      = Some (JS.or_else (DoctorRoutes.confirmationMessage req)
                (DoctorRoutes.defaultMessage w (DoctorRoutes.timeSlot req)
                   (DoctorRoutes.appointmentDate req))) /\
    (forall m, DoctorRoutes.confirmationMessage req = Some m -> m <> "" ->
               Appointment.confirmationMessage a' = Some m).
Proof.
  intros Hl Hd _ Hf Hs r. subst r. split.
  - rewrite (confirmHandler_found w req s a Hf Hl Hd Hs). cbn. eexists; repeat split.
  - rewrite (confirmHandler_found_store w req s a Hf Hl Hd Hs).
    exists (DoctorRoutes.confirmed w req a). rewrite lookup_insert_eq.
    repeat split. intros m Hm Hne. cbn. rewrite Hm.
    destruct m; [congruence | reflexivity].
Qed.

Lemma C6_witness :
  let s1 := snd (DoctorRoutes.confirmHandler Scenario.world Scenario.request Scenario.store0) in
  let r := DoctorRoutes.confirmHandler Scenario.world Scenario.request_again s1 in
  Appointment.timeSlot <$> (appointments s1 !! "a1") = Some (Some "10:00-10:30") /\
  exists a', appointments (snd r) !! "a1" = Some a' /\
    Appointment.status a' = Some "confirmed" /\
    Appointment.timeSlot a' = Some "14:00-14:30" /\
    Appointment.appointmentDate a' = Some "2024-06-03" /\
    Appointment.confirmationMessage a' = Some "Moved to Monday".
Proof.
  split; [vm_compute; reflexivity|].
  destruct (C6_reconfirmation_overwrites Scenario.world Scenario.request_again
              (snd (DoctorRoutes.confirmHandler Scenario.world Scenario.request Scenario.store0))
              (DoctorRoutes.confirmed Scenario.world Scenario.request Scenario.a1))
    as [_ (a' & H1 & H2 & H3 & H4 & _ & H6)];
    [vm_compute; reflexivity | reflexivity | reflexivity | reflexivity | reflexivity |].
  exists a'. repeat split; try assumption.
  apply H6; [reflexivity | discriminate].
Defined.

(** Two calls in a row: the second one wins. *)
Lemma confirm_twice_last_write_wins (w1 w2 : World) (req1 req2 : DoctorRoutes.Request)
    (s : Store) (a : Appointment.t) :
  DoctorRoutes.appointmentId req2 = DoctorRoutes.appointmentId req1 ->
  DoctorRoutes.doctorId req2 = DoctorRoutes.doctorId req1 ->
  appointments s !! DoctorRoutes.appointmentId req1 = Some a ->
  Appointment.doctorid a = DoctorRoutes.doctorId req1 ->
  findAppointmentFault w1 = None -> saveFault w1 = None ->
  findAppointmentFault w2 = None -> saveFault w2 = None ->
  let s1 := snd (DoctorRoutes.confirmHandler w1 req1 s) in
  let r2 := DoctorRoutes.confirmHandler w2 req2 s1 in
  fst r2 = Returns (DoctorRoutes.ok (DoctorRoutes.confirmed w2 req2 (DoctorRoutes.confirmed w1 req1 a))) /\
  appointments (snd r2) !! DoctorRoutes.appointmentId req1
    = Some (DoctorRoutes.confirmed w2 req2 (DoctorRoutes.confirmed w1 req1 a)).
Proof.
  intros Hid Hdoc Hl Hd Hf1 Hs1 Hf2 Hs2 s1 r2.
  assert (Hl1 : appointments s1 !! DoctorRoutes.appointmentId req2
                = Some (DoctorRoutes.confirmed w1 req1 a)).
  { subst s1. rewrite (confirmHandler_found_store w1 req1 s a Hf1 Hl Hd Hs1), Hid.
    apply lookup_insert_eq. }
  assert (Hd1 : Appointment.doctorid (DoctorRoutes.confirmed w1 req1 a)
                = DoctorRoutes.doctorId req2) by (cbn; congruence).
  subst r2. split.
  - by rewrite (confirmHandler_found w2 req2 s1 _ Hf2 Hl1 Hd1 Hs2).
  - rewrite (confirmHandler_found_store w2 req2 s1 _ Hf2 Hl1 Hd1 Hs2), Hid.
    apply lookup_insert_eq.
Qed.

(** C2, as the specification states it, fails on the scenario of its
    section 8: the stored message ends in the numeric date of the host's
    default locale, not in the long form. *)
Lemma C2_counterexample :
  DoctorRoutes.confirmationMessage Scenario.request = None /\
  exists a',
    appointments (snd (DoctorRoutes.confirmHandler Scenario.world Scenario.request
                         Scenario.store0)) !! "a1" = Some a' /\
    Appointment.confirmationMessage a'
      = Some "Your appointment has been confirmed for 10:00-10:30 on 6/1/2024" /\
    Spec.longFormMessage Scenario.world (Some "10:00-10:30") (Some "2024-06-01")
      = "Your appointment has been confirmed for 10:00-10:30 on Saturday, June 1, 2024" /\
    Appointment.confirmationMessage a'
      <> Some (Spec.longFormMessage Scenario.world (Some "10:00-10:30") (Some "2024-06-01")).
Proof.
  split; [reflexivity|].
  eexists. split; [vm_compute; reflexivity|].
  split; [reflexivity|]. split; [reflexivity|].
  vm_compute. discriminate.
Qed.

(** C2, amended. When the request carries no message (or an empty one), the
    message stored on the appointment is the sentence
    [Your appointment has been confirmed for <slot> on <date>] where the date
    is rendered by the no-argument [toLocaleDateString()]: the numeric date
    of the host's default locale, or [Invalid Date]. *)
Theorem C2_default_message_persisted (w : World) (req : DoctorRoutes.Request)
    (s : Store) (a : Appointment.t) :
  appointments s !! DoctorRoutes.appointmentId req = Some a ->
  Appointment.doctorid a = DoctorRoutes.doctorId req ->
  findAppointmentFault w = None ->
  saveFault w = None ->
  JS.truthy (DoctorRoutes.confirmationMessage req) = false ->
  exists a',
    appointments (snd (DoctorRoutes.confirmHandler w req s)) !! DoctorRoutes.appointmentId req
      = Some a' /\
    Appointment.confirmationMessage a'
      = Some ("Your appointment has been confirmed for "
                +:+ JS.interp (DoctorRoutes.timeSlot req) +:+ " on "
                +:+ JSDate.toLocaleDateString (host w)
                      (JSDate.newDate (host w) (DoctorRoutes.appointmentDate req))).
Proof.
  intros Hl Hd Hf Hs Hm.
  rewrite (confirmHandler_found_store w req s a Hf Hl Hd Hs).
  exists (DoctorRoutes.confirmed w req a). rewrite lookup_insert_eq. split; [reflexivity|].
  cbn. destruct (DoctorRoutes.confirmationMessage req) as [[|c m]|]; try discriminate;
    reflexivity.
Qed.

Lemma C2_witness :
  exists a',
    appointments (snd (DoctorRoutes.confirmHandler Scenario.world Scenario.request
                         Scenario.store0)) !! "a1" = Some a' /\
    Appointment.confirmationMessage a'
      = Some ("Your appointment has been confirmed for " +:+ "10:00-10:30" +:+ " on "
                +:+ "6/1/2024").
Proof.
  apply (C2_default_message_persisted Scenario.world Scenario.request Scenario.store0
           Scenario.a1); reflexivity.
Defined.

(** The numeric rendering never carries the weekday or the month name of the
    long form, here on the date of the scenario in each default locale. *)
Example numeric_date_each_locale :
  map (fun l =>
         JSDate.toLocaleDateString
           {| JSDate.tzOffset := fun _ => 0; JSDate.defaultLocale := l;
              JSDate.hostParse := fun _ => None; JSDate.now := 0 |}
           (JSDate.newDate Scenario.utcHost (Some "2024-06-01")))
      [JSDate.en_US; JSDate.en_GB; JSDate.en_IN; JSDate.de_DE]
  = ["6/1/2024"; "01/06/2024"; "1/6/2024"; "1.6.2024"].
Proof. reflexivity. Qed.

(** C7, as the specification states it, fails when the configuration is
    incomplete: the sender answers the configuration error, which it checks
    first, not the missing recipient. *)
Lemma C7_counterexample :
  JS.truthy (Appointment.patientEmail Scenario.a1_noEmail) = false /\
  exists res,
    fst (EmailService.sendAppointmentConfirmationEmail Scenario.world_noUser
           (Some Scenario.a1_noEmail) None Scenario.store_noEmail) = Returns res /\
    Mail.error res = Some "EMAIL_USER is not set in environment variables" /\
    Mail.error res <> Some "Patient email not found".
Proof.
  split; [reflexivity|]. eexists. split; [reflexivity|]. split; [reflexivity|].
  cbn. discriminate.
Qed.

(** C7, amended. For an appointment without a patient e-mail the sender
    returns an unsuccessful result with an error message and never calls
    [sendMail] (it adds at most the connectivity check to the trace); the
    error is [Patient email not found] when the configuration is complete
    and the connectivity check succeeds. The handler still answers the 200
    success response and the collection holds the confirmed record. *)
Theorem C7_missing_recipient (w : World) (req : DoctorRoutes.Request)
    (s : Store) (a : Appointment.t) :
  appointments s !! DoctorRoutes.appointmentId req = Some a ->
  Appointment.doctorid a = DoctorRoutes.doctorId req ->
  JS.truthy (Appointment.patientEmail a) = false ->
  findAppointmentFault w = None ->
  saveFault w = None ->
  let doc := DoctorRoutes.confirmed w req a in
  (forall d s0,
     let m := EmailService.sendAppointmentConfirmationEmail w (Some doc) d s0 in
     (exists res msg, fst m = Returns res /\ Mail.success res = false /\
                      Mail.error res = Some msg) /\
     (snd m = s0 \/ snd m = addTrace s0 [EvVerify]) /\
     (EmailService.valid (EmailService.validateEmailConfig w) = true ->
      smtpVerify w = None ->
      m = (Returns (EmailService.failure (Some "Patient email not found") None),
           addTrace s0 [EvVerify]))) /\
  let r := DoctorRoutes.confirmHandler w req s in
  fst r = Returns (DoctorRoutes.ok doc) /\
  DoctorRoutes.success (DoctorRoutes.ok doc) = true /\
  appointments (snd r) !! DoctorRoutes.appointmentId req = Some doc /\
  Appointment.status doc = Some "confirmed" /\
  (forall opts, EvSendMail opts ∈ trace (snd r) -> EvSendMail opts ∈ trace s).
Proof.
  intros Hl Hd He Hf Hs doc.
  assert (Hsend : forall d s0,
     let m := EmailService.sendAppointmentConfirmationEmail w (Some doc) d s0 in
     (exists res msg, fst m = Returns res /\ Mail.success res = false /\
                      Mail.error res = Some msg) /\
     (snd m = s0 \/ snd m = addTrace s0 [EvVerify]) /\
     (EmailService.valid (EmailService.validateEmailConfig w) = true ->
      smtpVerify w = None ->
      m = (Returns (EmailService.failure (Some "Patient email not found") None),
           addTrace s0 [EvVerify]))).
  { intros d s0 m. subst m. rewrite sendAppointmentConfirmationEmail_eq. cbv zeta.
    change (Appointment.patientEmail doc) with (Appointment.patientEmail a). rewrite He.
    cbn [negb].
    unfold EmailService.validateEmailConfig.
    destruct (JS.truthy (EMAIL_USER w)); cbn [negb EmailService.valid EmailService.config_error].
    2:{ split; [do 2 eexists; repeat split|]. split; [by left | discriminate]. }
    destruct (JS.truthy (EMAIL_PASS w)); cbn [negb EmailService.valid EmailService.config_error].
    2:{ split; [do 2 eexists; repeat split|]. split; [by left | discriminate]. }
    destruct (smtpVerify w) as [e|].
    - split; [do 2 eexists; repeat split|]. split; [by right | discriminate].
    - split; [do 2 eexists; repeat split|]. split; [by right | reflexivity]. }
  split; [exact Hsend|].
  intros r. subst r.
  rewrite (confirmHandler_found w req s a Hf Hl Hd Hs). cbv zeta. cbn [fst snd].
  split; [reflexivity|]. split; [reflexivity|].
  destruct (Hsend None (written s (DoctorRoutes.appointmentId req) doc
              [EvFindAppointment (DoctorRoutes.appointmentId req) (DoctorRoutes.doctorId req);
               EvSave (DoctorRoutes.appointmentId req) doc])) as (_ & Htr & _).
  fold doc.
  split; [|split; [reflexivity|]].
  - destruct Htr as [-> | ->]; cbn; apply lookup_insert_eq.
  - intros opts. destruct Htr as [-> | ->]; cbn [addTrace written trace];
      rewrite ?elem_of_app, ?elem_of_cons, ?elem_of_nil; intros H;
      repeat match goal with
             | H : _ \/ _ |- _ => destruct H as [H|H]
             end; try discriminate; try assumption; try contradiction.
Qed.

Lemma C7_witness :
  let doc := DoctorRoutes.confirmed Scenario.world Scenario.request Scenario.a1_noEmail in
  EmailService.sendAppointmentConfirmationEmail Scenario.world (Some doc) None Scenario.store_noEmail
  = (Returns (EmailService.failure (Some "Patient email not found") None),
     addTrace Scenario.store_noEmail [EvVerify]) /\
  fst (DoctorRoutes.confirmHandler Scenario.world Scenario.request Scenario.store_noEmail)
  = Returns (DoctorRoutes.ok doc).
Proof.
  destruct (C7_missing_recipient Scenario.world Scenario.request Scenario.store_noEmail
              Scenario.a1_noEmail) as [Hsend (Hresp & _)]; try reflexivity.
  split; [|exact Hresp].
  apply (Hsend None Scenario.store_noEmail); reflexivity.
Defined.

(** C8. When [EMAIL_USER] or [EMAIL_PASS] is absent (or empty), both senders
    return an unsuccessful result whose error names a missing variable, and
    the state is untouched: no connectivity check and no send were
    attempted. *)
Theorem C8_configuration_checked_first (w : World)
    (appointmentData : option Appointment.t) (doctorDetails : option Doctor.t)
    (email otp : option string) (s : Store) :
  JS.truthy (EMAIL_USER w) = false \/ JS.truthy (EMAIL_PASS w) = false ->
  exists v,
    (v = "EMAIL_USER" /\ JS.truthy (EMAIL_USER w) = false \/
     v = "EMAIL_PASS" /\ JS.truthy (EMAIL_PASS w) = false) /\
    EmailService.sendAppointmentConfirmationEmail w appointmentData doctorDetails s
    = (Returns {| Mail.success := false; Mail.messageId := None;
                  Mail.error := Some (v +:+ " is not set in environment variables");
                  Mail.details := None |}, s) /\
    EmailService.sendOTPEmail w email otp s
    = (Returns {| Mail.success := false; Mail.messageId := None;
                  Mail.error := Some (v +:+ " is not set in environment variables");
                  Mail.details := None |}, s).
Proof.
  intros H.
  rewrite sendAppointmentConfirmationEmail_eq, sendOTPEmail_eq. cbv zeta.
  unfold EmailService.validateEmailConfig.
  destruct (JS.truthy (EMAIL_USER w)) eqn:Hu; cbn [negb EmailService.valid EmailService.config_error].
  - destruct H as [H|H]; [discriminate|]. rewrite H.
    cbn [negb EmailService.valid EmailService.config_error].
    exists "EMAIL_PASS". split; [by right|]. split; reflexivity.
  - exists "EMAIL_USER". split; [by left|]. split; reflexivity.
Qed.

Lemma C8_witness :
  EmailService.sendAppointmentConfirmationEmail Scenario.world_noUser
    (Some Scenario.a1) (Some Scenario.smith) Scenario.store0
  = (Returns {| Mail.success := false; Mail.messageId := None;
                Mail.error := Some "EMAIL_USER is not set in environment variables";
                Mail.details := None |}, Scenario.store0).
Proof.
  destruct (C8_configuration_checked_first Scenario.world_noUser (Some Scenario.a1)
              (Some Scenario.smith) None None Scenario.store0 (or_introl eq_refl))
    as (v & [[-> _] | [_ Hp]] & Hsend & _).
  - exact Hsend.
  - discriminate Hp.
Defined.

(** C9. When the connectivity check or the send rejects with an error, the
    sender returns an unsuccessful result that classifies it: code [EAUTH]
    as an authentication failure, [ECONNECTION] or [ETIMEDOUT] as a
    connection failure, anything else by the error's own message (a fixed
    sentence when it has none); the error's message is kept in [details].
    The connectivity check is the first action, and the send, when it was
    attempted, follows it. *)
Theorem C9_failure_classified (w : World) (a : Appointment.t)
    (doctorDetails : option Doctor.t) (s : Store) (e : Err.t) :
  EmailService.valid (EmailService.validateEmailConfig w) = true ->
  let opts := EmailService.confirmationMailOptions w a doctorDetails in
  smtpVerify w = Some e \/
  (smtpVerify w = None /\ JS.truthy (Appointment.patientEmail a) = true /\
   smtpSendMail w opts = Throws e) ->
  let r := EmailService.sendAppointmentConfirmationEmail w (Some a) doctorDetails s in
  (exists res, fst r = Returns res /\
     Mail.success res = false /\
     Mail.details res = Err.message e /\
     (Err.code e = Some "EAUTH" ->
      Mail.error res
        = Some "Email authentication failed. Please check your email configuration.") /\
     (Err.code e = Some "ECONNECTION" \/ Err.code e = Some "ETIMEDOUT" ->
      Mail.error res = Some "Connection error. Please check your internet connection.") /\
     (Err.code e <> Some "EAUTH" -> Err.code e <> Some "ECONNECTION" ->
      Err.code e <> Some "ETIMEDOUT" ->
      (JS.truthy (Err.message e) = true -> Mail.error res = Err.message e) /\
      (JS.truthy (Err.message e) = false ->
       Mail.error res = Some "Failed to send appointment confirmation email."))) /\
  (smtpVerify w = Some e -> trace (snd r) = trace s ++ [EvVerify]) /\
  (smtpVerify w = None -> trace (snd r) = trace s ++ [EvVerify; EvSendMail opts]).
Proof.
  intros Hv opts Hfail r.
  assert (Hr : r = (Returns (EmailService.confirmationFailure e),
                    addTrace s match smtpVerify w with
                               | Some _ => [EvVerify]
                               | None => [EvVerify; EvSendMail opts]
                               end)).
  { subst r. rewrite sendAppointmentConfirmationEmail_eq. cbv zeta. rewrite Hv. cbn [negb].
    destruct Hfail as [-> | (-> & -> & Hsend)]; [reflexivity|].
    cbn [negb]. fold opts. by rewrite Hsend. }
  rewrite Hr. cbn [fst snd]. split.
  - exists (EmailService.confirmationFailure e). split; [reflexivity|].
    split; [reflexivity|]. split; [reflexivity|].
    unfold EmailService.confirmationFailure, EmailService.failure, EmailService.codeIs.
    cbn [Mail.error].
    destruct (Err.code e) as [c|] eqn:Hc.
    + destruct (String.eqb_spec c "EAUTH") as [->|Hn1].
      { split; [reflexivity|]. split; [intros [?|?]; discriminate | congruence]. }
      destruct (String.eqb_spec c "ECONNECTION") as [->|Hn2].
      { split; [discriminate|]. split; [reflexivity | congruence]. }
      destruct (String.eqb_spec c "ETIMEDOUT") as [->|Hn3].
      { split; [discriminate|]. split; [reflexivity | congruence]. }
      cbn [orb]. split; [congruence|]. split; [intros [?|?]; congruence|].
      intros _ _ _. destruct (Err.message e) as [[|? ?]|]; split; intros; try discriminate;
        reflexivity.
    + cbn [orb]. split; [discriminate|]. split; [intros [?|?]; discriminate|].
      intros _ _ _. destruct (Err.message e) as [[|? ?]|]; split; intros; try discriminate;
        reflexivity.
  - split; intros Hq; rewrite Hq; reflexivity.
Qed.

Lemma C9_witness :
  exists res,
    fst (EmailService.sendAppointmentConfirmationEmail Scenario.world_badAuth
           (Some Scenario.a1) None Scenario.store0) = Returns res /\
    Mail.success res = false /\
    Mail.details res = Some "Invalid login" /\
    Mail.error res = Some "Email authentication failed. Please check your email configuration.".
Proof.
  destruct (C9_failure_classified Scenario.world_badAuth Scenario.a1 None Scenario.store0
              {| Err.code := Some "EAUTH"; Err.message := Some "Invalid login";
                 Err.responseCode := Some 535 |} eq_refl (or_introl eq_refl))
    as [(res & H1 & H2 & H3 & H4 & _) _].
  exists res. repeat split; try assumption. apply H4. reflexivity.
Defined.

(** C10. The two senders never throw: on every input and in every world
    they return a result object. The result says success exactly when
    nothing failed, that is when both variables are set, the relay accepts
    the verification and accepts the message (and, for the confirmation,
    the appointment is there with a patient e-mail); a missing variable, a
    refused verification and a refused send are each returned with
    [success: false]. An unsuccessful result carries a non-empty error
    message, a successful one carries the message id the relay gave. *)
Theorem C10_senders_total (w : World) (email otp : option string)
    (appointmentData : option Appointment.t) (doctorDetails : option Doctor.t)
    (s : Store) :
  (exists res, fst (EmailService.sendOTPEmail w email otp s) = Returns res /\
     (Mail.success res = true <->
      JS.truthy (EMAIL_USER w) = true /\ JS.truthy (EMAIL_PASS w) = true /\
      smtpVerify w = None /\
      exists info,
        smtpSendMail w (EmailService.otpMailOptions w email otp) = Returns info) /\
     (JS.truthy (EMAIL_USER w) = false \/ JS.truthy (EMAIL_PASS w) = false ->
      Mail.success res = false) /\
     (forall e, smtpVerify w = Some e -> Mail.success res = false) /\
     (forall e, smtpSendMail w (EmailService.otpMailOptions w email otp) = Throws e ->
      Mail.success res = false) /\
     (Mail.success res = false ->
      exists msg, Mail.error res = Some msg /\ msg <> "") /\
     (Mail.success res = true -> exists mid, Mail.messageId res = Some mid) /\
     (forall info, Mail.success res = true ->
        smtpSendMail w (EmailService.otpMailOptions w email otp) = Returns info ->
        Mail.messageId res = Some (Mail.info_messageId info))) /\
  (exists res,
     fst (EmailService.sendAppointmentConfirmationEmail w appointmentData doctorDetails s)
     = Returns res /\
     (Mail.success res = true <->
      JS.truthy (EMAIL_USER w) = true /\ JS.truthy (EMAIL_PASS w) = true /\
      smtpVerify w = None /\
      exists a, appointmentData = Some a /\
        JS.truthy (Appointment.patientEmail a) = true /\
        exists info,
          smtpSendMail w (EmailService.confirmationMailOptions w a doctorDetails)
          = Returns info) /\
     (JS.truthy (EMAIL_USER w) = false \/ JS.truthy (EMAIL_PASS w) = false ->
      Mail.success res = false) /\
     (forall e, smtpVerify w = Some e -> Mail.success res = false) /\
     (forall a e, appointmentData = Some a ->
        smtpSendMail w (EmailService.confirmationMailOptions w a doctorDetails) = Throws e ->
        Mail.success res = false) /\
     (appointmentData = None -> Mail.success res = false) /\
     (forall a, appointmentData = Some a ->
        JS.truthy (Appointment.patientEmail a) = false -> Mail.success res = false) /\
     (Mail.success res = false ->
      exists msg, Mail.error res = Some msg /\ msg <> "") /\
     (Mail.success res = true -> exists mid, Mail.messageId res = Some mid) /\
     (forall a info, Mail.success res = true -> appointmentData = Some a ->
        smtpSendMail w (EmailService.confirmationMailOptions w a doctorDetails)
        = Returns info ->
        Mail.messageId res = Some (Mail.info_messageId info))).
Proof.
  assert (Hor : forall o d, d <> "" -> JS.or_else o d <> "").
  { intros [[|c m]|] d Hd; cbn; congruence. }
  assert (Hotp : forall e, exists msg,
             Mail.error (EmailService.otpFailure e) = Some msg /\ msg <> "").
  { intros e. unfold EmailService.otpFailure, EmailService.failure. cbn [Mail.error].
    eexists. split; [reflexivity|].
    repeat match goal with
           | |- context [if ?b then _ else _] => destruct b
           end; try discriminate. by apply Hor. }
  assert (Hconf : forall e, exists msg,
             Mail.error (EmailService.confirmationFailure e) = Some msg /\ msg <> "").
  { intros e. unfold EmailService.confirmationFailure, EmailService.failure. cbn [Mail.error].
    eexists. split; [reflexivity|].
    repeat match goal with
           | |- context [if ?b then _ else _] => destruct b
           end; try discriminate. by apply Hor. }
  assert (Hcfg : EmailService.valid (EmailService.validateEmailConfig w) = false ->
                 exists msg, EmailService.config_error (EmailService.validateEmailConfig w)
                             = Some msg /\ msg <> "").
  { unfold EmailService.validateEmailConfig.
    destruct (JS.truthy (EMAIL_USER w)), (JS.truthy (EMAIL_PASS w)); cbn; intros H;
      try discriminate; eexists; (split; [reflexivity | discriminate]). }
  pose proof (config_valid_iff w) as Hiff.
  split.
  - rewrite sendOTPEmail_eq. cbv zeta.
    destruct (EmailService.valid (EmailService.validateEmailConfig w)) eqn:Hv; cbn [negb].
    2:{ eexists. split; [reflexivity|]. cbn [EmailService.failure Mail.success Mail.error
                                               Mail.messageId].
        split; [split; [discriminate|]|].
        { intros (Hu & Hp & _). destruct Hiff as [_ Hiff].
          specialize (Hiff (conj Hu Hp)). discriminate. }
        repeat split; try reflexivity; try discriminate. intros _. by apply Hcfg. }
    destruct Hiff as [Hiff _]. destruct (Hiff eq_refl) as [Hu Hp].
    destruct (smtpVerify w) as [e|] eqn:Hq.
    { exists (EmailService.otpFailure e). split; [reflexivity|].
      change (Mail.success (EmailService.otpFailure e)) with false.
      change (Mail.messageId (EmailService.otpFailure e)) with (@None string).
      split; [split; [discriminate | intros (_ & _ & ? & _); discriminate]|].
      repeat split; try reflexivity; try discriminate. intros _. apply Hotp. }
    destruct (smtpSendMail w _) as [info|e] eqn:Hsend.
    + eexists. split; [reflexivity|].
      cbn [EmailService.sent Mail.success Mail.error Mail.messageId].
      split; [split; [intros _; repeat split; try assumption; by exists info | reflexivity]|].
      split; [intros [H|H]; congruence|].
      split; [discriminate|]. split; [discriminate|]. split; [discriminate|].
      split; [intros _; by eexists|]. by intros info' _ [= <-].
    + exists (EmailService.otpFailure e). split; [reflexivity|].
      change (Mail.success (EmailService.otpFailure e)) with false.
      change (Mail.messageId (EmailService.otpFailure e)) with (@None string).
      split; [split; [discriminate | intros (_ & _ & _ & info & ?); discriminate]|].
      repeat split; try reflexivity; try discriminate. intros _. apply Hotp.
  - rewrite sendAppointmentConfirmationEmail_eq. cbv zeta.
    destruct (EmailService.valid (EmailService.validateEmailConfig w)) eqn:Hv; cbn [negb].
    2:{ eexists. split; [reflexivity|]. cbn [EmailService.failure Mail.success Mail.error
                                               Mail.messageId].
        split; [split; [discriminate|]|].
        { intros (Hu & Hp & _). destruct Hiff as [_ Hiff].
          specialize (Hiff (conj Hu Hp)). discriminate. }
        repeat split; try reflexivity; try discriminate. intros _. by apply Hcfg. }
    destruct Hiff as [Hiff _]. destruct (Hiff eq_refl) as [Hu Hp].
    destruct (smtpVerify w) as [e|] eqn:Hq.
    { exists (EmailService.confirmationFailure e). split; [reflexivity|].
      change (Mail.success (EmailService.confirmationFailure e)) with false.
      change (Mail.messageId (EmailService.confirmationFailure e)) with (@None string).
      split; [split; [discriminate | intros (_ & _ & ? & _); discriminate]|].
      repeat split; try reflexivity; try discriminate. intros _. apply Hconf. }
    destruct appointmentData as [a|].
    2:{ exists (EmailService.confirmationFailure EmailService.destructureError).
        split; [reflexivity|].
        change (Mail.success (EmailService.confirmationFailure
                                EmailService.destructureError)) with false.
        change (Mail.messageId (EmailService.confirmationFailure
                                  EmailService.destructureError)) with (@None string).
        split; [split; [discriminate | intros (_ & _ & _ & a & ? & _); discriminate]|].
        repeat split; try reflexivity; try discriminate. intros _. apply Hconf. }
    destruct (JS.truthy (Appointment.patientEmail a)) eqn:He; cbn [negb].
    2:{ eexists. split; [reflexivity|]. cbn [EmailService.failure Mail.success Mail.error
                                               Mail.messageId].
        split; [split; [discriminate|]|].
        { intros (_ & _ & _ & a' & [= <-] & He' & _). congruence. }
        repeat split; try reflexivity; try discriminate.
        intros _. eexists. split; [reflexivity | discriminate]. }
    destruct (smtpSendMail w _) as [info|e] eqn:Hsend.
    + eexists. split; [reflexivity|].
      cbn [EmailService.sent Mail.success Mail.error Mail.messageId].
      split.
      { split; [intros _|reflexivity]. repeat split; try assumption.
        exists a. repeat split; try assumption. by exists info. }
      split; [intros [H|H]; congruence|].
      split; [discriminate|].
      split; [intros a' e [= <-] H; congruence|].
      split; [discriminate|].
      split; [intros a' [= <-] H; congruence|].
      split; [discriminate|].
      split; [intros _; by eexists|].
      intros a' info' _ [= <-] H. congruence.
    + exists (EmailService.confirmationFailure e). split; [reflexivity|].
      change (Mail.success (EmailService.confirmationFailure e)) with false.
      change (Mail.messageId (EmailService.confirmationFailure e)) with (@None string).
      split.
      { split; [discriminate|]. intros (_ & _ & _ & a' & [= <-] & _ & info & H). congruence. }
      repeat split; try reflexivity; try discriminate. intros _. apply Hconf.
Qed.

(** C1. On a machine without [EMAIL_USER] the send fails, the response
    reports success and the stored appointment is confirmed, but the
    response says [emailSent: true]. *)
Theorem C1_emailSent_true_though_not_sent :
  let doc := DoctorRoutes.confirmed Scenario.world_noUser Scenario.request Scenario.a1 in
  let r := DoctorRoutes.confirmHandler Scenario.world_noUser Scenario.request Scenario.store0 in
  Mail.success <$> returned
    (EmailService.sendAppointmentConfirmationEmail Scenario.world_noUser (Some doc) None
       Scenario.store0) = Some false /\
  (exists resp, fst r = Returns resp /\
     DoctorRoutes.success resp = true /\
     DoctorRoutes.emailSent resp = Some true) /\
  Appointment.status <$> (appointments (snd r) !! "a1") = Some (Some "confirmed") /\
  trace (snd r) = [EvFindAppointment "a1" "d1"; EvSave "a1" doc].
Proof.
  cbv zeta. split; [reflexivity|]. split; [eexists; repeat split|].
  split; [vm_compute; reflexivity | reflexivity].
Qed.

(** On every machine the response of the handler says [emailSent: true]
    once the write has succeeded, whatever the sender returned. *)
Lemma confirmHandler_emailSent_constant (w : World) (req : DoctorRoutes.Request)
    (s : Store) (resp : DoctorRoutes.Response) :
  fst (DoctorRoutes.confirmHandler w req s) = Returns resp ->
  DoctorRoutes.statusCode resp = 200 ->
  DoctorRoutes.emailSent resp = Some true.
Proof.
  unfold DoctorRoutes.confirmHandler.
  destruct (findAppointmentFault w) as [e|] eqn:Hf.
  { rewrite (confirmHandlerWith_query_fault _ _ _ _ _ e Hf). cbn. by intros [= <-]. }
  destruct (DoctorRoutes.matching (appointments s) (DoctorRoutes.appointmentId req)
              (DoctorRoutes.doctorId req)) as [a|] eqn:Hm.
  2:{ rewrite (confirmHandlerWith_miss _ _ _ _ _ Hf Hm). cbn. by intros [= <-]. }
  destruct (saveFault w) as [e|] eqn:Hs.
  { rewrite (confirmHandlerWith_save_fault _ _ _ _ _ a e Hf Hm Hs). cbn. by intros [= <-]. }
  rewrite (confirmHandlerWith_found _ _ _ _ _ a Hf Hm Hs). cbn. by intros [= <-].
Qed.

(** C3. In the scenario of section 8 the handler sends one message. Its
    subject holds the formatted date, but its body names neither the doctor
    nor the specialization: [getDoctorById] answered [null] although doctor
    [d1] is in the collection. *)
Theorem C3_scenario_mail_without_doctor :
  let r := DoctorRoutes.confirmHandler Scenario.world Scenario.request Scenario.store0 in
  let doc := DoctorRoutes.confirmed Scenario.world Scenario.request Scenario.a1 in
  let opts := EmailService.confirmationMailOptions Scenario.world doc None in
  In Scenario.smith (doctors Scenario.world) /\
  Doctor.doctorid Scenario.smith = Some (DoctorRoutes.doctorId Scenario.request) /\
  returned (DoctorRoutes.getDoctorById Scenario.world "d1" Scenario.store0) = Some None /\
  trace (snd r) = [EvFindAppointment "a1" "d1"; EvSave "a1" doc; EvVerify; EvSendMail opts] /\
  Mail.subject opts = "Appointment Confirmed - Saturday, June 1, 2024" /\
  JS.includes "Saturday, June 1, 2024" (Mail.html opts) = true /\
  JS.includes "Smith" (Mail.html opts) = false /\
  JS.includes "Cardiology" (Mail.html opts) = false /\
  (JS.includes "Smith" <$> Mail.text opts) = Some false /\
  (JS.includes "Cardiology" <$> Mail.text opts) = Some false.
Proof.
  cbv zeta. split; [by left|]. split; [reflexivity|]. split; [reflexivity|].
  split; [vm_compute; reflexivity|].
  repeat split; vm_compute; reflexivity.
Qed.

(** The renderer itself does name the doctor when it is given one. *)
Example renderer_names_the_doctor :
  let doc := DoctorRoutes.confirmed Scenario.world Scenario.request Scenario.a1 in
  let opts := EmailService.confirmationMailOptions Scenario.world doc (Some Scenario.smith) in
  JS.includes "Dr. Smith" (Mail.html opts) = true /\
  JS.includes "Cardiology" (Mail.html opts) = true /\
  (JS.includes "Doctor: Dr. Smith" <$> Mail.text opts) = Some true /\
  (JS.includes "Specialization: Cardiology" <$> Mail.text opts) = Some true.
Proof. cbv zeta. repeat split; vm_compute; reflexivity. Qed.

(** The dates of the scenario on a UTC host, and on a host west of
    Greenwich, where the date-only string falls on the evening before. *)
Example long_date_scenario :
  JSDate.toLocaleDateString_long Scenario.utcHost
    (JSDate.newDate Scenario.utcHost (Some "2024-06-01"))
  = "Saturday, June 1, 2024".
Proof. reflexivity. Qed.

Example long_date_west_of_greenwich :
  let h := {| JSDate.tzOffset := fun _ => -300; JSDate.defaultLocale := JSDate.en_US;
              JSDate.hostParse := fun _ => None; JSDate.now := 0 |} in
  JSDate.toLocaleDateString_long h (JSDate.newDate h (Some "2024-06-01"))
  = "Friday, May 31, 2024".
Proof. reflexivity. Qed.

Example invalid_date_rendering :
  JSDate.toLocaleDateString Scenario.utcHost (JSDate.newDate Scenario.utcHost None)
  = "Invalid Date".
Proof. reflexivity. Qed.

(** * Further properties of the two modules *)

(** ** Substrings of rendered text *)

Lemma append_cons (c : ascii) (a b : string) : String c a +:+ b = String c (a +:+ b).
Proof. reflexivity. Qed.

Lemma append_nil_l (b : string) : "" +:+ b = b.
Proof. reflexivity. Qed.

Lemma prefix_cons (c : ascii) (n a : string) :
  String.prefix (String c n) (String c a) = String.prefix n a.
Proof. cbn [String.prefix]. destruct (ascii_dec c c); [reflexivity | congruence]. Qed.

Lemma prefix_app (n a b : string) :
  String.prefix n a = true -> String.prefix n (a +:+ b) = true.
Proof.
  revert a. induction n as [|c n IH]; intros a H.
  - by destruct (a +:+ b).
  - destruct a as [|c' a]; [discriminate|].
    rewrite append_cons. cbn [String.prefix] in *.
    destruct (ascii_dec c c'); [by apply IH | discriminate].
Qed.

Lemma prefix_self_app (n b : string) : String.prefix n (n +:+ b) = true.
Proof.
  induction n as [|c n IH].
  - rewrite append_nil_l. by destruct b.
  - by rewrite append_cons, prefix_cons.
Qed.

Lemma includes_app_l (n a b : string) :
  JS.includes n a = true -> JS.includes n (a +:+ b) = true.
Proof.
  induction a as [|c a IH]; intros H.
  - cbn in H. rewrite orb_false_r in H. destruct n; [|discriminate].
    rewrite append_nil_l. destruct b; reflexivity.
  - cbn [JS.includes] in H. apply orb_true_iff in H as [H|H].
    + rewrite append_cons. cbn [JS.includes]. rewrite <- append_cons.
      by rewrite (prefix_app _ _ _ H).
    + rewrite append_cons. cbn [JS.includes]. rewrite (IH H). apply orb_true_r.
Qed.

Lemma includes_app_r (n a b : string) :
  JS.includes n b = true -> JS.includes n (a +:+ b) = true.
Proof.
  intros H. induction a as [|c a IH]; [exact H|].
  rewrite append_cons. cbn [JS.includes]. rewrite IH. apply orb_true_r.
Qed.

Lemma includes_self_app (n b : string) : JS.includes n (n +:+ b) = true.
Proof.
  destruct (n +:+ b) eqn:E; cbn [JS.includes]; rewrite <- E, prefix_self_app; reflexivity.
Qed.

Lemma includes_self (n : string) : JS.includes n n = true.
Proof.
  assert (H : n +:+ "" = n) by (induction n as [|c n IH]; [reflexivity|]; by rewrite append_cons, IH).
  rewrite <- H at 2. apply includes_self_app.
Qed.

(** A text of several lines holds what one of its lines holds. *)
Lemma includes_lines (n x : string) (l : list string) :
  In x l -> JS.includes n x = true -> JS.includes n (JS.lines l) = true.
Proof.
  induction l as [|y l IH]; [by intros []|].
  intros [->|Hin] Hx.
  - destruct l as [|z l]; [exact Hx|]. cbn [JS.lines]. by apply includes_app_l.
  - destruct l as [|z l]; [by destruct Hin|].
    cbn [JS.lines]. apply includes_app_r, includes_app_r. by apply IH.
Qed.

Ltac includes_here :=
  repeat first
    [ apply includes_self
    | apply includes_self_app
    | apply includes_app_r ].

(** ** [verifyEmailConnection] *)

Lemma verifyEmailConnection_eq (w : World) (s : Store) :
  EmailVerify.verifyEmailConnection w s =
  let config := EmailService.validateEmailConfig w in
  if negb (EmailService.valid config)
  then (Returns {| EmailVerify.success := false; EmailVerify.message := None;
                   EmailVerify.error := EmailService.config_error config |}, s)
  else
    match smtpVerify w with
    | Some e => (Returns (EmailVerify.verifyFailure e), addTrace s [EvVerify])
    | None =>
        (Returns {| EmailVerify.success := true;
                    EmailVerify.message := Some "Email configuration is valid";
                    EmailVerify.error := None |}, addTrace s [EvVerify])
    end.
Proof.
  unfold EmailVerify.verifyEmailConnection, EmailService.createTransporter,
    EmailService.verify, try_catch, bind, ret, throw, emit, addTrace.
  cbv zeta.
  destruct (EmailService.valid (EmailService.validateEmailConfig w)); cbn [negb]; [|reflexivity].
  cbn [fst snd appointments trace].
  destruct (smtpVerify w); reflexivity.
Qed.

Lemma or_else_nonempty (o : option string) (d : string) : d <> "" -> JS.or_else o d <> "".
Proof. intros Hd. destruct o as [[|c m]|]; cbn; congruence. Qed.

Lemma config_error_nonempty (w : World) :
  EmailService.valid (EmailService.validateEmailConfig w) = false ->
  exists msg, EmailService.config_error (EmailService.validateEmailConfig w) = Some msg /\
              msg <> "".
Proof.
  unfold EmailService.validateEmailConfig.
  destruct (JS.truthy (EMAIL_USER w)), (JS.truthy (EMAIL_PASS w)); cbn; intros H;
    try discriminate; eexists; (split; [reflexivity | discriminate]).
Qed.

(** X1. The connection check never throws. It reports success exactly when
    both variables are set and the relay accepts the connection; a failure
    carries a non-empty error. With an incomplete configuration it does
    nothing on the network; otherwise its only action is the one
    verification: it never sends a message. *)
Theorem X1_verifyEmailConnection_outcomes (w : World) (s : Store) :
  let r := EmailVerify.verifyEmailConnection w s in
  (exists res, fst r = Returns res /\
     (EmailVerify.success res = true <->
      JS.truthy (EMAIL_USER w) = true /\ JS.truthy (EMAIL_PASS w) = true /\
      smtpVerify w = None) /\
     (EmailVerify.success res = false ->
      exists msg, EmailVerify.error res = Some msg /\ msg <> "")) /\
  (EmailService.valid (EmailService.validateEmailConfig w) = false -> snd r = s) /\
  (EmailService.valid (EmailService.validateEmailConfig w) = true ->
   snd r = addTrace s [EvVerify]).
Proof.
  cbv zeta. rewrite verifyEmailConnection_eq. cbv zeta.
  pose proof (config_valid_iff w) as Hiff.
  pose proof (config_error_nonempty w) as Hcfg.
  destruct (EmailService.valid (EmailService.validateEmailConfig w)) eqn:Hv; cbn [negb].
  - destruct (smtpVerify w) as [e|] eqn:Hq.
    + split; [|split; [discriminate | reflexivity]].
      exists (EmailVerify.verifyFailure e). split; [reflexivity|].
      unfold EmailVerify.verifyFailure.
      repeat match goal with
             | |- context [if ?b then _ else _] => destruct b
             end; cbn;
        (split; [split; [discriminate | intros (_ & _ & ?); discriminate]|]);
        intros _; eexists; (split; [reflexivity|]); try discriminate.
      by apply or_else_nonempty.
    + split; [|split; [discriminate | reflexivity]].
      eexists. split; [reflexivity|]. cbn. split; [|discriminate].
      split; [intros _|reflexivity]. destruct Hiff as [Hiff _].
      destruct (Hiff eq_refl). by repeat split.
  - split; [|split; [reflexivity | discriminate]].
    eexists. split; [reflexivity|]. cbn. split.
    + split; [discriminate|]. intros (Hu & Hp & _).
      destruct Hiff as [_ Hiff]. by apply Hiff.
    + intros _. by apply Hcfg.
Qed.

(** X2. When the relay refuses the verification, the connection check
    reports code [EAUTH] as an authentication failure and [ECONNECTION] as
    a connection failure; every other error, a timeout included, is
    reported by its own message. The confirmation sender, in the same
    world, reports the timeout as a connection error. *)
Theorem X2_verifyEmailConnection_classification (w : World) (s : Store) (e : Err.t) :
  EmailService.valid (EmailService.validateEmailConfig w) = true ->
  smtpVerify w = Some e ->
  exists res, fst (EmailVerify.verifyEmailConnection w s) = Returns res /\
    EmailVerify.success res = false /\
    (Err.code e = Some "EAUTH" ->
     EmailVerify.error res
       = Some "Authentication failed. Please check your EMAIL_USER and EMAIL_PASS. Make sure you're using a Gmail App Password, not your regular password.") /\
    (Err.code e = Some "ECONNECTION" ->
     EmailVerify.error res = Some "Connection failed. Please check your internet connection.") /\
    (Err.code e <> Some "EAUTH" -> Err.code e <> Some "ECONNECTION" ->
     EmailVerify.error res
       = Some (JS.or_else (Err.message e) "Failed to verify email configuration")) /\
    (Err.code e = Some "ETIMEDOUT" ->
     forall ad d res',
       fst (EmailService.sendAppointmentConfirmationEmail w ad d s) = Returns res' ->
       Mail.error res' = Some "Connection error. Please check your internet connection.").
Proof.
  intros Hv Hq. rewrite verifyEmailConnection_eq. cbv zeta. rewrite Hv, Hq. cbn [negb fst].
  exists (EmailVerify.verifyFailure e). split; [reflexivity|].
  unfold EmailVerify.verifyFailure, EmailService.codeIs.
  destruct (Err.code e) as [c|] eqn:Hc.
  - destruct (String.eqb_spec c "EAUTH") as [->|Hn1].
    { cbn. repeat split; try discriminate; congruence. }
    destruct (String.eqb_spec c "ECONNECTION") as [->|Hn2].
    { cbn. repeat split; try discriminate; congruence. }
    cbn. split; [reflexivity|]. split; [congruence|]. split; [congruence|].
    split; [reflexivity|].
    intros [= ->] ad d res'. rewrite sendAppointmentConfirmationEmail_eq. cbv zeta.
    rewrite Hv, Hq. cbn [negb fst]. intros [= <-].
    unfold EmailService.confirmationFailure, EmailService.codeIs. rewrite Hc. reflexivity.
  - cbn. repeat split; try discriminate.
Qed.

Lemma X2_witness :
  let e := {| Err.code := Some "ETIMEDOUT"; Err.message := Some "Greeting never received";
              Err.responseCode := None |} in
  let w := {| host := Scenario.utcHost;
              EMAIL_USER := Some "clinic@example.com"; EMAIL_PASS := Some "app-password";
              smtpVerify := Some e;
              smtpSendMail := fun _ => Throws e;
              findAppointmentFault := None; saveFault := None;
              doctors := []; findDoctorFault := None; mongooseModels := [] |} in
  exists res, fst (EmailVerify.verifyEmailConnection w Scenario.store0) = Returns res /\
    EmailVerify.error res = Some "Greeting never received".
Proof.
  cbv zeta.
  match goal with
  | |- context [EmailVerify.verifyEmailConnection ?w ?s] =>
      destruct (X2_verifyEmailConnection_classification w s
                  {| Err.code := Some "ETIMEDOUT";
                     Err.message := Some "Greeting never received";
                     Err.responseCode := None |} eq_refl eq_refl)
        as (res & H1 & _ & _ & _ & H5 & _)
  end.
  exists res. split; [exact H1|]. apply H5; discriminate.
Defined.

(** ** The senders: one attempt, and what is delivered *)

(** X3. Each sender makes a single attempt: in every world and on every
    input it adds to the trace nothing, or one verification, or one
    verification followed by one [sendMail] of the message it rendered. It
    never sends before verifying and never sends twice. *)
Theorem X3_senders_single_attempt (w : World) (email otp : option string)
    (appointmentData : option Appointment.t) (doctorDetails : option Doctor.t)
    (s : Store) :
  (exists evs, snd (EmailService.sendOTPEmail w email otp s) = addTrace s evs /\
     (evs = [] \/ evs = [EvVerify] \/
      evs = [EvVerify; EvSendMail (EmailService.otpMailOptions w email otp)])) /\
  (exists evs,
     snd (EmailService.sendAppointmentConfirmationEmail w appointmentData doctorDetails s)
     = addTrace s evs /\
     (evs = [] \/ evs = [EvVerify] \/
      exists a, appointmentData = Some a /\
        evs = [EvVerify;
               EvSendMail (EmailService.confirmationMailOptions w a doctorDetails)])).
Proof.
  split.
  - rewrite sendOTPEmail_eq. cbv zeta.
    destruct (negb _).
    { exists []. rewrite addTrace_nil. auto. }
    destruct (smtpVerify w); [eexists; split; [reflexivity | auto]|].
    destruct (smtpSendMail w _); eexists; (split; [reflexivity | auto]).
  - rewrite sendAppointmentConfirmationEmail_eq. cbv zeta.
    destruct (negb _).
    { exists []. rewrite addTrace_nil. auto. }
    destruct (smtpVerify w); [eexists; split; [reflexivity | auto]|].
    destruct appointmentData as [a|]; [|eexists; split; [reflexivity | auto]].
    destruct (negb _); [eexists; split; [reflexivity | auto]|].
    destruct (smtpSendMail w _); eexists; (split; [reflexivity | eauto]).
Qed.

(** X4. With a complete configuration, an accepting relay and a patient
    e-mail on record, the confirmation sender returns success with the
    message id the relay gave, after exactly one verification and one
    [sendMail]; the message is addressed to the patient e-mail and sent in
    the name of [MediCare Hub] from the configured account. *)
Theorem X4_confirmation_delivered (w : World) (a : Appointment.t)
    (doctorDetails : option Doctor.t) (s : Store) (info : Mail.Info) :
  EmailService.valid (EmailService.validateEmailConfig w) = true ->
  smtpVerify w = None ->
  JS.truthy (Appointment.patientEmail a) = true ->
  let opts := EmailService.confirmationMailOptions w a doctorDetails in
  smtpSendMail w opts = Returns info ->
  EmailService.sendAppointmentConfirmationEmail w (Some a) doctorDetails s
  = (Returns {| Mail.success := true; Mail.messageId := Some (Mail.info_messageId info);
                Mail.error := None; Mail.details := None |},
     addTrace s [EvVerify; EvSendMail opts]) /\
  Mail.to opts = Appointment.patientEmail a /\
  exists user, EMAIL_USER w = Some user /\ user <> "" /\
    Mail.from opts = JS.q "`MediCare Hub` <" +:+ user +:+ ">".
Proof.
  intros Hv Hq He opts Hsend.
  split; [|split; [reflexivity|]].
  - rewrite sendAppointmentConfirmationEmail_eq. cbv zeta. rewrite Hv, Hq, He. cbn [negb].
    fold opts. by rewrite Hsend.
  - apply config_valid_iff in Hv as [Hu _].
    destruct (EMAIL_USER w) as [[|c u]|] eqn:E; try discriminate.
    exists (String c u). split; [reflexivity|]. split; [discriminate|].
    unfold opts, EmailService.confirmationMailOptions. cbn [Mail.from]. by rewrite E.
Qed.

Lemma X4_witness :
  let doc := DoctorRoutes.confirmed Scenario.world Scenario.request Scenario.a1 in
  fst (EmailService.sendAppointmentConfirmationEmail Scenario.world (Some doc) None
         Scenario.store0)
  = Returns {| Mail.success := true; Mail.messageId := Some "<1@example.com>";
               Mail.error := None; Mail.details := None |}.
Proof.
  cbv zeta.
  rewrite (proj1 (X4_confirmation_delivered Scenario.world
                    (DoctorRoutes.confirmed Scenario.world Scenario.request Scenario.a1)
                    None Scenario.store0 {| Mail.info_messageId := "<1@example.com>" |}
                    eq_refl eq_refl eq_refl eq_refl)).
  reflexivity.
Defined.

(** X5. When the verification or the send rejects, the OTP sender returns
    an unsuccessful result that keeps the error's message in [details] and
    classifies the error in this order: code [EAUTH], then code
    [ECONNECTION] or [ETIMEDOUT], then response code 535, then the error's
    own message, then a fixed sentence. *)
Theorem X5_sendOTPEmail_failure_classified (w : World) (email otp : option string)
    (s : Store) (e : Err.t) :
  EmailService.valid (EmailService.validateEmailConfig w) = true ->
  smtpVerify w = Some e \/
  (smtpVerify w = None /\
   smtpSendMail w (EmailService.otpMailOptions w email otp) = Throws e) ->
  exists res, fst (EmailService.sendOTPEmail w email otp s) = Returns res /\
    Mail.success res = false /\
    Mail.messageId res = None /\
    Mail.details res = Err.message e /\
    (Err.code e = Some "EAUTH" ->
     Mail.error res
       = Some "Email authentication failed. Please check your EMAIL_USER and EMAIL_PASS in .env file. Make sure you're using a Gmail App Password.") /\
    (Err.code e = Some "ECONNECTION" \/ Err.code e = Some "ETIMEDOUT" ->
     Mail.error res
       = Some "Connection error. Please check your internet connection and try again.") /\
    (Err.code e <> Some "EAUTH" -> Err.code e <> Some "ECONNECTION" ->
     Err.code e <> Some "ETIMEDOUT" ->
     (Err.responseCode e = Some 535 ->
      Mail.error res
        = Some "Authentication failed. Please verify your Gmail App Password is correct.") /\
     (Err.responseCode e <> Some 535 ->
      Mail.error res = Some (JS.or_else (Err.message e) "Failed to send OTP email."))).
Proof.
  intros Hv Hfail.
  assert (Hr : fst (EmailService.sendOTPEmail w email otp s)
               = Returns (EmailService.otpFailure e)).
  { rewrite sendOTPEmail_eq. cbv zeta. rewrite Hv. cbn [negb].
    destruct Hfail as [-> | (-> & ->)]; reflexivity. }
  rewrite Hr. exists (EmailService.otpFailure e). split; [reflexivity|].
  do 3 (split; [reflexivity|]).
  unfold EmailService.otpFailure, EmailService.failure, EmailService.codeIs.
  cbn [Mail.error].
  destruct (Err.code e) as [c|] eqn:Hc.
  - destruct (String.eqb_spec c "EAUTH") as [->|Hn1].
    { split; [reflexivity|]. split; [intros [?|?]; discriminate | congruence]. }
    destruct (String.eqb_spec c "ECONNECTION") as [->|Hn2].
    { split; [discriminate|]. split; [reflexivity | congruence]. }
    destruct (String.eqb_spec c "ETIMEDOUT") as [->|Hn3].
    { split; [discriminate|]. split; [reflexivity | congruence]. }
    cbn [orb]. split; [congruence|]. split; [intros [?|?]; congruence|].
    intros _ _ _. case_bool_decide; split; intros; congruence.
  - cbn [orb]. split; [discriminate|]. split; [intros [?|?]; discriminate|].
    intros _ _ _. case_bool_decide; split; intros; congruence.
Qed.

Lemma X5_witness :
  let e := {| Err.code := None; Err.message := Some "535-5.7.8 Username and Password not accepted";
              Err.responseCode := Some 535 |} in
  let w := {| host := Scenario.utcHost;
              EMAIL_USER := Some "clinic@example.com"; EMAIL_PASS := Some "wrong";
              smtpVerify := Some e;
              smtpSendMail := fun _ => Throws e;
              findAppointmentFault := None; saveFault := None;
              doctors := []; findDoctorFault := None; mongooseModels := [] |} in
  exists res,
    fst (EmailService.sendOTPEmail w (Some "new@x.com") (Some "482913") Scenario.store0)
    = Returns res /\
    Mail.error res = Some "Authentication failed. Please verify your Gmail App Password is correct." /\
    Mail.details res = Some "535-5.7.8 Username and Password not accepted".
Proof.
  cbv zeta.
  match goal with
  | |- context [EmailService.sendOTPEmail ?w ?em ?otp ?s] =>
      destruct (X5_sendOTPEmail_failure_classified w em otp s
                  {| Err.code := None;
                     Err.message := Some "535-5.7.8 Username and Password not accepted";
                     Err.responseCode := Some 535 |} eq_refl (or_introl eq_refl))
        as (res & H1 & _ & _ & H4 & _ & _ & H7)
  end.
  exists res. split; [exact H1|]. split; [|exact H4].
  apply H7; try discriminate. reflexivity.
Defined.

(** X6. With a complete configuration and an accepting relay the OTP
    sender returns success with the relay's message id after one
    verification and one [sendMail]; the message goes to the address it was
    given, under the fixed subject, and its body shows the code. *)
Theorem X6_sendOTPEmail_delivers_code (w : World) (email otp : option string)
    (s : Store) (info : Mail.Info) :
  EmailService.valid (EmailService.validateEmailConfig w) = true ->
  smtpVerify w = None ->
  let opts := EmailService.otpMailOptions w email otp in
  smtpSendMail w opts = Returns info ->
  EmailService.sendOTPEmail w email otp s
  = (Returns {| Mail.success := true; Mail.messageId := Some (Mail.info_messageId info);
                Mail.error := None; Mail.details := None |},
     addTrace s [EvVerify; EvSendMail opts]) /\
  Mail.to opts = email /\
  Mail.subject opts = "Email Verification OTP - Medicare" /\
  JS.includes (JS.interp otp) (Mail.html opts) = true.
Proof.
  intros Hv Hq opts Hsend. split; [|split; [reflexivity | split; [reflexivity|]]].
  - rewrite sendOTPEmail_eq. cbv zeta. rewrite Hv, Hq. cbn [negb]. fold opts.
    by rewrite Hsend.
  - unfold opts, EmailService.otpMailOptions, EmailService.otpHtml. cbn [Mail.html].
    eapply includes_lines; [cbn [In]; do 11 right; left; reflexivity | includes_here].
Qed.

Lemma X6_witness :
  fst (EmailService.sendOTPEmail Scenario.world (Some "new@x.com") (Some "482913")
         Scenario.store0)
  = Returns {| Mail.success := true; Mail.messageId := Some "<1@example.com>";
               Mail.error := None; Mail.details := None |}.
Proof.
  rewrite (proj1 (X6_sendOTPEmail_delivers_code Scenario.world (Some "new@x.com")
                    (Some "482913") Scenario.store0
                    {| Mail.info_messageId := "<1@example.com>" |}
                    eq_refl eq_refl eq_refl)).
  reflexivity.
Defined.

(** ** The rendered confirmation *)

Tactic Notation "line" integer(k) := cbn [In]; do k right; left; reflexivity.

(** X7. Subject, HTML body and text body of every confirmation show the
    same date string, the long form of the appointment date; both bodies
    show the time slot and the recorded patient name, the text body in its
    greeting line. A name that is absent is printed as [undefined]. *)
Theorem X7_confirmation_mail_fields (w : World) (a : Appointment.t)
    (doctorDetails : option Doctor.t) :
  let opts := EmailService.confirmationMailOptions w a doctorDetails in
  let date := EmailService.formattedDate w (Appointment.appointmentDate a) in
  let slot := JS.interp (Appointment.timeSlot a) in
  let greeting := "Dear " +:+ JS.interp (Appointment.patientName a) +:+ "," in
  Mail.subject opts = "Appointment Confirmed - " +:+ date /\
  JS.includes date (Mail.html opts) = true /\
  JS.includes slot (Mail.html opts) = true /\
  JS.includes (JS.interp (Appointment.patientName a)) (Mail.html opts) = true /\
  exists text, Mail.text opts = Some text /\
    JS.includes ("Date: " +:+ date) text = true /\
    JS.includes ("Time: " +:+ slot) text = true /\
    JS.includes greeting text = true /\
    (Appointment.patientName a = None -> JS.includes "Dear undefined," text = true).
Proof.
  cbv zeta. unfold EmailService.confirmationMailOptions. cbv zeta.
  cbn [Mail.subject Mail.html Mail.text].
  split; [reflexivity|].
  unfold EmailService.confirmationHtml, EmailService.confirmationText.
  split; [eapply includes_lines; [line 15 | includes_here]|].
  split; [eapply includes_lines; [line 16 | includes_here]|].
  split; [eapply includes_lines; [line 8 | includes_here]|].
  eexists. split; [reflexivity|].
  split; [eapply includes_lines; [line 7 | includes_here]|].
  split; [eapply includes_lines; [line 8 | includes_here]|].
  split; [eapply includes_lines; [line 3 | includes_here]|].
  intros ->. eapply includes_lines; [line 3 | reflexivity].
Qed.

(** X8. The optional lines: when a doctor record is given, both bodies
    name the doctor, and the specialization when the record has one; a
    confirmation message and a description on record are quoted in both
    bodies. *)
Theorem X8_confirmation_mail_optional_lines (w : World) (a : Appointment.t)
    (doctorDetails : option Doctor.t) :
  let opts := EmailService.confirmationMailOptions w a doctorDetails in
  exists text, Mail.text opts = Some text /\
    (forall d, doctorDetails = Some d ->
       JS.includes (Doctor.name d) (Mail.html opts) = true /\
       JS.includes ("Doctor: Dr. " +:+ Doctor.name d) text = true /\
       forall sp, Doctor.specialization d = Some sp -> sp <> "" ->
         JS.includes sp (Mail.html opts) = true /\
         JS.includes ("Specialization: " +:+ sp) text = true) /\
    (forall note, Appointment.confirmationMessage a = Some note -> note <> "" ->
       JS.includes note (Mail.html opts) = true /\
       JS.includes ("Doctor's Note: " +:+ note) text = true) /\
    (forall concern, Appointment.description a = Some concern -> concern <> "" ->
       JS.includes concern (Mail.html opts) = true /\
       JS.includes ("Your Concern: " +:+ concern) text = true).
Proof.
  cbv zeta. unfold EmailService.confirmationMailOptions. cbv zeta.
  cbn [Mail.subject Mail.html Mail.text].
  eexists. split; [reflexivity|].
  unfold EmailService.confirmationHtml, EmailService.confirmationText.
  assert (Ht : forall s, s <> "" -> JS.truthy (Some s) = true)
    by (intros [|c s] H; [congruence | reflexivity]).
  split; [|split].
  - intros d ->. split; [eapply includes_lines; [line 17 | includes_here]|].
    split; [eapply includes_lines; [line 9 | includes_here]|].
    intros sp Hsp Hne. split.
    + eapply includes_lines; [line 18|]. rewrite Hsp, (Ht sp Hne). cbn [JS.interp].
      includes_here.
    + eapply includes_lines; [line 10|]. rewrite Hsp, (Ht sp Hne). cbn [JS.interp].
      includes_here.
  - intros note Hn Hne. split.
    + eapply includes_lines; [line 19|]. rewrite Hn, (Ht note Hne). cbn [JS.interp].
      includes_here.
    + eapply includes_lines; [line 11|]. rewrite Hn, (Ht note Hne). cbn [JS.interp].
      includes_here.
  - intros concern Hc Hne. split.
    + eapply includes_lines; [line 20|]. rewrite Hc, (Ht concern Hne). cbn [JS.interp].
      includes_here.
    + eapply includes_lines; [line 12|]. rewrite Hc, (Ht concern Hne). cbn [JS.interp].
      includes_here.
Qed.

(** ** The session guard and the routes behind it *)

Lemma guard_passes {R : Type} (session : option Session.t) (d : string)
    (next : string -> R) (redirect : string -> R) :
  loggedInAs session = Some d ->
  DoctorPages.isDoctorLoggedIn session next redirect = next d.
Proof.
  unfold loggedInAs, DoctorPages.isDoctorLoggedIn.
  destruct session as [[[[|c i]|] em]|]; cbn; intros [= <-] || intros [=]; reflexivity.
Qed.

Lemma guard_blocks {R : Type} (session : option Session.t)
    (next : string -> R) (redirect : string -> R) :
  loggedInAs session = None ->
  DoctorPages.isDoctorLoggedIn session next redirect = redirect "/doctorLogin".
Proof.
  unfold loggedInAs, DoctorPages.isDoctorLoggedIn.
  destruct session as [[[[|c i]|] em]|]; cbn; intros [=]; reflexivity.
Qed.

Lemma loggedInAs_nonempty (session : option Session.t) (d : string) :
  loggedInAs session = Some d -> d <> "".
Proof.
  unfold loggedInAs, DoctorPages.isDoctorLoggedIn.
  destruct session as [[[[|c i]|] em]|]; cbn; intros [= <-] || intros [=]; discriminate.
Qed.

(** The verdict of the guard, read off the session: it blocks exactly the
    requests without a session object and those whose session has no
    [doctorId] or an empty one, and passes the others with that id. *)
Lemma loggedInAs_None_iff (session : option Session.t) :
  loggedInAs session = None <->
  session = None \/
  exists ss, session = Some ss /\
    (Session.doctorId ss = None \/ Session.doctorId ss = Some "").
Proof.
  unfold loggedInAs, DoctorPages.isDoctorLoggedIn.
  destruct session as [[[[|c i]|] em]|]; cbn; split; intros H; try reflexivity;
    try discriminate; auto.
  - right. eexists. split; [reflexivity|]. by right.
  - destruct H as [H | (ss & [= <-] & [H | H])]; discriminate.
  - right. eexists. split; [reflexivity|]. by left.
Qed.

Lemma loggedInAs_Some_iff (session : option Session.t) (d : string) :
  loggedInAs session = Some d <->
  exists ss, session = Some ss /\ Session.doctorId ss = Some d /\ d <> "".
Proof.
  unfold loggedInAs, DoctorPages.isDoctorLoggedIn.
  destruct session as [[[[|c i]|] em]|]; cbn; split.
  all: try (intros [=]; fail).
  all: try (intros (ss & [= <-] & H1 & H2); cbn in H1; congruence).
  intros [= <-]. eexists. by repeat split.
Qed.

(** X9. Without a session, or with a session whose [doctorId] is missing or
    empty, every guarded route answers with a redirect to the login page and
    does nothing else: no query, no write, no mail, no upload. *)
Theorem X9_guard_redirects (w : World) (env : Auth.Env) (session : option Session.t)
    (appointmentId : string) (body : DoctorPages.ConfirmBody) (s : Store)
    (file : option string) (st : Auth.State) :
  session = None \/
  (exists ss, session = Some ss /\
     (Session.doctorId ss = None \/ Session.doctorId ss = Some "")) ->
  DoctorPages.confirmRoute w session appointmentId body s
    = (Returns (Redirect "/doctorLogin"), s) /\
  DoctorPages.appointmentsRoute w session (appointments s) = Redirect "/doctorLogin" /\
  DoctorPages.dashboardRoute w session (appointments s) = Redirect "/doctorLogin" /\
  DoctorPages.profileRoute w session = Redirect "/doctorLogin" /\
  (Auth.session st = session ->
   Auth.uploadPicture env file st = (Returns (Redirect "/doctorLogin"), st)).
Proof.
  intros Hshape.
  unfold DoctorPages.confirmRoute, DoctorPages.appointmentsRoute,
    DoctorPages.dashboardRoute, DoctorPages.profileRoute, Auth.uploadPicture,
    Auth.sbind, Auth.getSession.
  destruct Hshape as [-> | (ss & -> & [Hid | Hid])].
  - repeat split. by intros ->.
  - unfold DoctorPages.isDoctorLoggedIn. rewrite Hid. repeat split.
    intros ->. by rewrite Hid.
  - unfold DoctorPages.isDoctorLoggedIn. rewrite Hid. repeat split.
    intros ->. by rewrite Hid.
Qed.

Lemma X9_witness :
  let body := {| DoctorPages.timeSlot := Some "10:00-10:30";
                 DoctorPages.appointmentDate := Some "2024-06-01";
                 DoctorPages.confirmationMessage := None |} in
  DoctorPages.confirmRoute Scenario.world None "a1" body Scenario.store0
  = (Returns (Redirect "/doctorLogin"), Scenario.store0) /\
  DoctorPages.confirmRoute Scenario.world
    (Some {| Session.doctorId := None; Session.doctorEmail := None |}) "a1" body
    Scenario.store0
  = (Returns (Redirect "/doctorLogin"), Scenario.store0) /\
  DoctorPages.confirmRoute Scenario.world
    (Some {| Session.doctorId := Some ""; Session.doctorEmail := None |}) "a1" body
    Scenario.store0
  = (Returns (Redirect "/doctorLogin"), Scenario.store0) /\
  Auth.uploadPicture quietEnv (Some "public/1717200000000-me.png")
    {| Auth.doctorColl := [Scenario.smith]; Auth.session := None; Auth.calls := [] |}
  = (Returns (Redirect "/doctorLogin"),
     {| Auth.doctorColl := [Scenario.smith]; Auth.session := None; Auth.calls := [] |}).
Proof.
  cbv zeta. split; [|split; [|split]].
  - apply (X9_guard_redirects Scenario.world quietEnv None "a1" _ Scenario.store0 None
             accounts0). by left.
  - apply (X9_guard_redirects Scenario.world quietEnv
             (Some {| Session.doctorId := None; Session.doctorEmail := None |})
             "a1" _ Scenario.store0 None accounts0).
    right. eexists. split; [reflexivity|]. by left.
  - apply (X9_guard_redirects Scenario.world quietEnv
             (Some {| Session.doctorId := Some ""; Session.doctorEmail := None |})
             "a1" _ Scenario.store0 None accounts0).
    right. eexists. split; [reflexivity|]. by right.
  - apply (X9_guard_redirects Scenario.world quietEnv None "a1"
             {| DoctorPages.timeSlot := None; DoctorPages.appointmentDate := None;
                DoctorPages.confirmationMessage := None |}
             Scenario.store0 (Some "public/1717200000000-me.png")
             {| Auth.doctorColl := [Scenario.smith]; Auth.session := None;
                Auth.calls := [] |}); [by left | reflexivity].
Defined.

(** What a run of the handler leaves in the collection. *)
Lemma confirmHandler_store_cases (w : World) (req : DoctorRoutes.Request) (s : Store) :
  appointments (snd (DoctorRoutes.confirmHandler w req s)) = appointments s \/
  exists a,
    DoctorRoutes.matching (appointments s) (DoctorRoutes.appointmentId req)
      (DoctorRoutes.doctorId req) = Some a /\
    appointments (snd (DoctorRoutes.confirmHandler w req s))
    = <[DoctorRoutes.appointmentId req := DoctorRoutes.confirmed w req a]> (appointments s).
Proof.
  unfold DoctorRoutes.confirmHandler.
  destruct (findAppointmentFault w) as [e|] eqn:Hf.
  { left. by rewrite (confirmHandlerWith_query_fault _ _ _ _ _ e Hf). }
  destruct (DoctorRoutes.matching (appointments s) (DoctorRoutes.appointmentId req)
              (DoctorRoutes.doctorId req)) as [a|] eqn:Hm.
  2:{ left. by rewrite (confirmHandlerWith_miss _ _ _ _ _ Hf Hm). }
  destruct (saveFault w) as [e|] eqn:Hs.
  { left. by rewrite (confirmHandlerWith_save_fault _ _ _ _ _ a e Hf Hm Hs). }
  right. exists a. split; [reflexivity|].
  apply confirmHandlerWith_found_store; auto.
  - intros x. apply getDoctorById_readOnly.
  - intros ad d. apply sendAppointmentConfirmationEmail_readOnly.
Qed.

Lemma matching_Some (coll : gmap string Appointment.t) (id doctorid : string)
    (a : Appointment.t) :
  DoctorRoutes.matching coll id doctorid = Some a ->
  coll !! id = Some a /\ Appointment.doctorid a = doctorid.
Proof.
  unfold DoctorRoutes.matching. destruct (coll !! id) as [b|]; [|discriminate].
  destruct (String.eqb_spec (Appointment.doctorid b) doctorid); [|discriminate].
  by intros [= <-].
Qed.

Lemma confirmRoute_store (w : World) (session : option Session.t) (id : string)
    (body : DoctorPages.ConfirmBody) (s : Store) :
  appointments (snd (DoctorPages.confirmRoute w session id body s)) = appointments s \/
  exists d a,
    loggedInAs session = Some d /\
    appointments s !! id = Some a /\ Appointment.doctorid a = d /\
    appointments (snd (DoctorPages.confirmRoute w session id body s))
    = <[id := DoctorRoutes.confirmed w
              {| DoctorRoutes.appointmentId := id; DoctorRoutes.doctorId := d;
                 DoctorRoutes.timeSlot := DoctorPages.timeSlot body;
                 DoctorRoutes.appointmentDate := DoctorPages.appointmentDate body;
                 DoctorRoutes.confirmationMessage := DoctorPages.confirmationMessage body |}
              a]> (appointments s).
Proof.
  unfold DoctorPages.confirmRoute.
  destruct (loggedInAs session) as [d|] eqn:Hl.
  2:{ left. by rewrite (guard_blocks _ _ _ Hl). }
  rewrite (guard_passes _ _ _ _ Hl). unfold bind, ret.
  match goal with
  | |- context [DoctorRoutes.confirmHandler w ?req s] =>
      destruct (confirmHandler_store_cases w req s) as [H | (a & Hm & H)];
      destruct (DoctorRoutes.confirmHandler w req s) as [[resp|e] s1]
  end; cbn [snd] in *; auto;
    right; exists d, a; apply matching_Some in Hm as [Hm1 Hm2]; cbn in Hm1, Hm2;
    by repeat split.
Qed.

(** X10. Whatever the request, the session and the world, the confirmation
    route creates no appointment and deletes none, leaves every appointment
    other than the addressed one as it was, leaves the addressed one as it
    was unless it is assigned to the doctor of the session, and never
    changes the patient name, patient e-mail, description, assigned doctor
    or creation time of any appointment. *)
Theorem X10_confirmRoute_frame (w : World) (session : option Session.t) (id : string)
    (body : DoctorPages.ConfirmBody) (s : Store) :
  let coll' := appointments (snd (DoctorPages.confirmRoute w session id body s)) in
  (forall id', is_Some (coll' !! id') <-> is_Some (appointments s !! id')) /\
  (forall id', id' <> id -> coll' !! id' = appointments s !! id') /\
  (forall a, appointments s !! id = Some a ->
             loggedInAs session <> Some (Appointment.doctorid a) ->
             coll' !! id = Some a) /\
  (forall id' a a', appointments s !! id' = Some a -> coll' !! id' = Some a' ->
     Appointment.patientName a' = Appointment.patientName a /\
     Appointment.patientEmail a' = Appointment.patientEmail a /\
     Appointment.description a' = Appointment.description a /\
     Appointment.doctorid a' = Appointment.doctorid a /\
     Appointment.createdAt a' = Appointment.createdAt a).
Proof.
  cbv zeta.
  destruct (confirmRoute_store w session id body s) as [-> | (d & a & Hl & Ha & Hd & ->)].
  { repeat split; try done. all: intros; simplify_eq; done. }
  split; [|split; [|split]].
  - intros id'. destruct (decide (id = id')) as [<-|Hne].
    + rewrite lookup_insert_eq, Ha. split; eauto.
    + by rewrite lookup_insert_ne.
  - intros id' Hne. by rewrite lookup_insert_ne.
  - intros a0 Ha0 Hnot. congruence.
  - intros id' a0 a' Ha0. destruct (decide (id = id')) as [<-|Hne].
    + rewrite lookup_insert_eq. intros [= <-]. simplify_eq. by repeat split.
    + rewrite lookup_insert_ne by done. intros. simplify_eq. by repeat split.
Qed.

(** ** The list of a doctor's appointments *)

#[local] Instance latestFirst_total : Total DoctorPages.latestFirst.
Proof.
  intros [i a] [j b]. unfold DoctorPages.latestFirst, DoctorPages.createdAtLe. cbn.
  destruct (Appointment.createdAt a) as [x|], (Appointment.createdAt b) as [y|]; auto.
  destruct (Z.leb_spec x y), (Z.leb_spec y x); auto; lia.
Qed.

#[local] Instance latestFirst_trans : Transitive DoctorPages.latestFirst.
Proof.
  intros [i a] [j b] [k c]. unfold DoctorPages.latestFirst, DoctorPages.createdAtLe. cbn.
  destruct (Appointment.createdAt a) as [x|], (Appointment.createdAt b) as [y|],
    (Appointment.createdAt c) as [z|]; auto; try discriminate.
  rewrite !Z.leb_le. lia.
Qed.

Lemma appointment_find_spec (w : World) (coll : gmap string Appointment.t) (d : string) :
  findAppointmentFault w = None ->
  exists l, DoctorPages.appointment_find w coll d = Returns l /\
    (forall id a, (id, a) ∈ l <-> coll !! id = Some a /\ Appointment.doctorid a = d) /\
    StronglySorted DoctorPages.latestFirst l /\
    NoDup l.*1.
Proof.
  intros Hf. unfold DoctorPages.appointment_find. rewrite Hf.
  eexists. split; [reflexivity|]. split; [|split].
  - intros id a. rewrite merge_sort_Permutation, list_elem_of_filter, elem_of_map_to_list.
    cbn. rewrite String.eqb_eq. tauto.
  - apply StronglySorted_merge_sort; apply _.
  - rewrite merge_sort_Permutation.
    eapply NoDup_fmap_fst.
    + intros id a b. rewrite !list_elem_of_filter, !elem_of_map_to_list.
      intros [_ H1] [_ H2]. congruence.
    + apply NoDup_filter, NoDup_map_to_list.
Qed.

(** X11. For a logged-in doctor and an answering database, [GET
    /appointments] returns success with exactly the appointments of the
    collection that are assigned to the doctor of the session, each once,
    ordered by creation time, latest first, those without one last. *)
Theorem X11_appointments_of_the_session_doctor (w : World) (session : option Session.t)
    (coll : gmap string Appointment.t) (d : string) :
  loggedInAs session = Some d ->
  findAppointmentFault w = None ->
  exists l,
    DoctorPages.appointmentsRoute w session coll
    = Respond {| DoctorPages.list_statusCode := 200; DoctorPages.list_success := true;
                 DoctorPages.list_message := None;
                 DoctorPages.list_appointments := Some l |} /\
    (forall id a, (id, a) ∈ l <-> coll !! id = Some a /\ Appointment.doctorid a = d) /\
    NoDup l.*1 /\
    (forall i j x y, l !! i = Some x -> l !! j = Some y -> (i < j)%nat ->
       DoctorPages.createdAtLe (Appointment.createdAt (snd y))
         (Appointment.createdAt (snd x)) = true).
Proof.
  intros Hl Hf. destruct (appointment_find_spec w coll d Hf) as (l & Hr & Hin & Hs & Hnd).
  exists l. unfold DoctorPages.appointmentsRoute. rewrite (guard_passes _ _ _ _ Hl), Hr.
  split; [reflexivity|]. split; [exact Hin|]. split; [exact Hnd|].
  clear -Hs. induction Hs as [|x l Hs IH Hall]; intros i j u v Hi Hj Hij.
  - by rewrite lookup_nil in Hi.
  - destruct i as [|i], j as [|j]; try lia; cbn in Hi, Hj.
    + injection Hi as <-. rewrite Forall_forall in Hall.
      apply (Hall v). eapply list_elem_of_lookup_2; eauto.
    + eapply IH; eauto. lia.
Qed.

Lemma X11_witness :
  exists l,
    DoctorPages.appointmentsRoute Scenario.world
      (Some {| Session.doctorId := Some "d1"; Session.doctorEmail := Some "smith@x.com" |})
      (appointments Scenario.store0)
    = Respond {| DoctorPages.list_statusCode := 200; DoctorPages.list_success := true;
                 DoctorPages.list_message := None;
                 DoctorPages.list_appointments := Some l |} /\
    (forall id a, (id, a) ∈ l <->
       appointments Scenario.store0 !! id = Some a /\ Appointment.doctorid a = "d1").
Proof.
  destruct (X11_appointments_of_the_session_doctor Scenario.world
              (Some {| Session.doctorId := Some "d1";
                       Session.doctorEmail := Some "smith@x.com" |})
              (appointments Scenario.store0) "d1" eq_refl eq_refl) as (l & H1 & H2 & _).
  exists l. split; assumption.
Defined.

Lemma confirmRoute_found (w : World) (session : option Session.t) (id : string)
    (body : DoctorPages.ConfirmBody) (s : Store) (d : string) (a : Appointment.t) :
  loggedInAs session = Some d ->
  appointments s !! id = Some a ->
  Appointment.doctorid a = d ->
  findAppointmentFault w = None ->
  saveFault w = None ->
  let req := {| DoctorRoutes.appointmentId := id; DoctorRoutes.doctorId := d;
                DoctorRoutes.timeSlot := DoctorPages.timeSlot body;
                DoctorRoutes.appointmentDate := DoctorPages.appointmentDate body;
                DoctorRoutes.confirmationMessage := DoctorPages.confirmationMessage body |} in
  fst (DoctorPages.confirmRoute w session id body s)
  = Returns (Respond (DoctorRoutes.ok (DoctorRoutes.confirmed w req a))) /\
  appointments (snd (DoctorPages.confirmRoute w session id body s))
  = <[id := DoctorRoutes.confirmed w req a]> (appointments s).
Proof.
  intros Hl Ha Hd Hf Hs req.
  unfold DoctorPages.confirmRoute. rewrite (guard_passes _ _ _ _ Hl). unfold bind, ret.
  fold req.
  pose proof (confirmHandler_found w req s a Hf Ha Hd Hs) as H1.
  pose proof (confirmHandler_found_store w req s a Hf Ha Hd Hs) as H2.
  cbv zeta in H1. destruct (DoctorRoutes.confirmHandler w req s) as [[resp|e] s1].
  - injection H1 as -> _. cbn in *. by rewrite H2.
  - discriminate H1.
Qed.

(** X12. Confirm, then list: after a doctor has confirmed one of the
    doctor's own appointments, [GET /appointments] in the same session
    lists that appointment with status confirmed and with the slot and date
    of the request, and lists the same appointment ids as before. *)
Theorem X12_confirm_then_list (w : World) (session : option Session.t) (id : string)
    (body : DoctorPages.ConfirmBody) (s : Store) (d : string) (a : Appointment.t) :
  loggedInAs session = Some d ->
  appointments s !! id = Some a ->
  Appointment.doctorid a = d ->
  findAppointmentFault w = None ->
  saveFault w = None ->
  let s' := snd (DoctorPages.confirmRoute w session id body s) in
  exists l0 l a',
    DoctorPages.appointmentsRoute w session (appointments s)
    = Respond {| DoctorPages.list_statusCode := 200; DoctorPages.list_success := true;
                 DoctorPages.list_message := None;
                 DoctorPages.list_appointments := Some l0 |} /\
    DoctorPages.appointmentsRoute w session (appointments s')
    = Respond {| DoctorPages.list_statusCode := 200; DoctorPages.list_success := true;
                 DoctorPages.list_message := None;
                 DoctorPages.list_appointments := Some l |} /\
    (id, a') ∈ l /\
    Appointment.status a' = Some "confirmed" /\
    Appointment.timeSlot a' = DoctorPages.timeSlot body /\
    Appointment.appointmentDate a' = DoctorPages.appointmentDate body /\
    (forall id', id' ∈ l.*1 <-> id' ∈ l0.*1).
Proof.
  intros Hl Ha Hd Hf Hs s'.
  destruct (confirmRoute_found w session id body s d a Hl Ha Hd Hf Hs) as [_ Hst].
  cbv zeta in Hst. subst s'. rewrite Hst.
  destruct (appointment_find_spec w (appointments s) d Hf) as (l0 & Hr0 & Hin0 & _).
  match goal with
  | |- context [<[id := ?doc]> (appointments s)] =>
      destruct (appointment_find_spec w (<[id := doc]> (appointments s)) d Hf)
        as (l & Hr & Hin & _); exists l0, l, doc
  end.
  unfold DoctorPages.appointmentsRoute. rewrite !(guard_passes _ _ _ _ Hl), Hr0, Hr.
  split; [reflexivity|]. split; [reflexivity|].
  split; [apply Hin; rewrite lookup_insert_eq; by split|].
  do 3 (split; [reflexivity|]).
  intros id'. rewrite !list_elem_of_fmap. split.
  - intros ([i b] & -> & Hb). apply Hin in Hb as [Hb1 Hb2]. cbn.
    destruct (decide (id = i)) as [<-|Hne].
    + exists (id, a). split; [reflexivity|]. apply Hin0. by split.
    + rewrite lookup_insert_ne in Hb1 by done. exists (i, b). split; [reflexivity|].
      apply Hin0. by split.
  - intros ([i b] & -> & Hb). apply Hin0 in Hb as [Hb1 Hb2]. cbn.
    destruct (decide (id = i)) as [<-|Hne].
    + eexists (id, _). split; [reflexivity|]. apply Hin. rewrite lookup_insert_eq.
      by split.
    + exists (i, b). split; [reflexivity|]. apply Hin. rewrite lookup_insert_ne by done.
      by split.
Qed.

Lemma X12_witness :
  let session := Some {| Session.doctorId := Some "d1";
                         Session.doctorEmail := Some "smith@x.com" |} in
  let body := {| DoctorPages.timeSlot := Some "10:00-10:30";
                 DoctorPages.appointmentDate := Some "2024-06-01";
                 DoctorPages.confirmationMessage := None |} in
  let s' := snd (DoctorPages.confirmRoute Scenario.world session "a1" body Scenario.store0) in
  exists l a',
    DoctorPages.appointmentsRoute Scenario.world session (appointments s')
    = Respond {| DoctorPages.list_statusCode := 200; DoctorPages.list_success := true;
                 DoctorPages.list_message := None;
                 DoctorPages.list_appointments := Some l |} /\
    ("a1", a') ∈ l /\
    Appointment.status a' = Some "confirmed" /\
    Appointment.timeSlot a' = Some "10:00-10:30".
Proof.
  cbv zeta.
  destruct (X12_confirm_then_list Scenario.world
              (Some {| Session.doctorId := Some "d1";
                       Session.doctorEmail := Some "smith@x.com" |})
              "a1"
              {| DoctorPages.timeSlot := Some "10:00-10:30";
                 DoctorPages.appointmentDate := Some "2024-06-01";
                 DoctorPages.confirmationMessage := None |}
              Scenario.store0 "d1" Scenario.a1 eq_refl eq_refl eq_refl eq_refl eq_refl)
    as (l0 & l & a' & _ & H2 & H3 & H4 & H5 & _).
  exists l, a'. repeat split; assumption.
Defined.

(** X13. For a logged-in doctor and an answering database: when no doctor
    of the collection carries the id of the session, the dashboard sends
    the browser back to the login page and the profile answers 404;
    otherwise the dashboard renders the first such doctor together with
    exactly the list [GET /appointments] returns, and the profile returns
    that doctor without the password hash. *)
Theorem X13_dashboard_and_profile (w : World) (session : option Session.t)
    (coll : gmap string Appointment.t) (d : string) :
  loggedInAs session = Some d ->
  findDoctorFault w = None ->
  findAppointmentFault w = None ->
  ((forall doc, doc ∈ doctors w -> Doctor.doctorid doc <> Some d) ->
   DoctorPages.dashboardRoute w session coll = Redirect "/doctorLogin" /\
   DoctorPages.profileRoute w session
   = Respond {| DoctorPages.profile_statusCode := 404;
                DoctorPages.profile_success := false;
                DoctorPages.profile_message := Some "Doctor not found";
                DoctorPages.profile_doctor := None |}) /\
  (forall before doc after,
     doctors w = before ++ doc :: after ->
     Doctor.doctorid doc = Some d ->
     (forall other, other ∈ before -> Doctor.doctorid other <> Some d) ->
     exists l,
       DoctorPages.dashboardRoute w session coll = Render "doctorDashboard" doc l /\
       DoctorPages.appointmentsRoute w session coll
       = Respond {| DoctorPages.list_statusCode := 200; DoctorPages.list_success := true;
                    DoctorPages.list_message := None;
                    DoctorPages.list_appointments := Some l |} /\
       DoctorPages.profileRoute w session
       = Respond {| DoctorPages.profile_statusCode := 200;
                    DoctorPages.profile_success := true;
                    DoctorPages.profile_message := None;
                    DoctorPages.profile_doctor
                      := Some (DoctorPages.withoutPasswordHash doc) |}).
Proof.
  intros Hl Hfd Hfa.
  unfold DoctorPages.dashboardRoute, DoctorPages.profileRoute,
    DoctorPages.appointmentsRoute, DoctorPages.doctor_byId.
  rewrite !(guard_passes _ _ _ _ Hl), Hfd.
  assert (Hp : forall doc, (match Doctor.doctorid doc with
                            | Some i => String.eqb i d
                            | None => false
                            end) = true <-> Doctor.doctorid doc = Some d).
  { intros doc. destruct (Doctor.doctorid doc) as [i|]; [|split; discriminate].
    rewrite String.eqb_eq. split; congruence. }
  split.
  - intros Hnone.
    assert (Hfind : find (fun d0 => match Doctor.doctorid d0 with
                                    | Some i => String.eqb i d
                                    | None => false
                                    end) (doctors w) = None).
    { induction (doctors w) as [|x l IH]; [reflexivity|]. cbn.
      destruct (match Doctor.doctorid x with Some i => String.eqb i d | None => false end)
        eqn:E.
      - apply Hp in E. exfalso. apply (Hnone x); [by left | exact E].
      - apply IH. intros doc Hin. apply Hnone. by right. }
    by rewrite Hfind.
  - intros before doc after Hdocs Hd Hbefore.
    assert (Hfind : find (fun d0 => match Doctor.doctorid d0 with
                                    | Some i => String.eqb i d
                                    | None => false
                                    end) (doctors w) = Some doc).
    { rewrite Hdocs. clear Hdocs. induction before as [|x l IH]; cbn.
      - apply Hp in Hd. by rewrite Hd.
      - destruct (match Doctor.doctorid x with Some i => String.eqb i d | None => false end)
          eqn:E.
        + apply Hp in E. exfalso. apply (Hbefore x); [by left | exact E].
        + apply IH. intros other Hin. apply Hbefore. by right. }
    rewrite Hfind.
    destruct (appointment_find_spec w coll d Hfa) as (l & Hr & _).
    exists l. by rewrite Hr.
Qed.

Lemma X13_witness :
  exists l,
    DoctorPages.dashboardRoute Scenario.world
      (Some {| Session.doctorId := Some "d1"; Session.doctorEmail := Some "smith@x.com" |})
      (appointments Scenario.store0)
    = Render "doctorDashboard" Scenario.smith l.
Proof.
  destruct (X13_dashboard_and_profile Scenario.world
              (Some {| Session.doctorId := Some "d1";
                       Session.doctorEmail := Some "smith@x.com" |})
              (appointments Scenario.store0) "d1" eq_refl eq_refl eq_refl) as [_ H].
  destruct (H [] Scenario.smith [] eq_refl eq_refl) as (l & H1 & _).
  - intros other Hin. by apply not_elem_of_nil in Hin.
  - by exists l.
Defined.

(** ** Login *)

Lemma addCalls_app (st : Auth.State) (a b : list Auth.Call) :
  addCalls (addCalls st a) b = addCalls st (a ++ b).
Proof. unfold addCalls. cbn. by rewrite <- app_assoc. Qed.

(** The case table of [login]. *)
Lemma login_eq (env : Auth.Env) (body : Auth.LoginBody) (st : Auth.State) :
  Auth.login env body st =
  let email := Auth.login_email body in
  let pw := Auth.login_password body in
  let q := Auth.CallFindByEmail email in
  match Auth.findFault env with
  | Some e => (Returns (loginError e), addCalls st [q])
  | None =>
      match find (Auth.byEmail email) (Auth.doctorColl st) with
      | None => (Returns Auth.invalidCredentials, addCalls st [q])
      | Some d =>
          if negb (bool_decide (Doctor.status d = Some "approved"))
          then (Returns loginPending, addCalls st [q])
          else
            let c := Auth.CallCompare pw (Doctor.passwordHash d) in
            match Auth.bcryptCompare env pw (Doctor.passwordHash d) with
            | Throws e => (Returns (loginError e), addCalls st [q; c])
            | Returns false => (Returns Auth.invalidCredentials, addCalls st [q; c])
            | Returns true =>
                match Auth.session st with
                | None => (Returns (loginError Auth.setPropertyError), addCalls st [q; c])
                | Some _ => (Returns (loginOk d), loggedIn st d [q; c])
                end
            end
      end
  end.
Proof.
  unfold Auth.login, Auth.doctor_findByEmail, Auth.bcrypt_compare, Auth.setSession,
    Auth.outcome, Auth.stry, Auth.sbind, Auth.sret, Auth.sthrow, Auth.call,
    Auth.getDoctors, Auth.getSession, Auth.putSession, addCalls, loggedIn.
  cbv zeta.
  destruct (Auth.findFault env); [reflexivity|]. cbn [Auth.doctorColl Auth.session Auth.calls].
  destruct (find _ _) as [d|]; [|reflexivity].
  destruct (negb _); [reflexivity|].
  cbn [Auth.doctorColl Auth.session Auth.calls]. rewrite <- app_assoc. cbn [app].
  destruct (Auth.bcryptCompare env _ _) as [[|]|e]; cbn [negb Auth.session];
    try reflexivity.
  destruct (Auth.session st); reflexivity.
Qed.

(** X14. Login never throws and never changes the doctor collection. It
    answers 200 only for a stored doctor with the e-mail of the request
    whose status is approved and whose password [bcrypt.compare] accepts;
    then, and only then, the session changes, to the id and e-mail of that
    doctor. *)
Theorem X14_login_sound (env : Auth.Env) (body : Auth.LoginBody) (st : Auth.State) :
  exists resp st', Auth.login env body st = (Returns resp, st') /\
    Auth.doctorColl st' = Auth.doctorColl st /\
    (Auth.login_statusCode resp <> 200 -> Auth.session st' = Auth.session st) /\
    (Auth.login_statusCode resp = 200 ->
     exists d, d ∈ Auth.doctorColl st /\
       Some (Doctor.email d) = Auth.login_email body /\
       Doctor.status d = Some "approved" /\
       Auth.bcryptCompare env (Auth.login_password body) (Doctor.passwordHash d)
         = Returns true /\
       Auth.session st' = Some {| Session.doctorId := Doctor.doctorid d;
                                  Session.doctorEmail := Some (Doctor.email d) |} /\
       Auth.login_doctorId resp = Doctor.doctorid d).
Proof.
  rewrite login_eq. cbv zeta.
  assert (Hother : forall resp st',
            Auth.login_statusCode resp <> 200 ->
            Auth.doctorColl st' = Auth.doctorColl st ->
            Auth.session st' = Auth.session st ->
            exists r s', (Returns resp, st') = (Returns r, s') /\
              Auth.doctorColl s' = Auth.doctorColl st /\
              (Auth.login_statusCode r <> 200 -> Auth.session s' = Auth.session st) /\
              (Auth.login_statusCode r = 200 ->
               exists d, d ∈ Auth.doctorColl st /\
                 Some (Doctor.email d) = Auth.login_email body /\
                 Doctor.status d = Some "approved" /\
                 Auth.bcryptCompare env (Auth.login_password body) (Doctor.passwordHash d)
                   = Returns true /\
                 Auth.session s' = Some {| Session.doctorId := Doctor.doctorid d;
                                           Session.doctorEmail := Some (Doctor.email d) |} /\
                 Auth.login_doctorId r = Doctor.doctorid d)).
  { intros resp st' H1 H2 H3. exists resp, st'.
    split; [reflexivity|]. split; [exact H2|]. split; [intros _; exact H3|].
    intros H. contradiction. }
  destruct (Auth.findFault env); [apply Hother; [cbn; discriminate | reflexivity | reflexivity]|].
  destruct (find _ _) as [d|] eqn:Hfind; [|apply Hother; [cbn; discriminate | reflexivity | reflexivity]].
  destruct (bool_decide_reflect (Doctor.status d = Some "approved")) as [Hst|Hst];
    cbn [negb]; [|apply Hother; [cbn; discriminate | reflexivity | reflexivity]].
  destruct (Auth.bcryptCompare env _ _) as [[|]|e] eqn:Hc;
    try (apply Hother; [cbn; discriminate | reflexivity | reflexivity]).
  destruct (Auth.session st) as [ss|] eqn:Hsess;
    [|apply Hother; [cbn; discriminate | reflexivity | exact Hsess]].
  eexists _, _. split; [reflexivity|]. split; [reflexivity|].
  split; [intros H; by destruct H|].
  intros _. exists d. apply find_some in Hfind as [Hin Hmail].
  split; [by apply list_elem_of_In|].
  unfold Auth.byEmail in Hmail. destruct (Auth.login_email body) as [em|]; [|discriminate].
  apply String.eqb_eq in Hmail. split; [by rewrite Hmail|]. by repeat split.
Qed.

(** X15. A doctor whose status is not approved, pending or rejected alike,
    is answered 403 with the pending-approval message whatever the
    password: the password is not even compared, and the session stays as
    it was. *)
Theorem X15_login_unapproved (env : Auth.Env) (body : Auth.LoginBody) (st : Auth.State)
    (d : Doctor.t) :
  Auth.findFault env = None ->
  find (Auth.byEmail (Auth.login_email body)) (Auth.doctorColl st) = Some d ->
  Doctor.status d <> Some "approved" ->
  Auth.login env body st
  = (Returns {| Auth.login_statusCode := 403; Auth.login_success := false;
                Auth.login_message :=
                  "Your account is pending approval. Please wait for admin approval.";
                Auth.login_doctorId := None; Auth.login_redirectUrl := None |},
     addCalls st [Auth.CallFindByEmail (Auth.login_email body)]).
Proof.
  intros Hf Hfind Hst. rewrite login_eq. cbv zeta. rewrite Hf, Hfind.
  by rewrite bool_decide_eq_false_2.
Qed.

Lemma X15_witness :
  let rejected := {| Doctor.name := "Jones"; Doctor.email := "jones@x.com";
                     Doctor.passwordHash := "$2a$10$hash"; Doctor.phone := None;
                     Doctor.gender := None; Doctor.status := Some "rejected";
                     Doctor.idproof := None; Doctor.profilePicture := None;
                     Doctor.doctorid := Some "d7"; Doctor.specialization := None;
                     Doctor.location := None |} in
  let env := {| Auth.bcryptHash := fun _ => Returns "$2a$10$hash";
                Auth.bcryptCompare := fun _ _ => Returns true;
                Auth.generatedCode := "D1";
                Auth.toLowerCase := fun x => x;
                Auth.findFault := None;
                Auth.validationError := fun _ => Err.ofMessage None;
                Auth.createFault := fun _ _ => None;
                Auth.updateFault := None;
                Auth.cloudinaryUpload := fun _ => Returns "u";
                Auth.destroyError := None |} in
  let st := {| Auth.doctorColl := [Scenario.smith; rejected];
               Auth.session := Some Auth.freshSession; Auth.calls := [] |} in
  fst (Auth.login env {| Auth.login_email := Some "jones@x.com";
                         Auth.login_password := Some "right password" |} st)
  = Returns loginPending.
Proof.
  cbv zeta.
  match goal with
  | |- fst (Auth.login ?env ?body ?st) = _ =>
      rewrite (X15_login_unapproved env body st
                 {| Doctor.name := "Jones"; Doctor.email := "jones@x.com";
                    Doctor.passwordHash := "$2a$10$hash"; Doctor.phone := None;
                    Doctor.gender := None; Doctor.status := Some "rejected";
                    Doctor.idproof := None; Doctor.profilePicture := None;
                    Doctor.doctorid := Some "d7"; Doctor.specialization := None;
                    Doctor.location := None |} eq_refl eq_refl)
  end.
  - reflexivity.
  - discriminate.
Defined.

(** X16. An unknown e-mail and a wrong password are answered alike: the
    same 401 body, and the session stays as it was. *)
Theorem X16_login_invalid_credentials_alike (env : Auth.Env) (body : Auth.LoginBody)
    (st : Auth.State) :
  Auth.findFault env = None ->
  find (Auth.byEmail (Auth.login_email body)) (Auth.doctorColl st) = None \/
  (exists d,
     find (Auth.byEmail (Auth.login_email body)) (Auth.doctorColl st) = Some d /\
     Doctor.status d = Some "approved" /\
     Auth.bcryptCompare env (Auth.login_password body) (Doctor.passwordHash d)
       = Returns false) ->
  fst (Auth.login env body st)
  = Returns {| Auth.login_statusCode := 401; Auth.login_success := false;
               Auth.login_message := "Invalid email or password";
               Auth.login_doctorId := None; Auth.login_redirectUrl := None |} /\
  Auth.session (snd (Auth.login env body st)) = Auth.session st.
Proof.
  intros Hf H. rewrite login_eq. cbv zeta. rewrite Hf.
  destruct H as [-> | (d & -> & Hst & ->)]; [by split|].
  by rewrite bool_decide_eq_true_2.
Qed.

Lemma X16_witness :
  let env := {| Auth.bcryptHash := fun _ => Returns "$2a$10$hash";
                Auth.bcryptCompare := fun _ _ => Returns false;
                Auth.generatedCode := "D1";
                Auth.toLowerCase := fun x => x;
                Auth.findFault := None;
                Auth.validationError := fun _ => Err.ofMessage None;
                Auth.createFault := fun _ _ => None;
                Auth.updateFault := None;
                Auth.cloudinaryUpload := fun _ => Returns "u";
                Auth.destroyError := None |} in
  let st := {| Auth.doctorColl := [Scenario.smith];
               Auth.session := Some Auth.freshSession; Auth.calls := [] |} in
  fst (Auth.login env {| Auth.login_email := Some "nobody@x.com";
                         Auth.login_password := Some "x" |} st)
  = fst (Auth.login env {| Auth.login_email := Some "smith@x.com";
                           Auth.login_password := Some "wrong" |} st).
Proof.
  cbv zeta.
  match goal with
  | |- fst (Auth.login ?env ?b1 ?st) = fst (Auth.login _ ?b2 _) =>
      rewrite (proj1 (X16_login_invalid_credentials_alike env b1 st eq_refl
                        (or_introl eq_refl)));
      rewrite (proj1 (X16_login_invalid_credentials_alike env b2 st eq_refl
                        (or_intror (ex_intro _ Scenario.smith
                                      (conj eq_refl (conj eq_refl eq_refl))))))
  end.
  reflexivity.
Defined.

(** X17. Login, then the guard: after a login answered 200 the guard lets
    the session through as the doctor's id when the doctor has one; a doctor
    stored without a [doctorid] is answered 200 all the same and is then
    turned away by the guard on every guarded route. *)
Theorem X17_login_then_guard (env : Auth.Env) (body : Auth.LoginBody) (st : Auth.State)
    (d : Doctor.t) (ss : Session.t) :
  Auth.findFault env = None ->
  find (Auth.byEmail (Auth.login_email body)) (Auth.doctorColl st) = Some d ->
  Doctor.status d = Some "approved" ->
  Auth.bcryptCompare env (Auth.login_password body) (Doctor.passwordHash d)
    = Returns true ->
  Auth.session st = Some ss ->
  let r := Auth.login env body st in
  fst r = Returns {| Auth.login_statusCode := 200; Auth.login_success := true;
                     Auth.login_message := "Login successful";
                     Auth.login_doctorId := Doctor.doctorid d;
                     Auth.login_redirectUrl := Some "/doctor/dashboard" |} /\
  (forall i, Doctor.doctorid d = Some i -> i <> "" ->
             loggedInAs (Auth.session (snd r)) = Some i) /\
  (JS.truthy (Doctor.doctorid d) = false -> loggedInAs (Auth.session (snd r)) = None).
Proof.
  intros Hf Hfind Hst Hc Hs r. subst r. rewrite login_eq. cbv zeta.
  rewrite Hf, Hfind, bool_decide_eq_true_2, Hc, Hs by done. cbn [negb fst snd].
  split; [reflexivity|]. unfold loggedIn, loggedInAs, DoctorPages.isDoctorLoggedIn.
  cbn [Auth.session Session.doctorId]. split.
  - intros i -> Hne. destruct i; [congruence | reflexivity].
  - destruct (Doctor.doctorid d) as [[|c i]|]; cbn; intros; congruence.
Qed.

Lemma X17_witness :
  let env := {| Auth.bcryptHash := fun _ => Returns "$2a$10$hash";
                Auth.bcryptCompare := fun _ _ => Returns true;
                Auth.generatedCode := "D1";
                Auth.toLowerCase := fun x => x;
                Auth.findFault := None;
                Auth.validationError := fun _ => Err.ofMessage None;
                Auth.createFault := fun _ _ => None;
                Auth.updateFault := None;
                Auth.cloudinaryUpload := fun _ => Returns "u";
                Auth.destroyError := None |} in
  let st := {| Auth.doctorColl := [Scenario.smith];
               Auth.session := Some Auth.freshSession; Auth.calls := [] |} in
  loggedInAs (Auth.session (snd (Auth.login env {| Auth.login_email := Some "smith@x.com";
                                                   Auth.login_password := Some "pw" |} st)))
  = Some "d1".
Proof.
  cbv zeta.
  match goal with
  | |- loggedInAs (Auth.session (snd (Auth.login ?env ?body ?st))) = _ =>
      destruct (X17_login_then_guard env body st Scenario.smith Auth.freshSession
                  eq_refl eq_refl eq_refl eq_refl eq_refl) as (_ & H & _)
  end.
  apply H; [reflexivity | discriminate].
Defined.

(** ** Logout *)

(** X18. Logout without a session object throws, there being no [try] in
    the handler. With one, a failing store is answered 500 and the session
    stays as it was; otherwise the answer is the success message and the
    session left for the next request passes no guard. The doctor
    collection is never touched. *)
Theorem X18_logout (env : Auth.Env) (st : Auth.State) :
  let r := Auth.logout env st in
  Auth.doctorColl (snd r) = Auth.doctorColl st /\
  (Auth.session st = None -> exists e, fst r = Throws e /\ snd r = st) /\
  (forall ss, Auth.session st = Some ss ->
     (forall e, Auth.destroyError env = Some e ->
        fst r = Returns {| Auth.logout_statusCode := 500; Auth.logout_success := false;
                           Auth.logout_message := "Error logging out" |} /\
        Auth.session (snd r) = Some ss) /\
     (Auth.destroyError env = None ->
        fst r = Returns {| Auth.logout_statusCode := 200; Auth.logout_success := true;
                           Auth.logout_message := "Logged out successfully" |} /\
        loggedInAs (Auth.session (snd r)) = None)).
Proof.
  cbv zeta. unfold Auth.logout, Auth.sbind, Auth.sret, Auth.sthrow, Auth.getSession,
    Auth.putSession, Auth.call.
  destruct (Auth.session st) as [ss|] eqn:Hs.
  - cbn [Auth.session Auth.doctorColl Auth.calls].
    destruct (Auth.destroyError env) as [e|]; cbn.
    + split; [reflexivity|]. split; [discriminate|].
      intros ss' [= <-]. split; [intros e' _; by split | discriminate].
    + split; [reflexivity|]. split; [discriminate|].
      intros ss' [= <-]. split; [discriminate | intros _; by split].
  - cbn. split; [reflexivity|]. split; [intros _; eexists; by split | discriminate].
Qed.

(** ** Registration *)

(** The case table of [register]. *)
Lemma register_eq (env : Auth.Env) (body : Auth.RegisterBody) (st : Auth.State) :
  Auth.register env body st =
  let q := Auth.CallFindByEmail (Auth.email body) in
  let h := Auth.CallHash (Auth.password body) in
  match Auth.findFault env with
  | Some e => (Returns (registerError e), addCalls st [q])
  | None =>
      match find (Auth.byEmail (Auth.email body)) (Auth.doctorColl st) with
      | Some _ => (Returns registerDuplicate, addCalls st [q])
      | None =>
          match Auth.bcryptHash env (Auth.password body) with
          | Throws e => (Returns (registerError e), addCalls st [q; h])
          | Returns passwordHash =>
              match Auth.specialization body, Auth.location body with
              | Some sp, Some loc =>
                  let doc := Auth.newDoctor body passwordHash (Auth.generatedCode env)
                               (Auth.toLowerCase env sp) (Auth.toLowerCase env loc) in
                  let c := Auth.CallCreate doc in
                  if negb (Auth.nonEmpty (Doctor.name doc) && Auth.nonEmpty (Doctor.email doc)
                           && Auth.nonEmpty (Doctor.passwordHash doc))
                  then (Returns (registerError (Auth.validationError env doc)),
                        addCalls st [q; h; c])
                  else
                    match Auth.createFault env doc (Auth.doctorColl st) with
                    | Some e => (Returns (registerError e), addCalls st [q; h; c])
                    | None =>
                        (Returns (registerOk (Auth.generatedCode env)),
                         inserted st doc [q; h; c])
                    end
              | _, _ =>
                  (Returns (registerError Auth.toLowerCaseError), addCalls st [q; h])
              end
          end
      end
  end.
Proof.
  unfold Auth.register, Auth.doctor_findByEmail, Auth.bcrypt_hash, Auth.doctor_create,
    Auth.outcome, Auth.stry, Auth.sbind, Auth.sret, Auth.sthrow, Auth.call,
    Auth.getDoctors, Auth.putDoctors, addCalls, inserted.
  cbv zeta.
  destruct (Auth.findFault env); [reflexivity|]. cbn [Auth.doctorColl Auth.session Auth.calls].
  destruct (find _ _) as [d|]; [reflexivity|].
  cbn [Auth.doctorColl Auth.session Auth.calls]. rewrite <- app_assoc. cbn [app].
  destruct (Auth.bcryptHash env _) as [ph|e]; [|reflexivity].
  destruct (Auth.specialization body) as [sp|]; [|reflexivity].
  destruct (Auth.location body) as [loc|]; [|reflexivity].
  cbn [Auth.doctorColl Auth.session Auth.calls]. rewrite <- app_assoc. cbn [app].
  destruct (negb _); [reflexivity|].
  cbn [Auth.doctorColl Auth.session Auth.calls].
  destruct (Auth.createFault env _ _); reflexivity.
Qed.

Lemma find_byEmail_None (email : option string) (l : list Doctor.t) :
  find (Auth.byEmail email) l = None ->
  forall e, email = Some e -> e ∉ map Doctor.email l.
Proof.
  intros Hfind e -> Hin. apply list_elem_of_In, in_map_iff in Hin as (d & Hd & Hin).
  pose proof (find_none _ _ Hfind d Hin) as Hn. cbn in Hn.
  apply String.eqb_neq in Hn. congruence.
Qed.

(** X19. Registration never throws and leaves the session alone. It either
    leaves the doctor collection as it was or appends one document at its
    end; that document has status pending, the generated code as its id, a
    non-empty name and password hash, and an e-mail, the one of the
    request, that no stored document had. So e-mails that were pairwise
    distinct stay so. *)
Theorem X19_register_appends_one_pending (env : Auth.Env) (body : Auth.RegisterBody)
    (st : Auth.State) :
  exists resp st', Auth.register env body st = (Returns resp, st') /\
    Auth.session st' = Auth.session st /\
    (Auth.reg_statusCode resp <> 201 -> Auth.doctorColl st' = Auth.doctorColl st) /\
    (Auth.reg_statusCode resp = 201 ->
     exists doc, Auth.doctorColl st' = Auth.doctorColl st ++ [doc] /\
       Doctor.status doc = Some "pending" /\
       Doctor.doctorid doc = Some (Auth.generatedCode env) /\
       Auth.reg_doctorId resp = Some (Auth.generatedCode env) /\
       Doctor.name doc <> "" /\ Doctor.passwordHash doc <> "" /\
       Auth.email body = Some (Doctor.email doc) /\
       Doctor.email doc ∉ map Doctor.email (Auth.doctorColl st)) /\
    (NoDup (map Doctor.email (Auth.doctorColl st)) ->
     NoDup (map Doctor.email (Auth.doctorColl st'))).
Proof.
  rewrite register_eq. cbv zeta.
  assert (Hother : forall resp st',
            Auth.reg_statusCode resp <> 201 ->
            Auth.doctorColl st' = Auth.doctorColl st ->
            Auth.session st' = Auth.session st ->
            exists r s', (Returns resp, st') = (Returns r, s') /\
              Auth.session s' = Auth.session st /\
              (Auth.reg_statusCode r <> 201 -> Auth.doctorColl s' = Auth.doctorColl st) /\
              (Auth.reg_statusCode r = 201 ->
               exists doc, Auth.doctorColl s' = Auth.doctorColl st ++ [doc] /\
                 Doctor.status doc = Some "pending" /\
                 Doctor.doctorid doc = Some (Auth.generatedCode env) /\
                 Auth.reg_doctorId r = Some (Auth.generatedCode env) /\
                 Doctor.name doc <> "" /\ Doctor.passwordHash doc <> "" /\
                 Auth.email body = Some (Doctor.email doc) /\
                 Doctor.email doc ∉ map Doctor.email (Auth.doctorColl st)) /\
              (NoDup (map Doctor.email (Auth.doctorColl st)) ->
               NoDup (map Doctor.email (Auth.doctorColl s')))).
  { intros resp st' H1 H2 H3. exists resp, st'.
    split; [reflexivity|]. split; [exact H3|]. split; [intros _; exact H2|].
    split; [intros H; contradiction|]. by rewrite H2. }
  destruct (Auth.findFault env);
    [apply Hother; [cbn; discriminate | reflexivity | reflexivity]|].
  destruct (find _ _) as [d|] eqn:Hfind;
    [apply Hother; [cbn; discriminate | reflexivity | reflexivity]|].
  destruct (Auth.bcryptHash env _) as [ph|e];
    [|apply Hother; [cbn; discriminate | reflexivity | reflexivity]].
  destruct (Auth.specialization body) as [sp|];
    [|apply Hother; [cbn; discriminate | reflexivity | reflexivity]].
  destruct (Auth.location body) as [loc|];
    [|apply Hother; [cbn; discriminate | reflexivity | reflexivity]].
  destruct (negb _) eqn:Hvalid;
    [apply Hother; [cbn; discriminate | reflexivity | reflexivity]|].
  destruct (Auth.createFault env _ _);
    [apply Hother; [cbn; discriminate | reflexivity | reflexivity]|].
  apply negb_false_iff in Hvalid. apply andb_true_iff in Hvalid as [Hvalid Hph].
  apply andb_true_iff in Hvalid as [Hname Hemail].
  cbn [Auth.newDoctor Doctor.name Doctor.email Doctor.passwordHash] in Hname, Hemail, Hph.
  assert (Hmail : exists e, Auth.email body = Some e /\ e <> "" /\
                            JS.or_else (Auth.email body) "" = e).
  { destruct (Auth.email body) as [[|c e]|]; try discriminate. by eexists. }
  destruct Hmail as (e & Hbody & Hne & Hor).
  assert (Hfresh : e ∉ map Doctor.email (Auth.doctorColl st))
    by (eapply find_byEmail_None; eauto).
  eexists _, _. split; [reflexivity|]. split; [reflexivity|].
  split; [intros H; by destruct H|]. split.
  - intros _. eexists. split; [reflexivity|].
    cbn [Auth.newDoctor Doctor.status Doctor.doctorid Doctor.name Doctor.passwordHash
           Doctor.email registerOk Auth.reg_doctorId].
    rewrite Hor. repeat split; try done.
    + intros H. by rewrite H in Hname.
    + intros H. by rewrite H in Hph.
  - intros Hnd. cbn [inserted Auth.doctorColl]. rewrite map_app. cbn [map Auth.newDoctor Doctor.email].
    rewrite Hor. apply NoDup_app. split; [exact Hnd|]. split; [|apply NoDup_singleton].
    intros x Hx Hx'. apply list_elem_of_singleton in Hx' as ->. contradiction.
Qed.

(** X20. An e-mail that a stored doctor already has is answered 400; the
    password is not hashed, nothing is created, the state changes in
    nothing but the one query. *)
Theorem X20_register_duplicate_email (env : Auth.Env) (body : Auth.RegisterBody)
    (st : Auth.State) (e : string) :
  Auth.findFault env = None ->
  Auth.email body = Some e ->
  e ∈ map Doctor.email (Auth.doctorColl st) ->
  Auth.register env body st
  = (Returns {| Auth.reg_statusCode := 400; Auth.reg_success := false;
                Auth.reg_message := "Doctor with this email already exists";
                Auth.reg_doctorId := None |},
     addCalls st [Auth.CallFindByEmail (Some e)]).
Proof.
  intros Hf He Hin. rewrite register_eq. cbv zeta. rewrite Hf, He.
  destruct (find _ _) as [d|] eqn:Hfind; [reflexivity|].
  exfalso. revert Hin. eapply find_byEmail_None; eauto.
Qed.

Lemma X20_witness :
  fst (Auth.register quietEnv smithAgainForm accounts0) = Returns registerDuplicate.
Proof.
  rewrite (X20_register_duplicate_email quietEnv smithAgainForm accounts0 "smith@x.com"
             eq_refl eq_refl).
  - reflexivity.
  - cbn. by left.
Defined.

(** X21. A request without [specialization] or without [location] is
    answered 500 with the text of the [TypeError]; the password has been
    hashed by then, but nothing is created and the collection is as it
    was. *)
Theorem X21_register_missing_specialization (env : Auth.Env) (body : Auth.RegisterBody)
    (st : Auth.State) (h : string) :
  Auth.findFault env = None ->
  find (Auth.byEmail (Auth.email body)) (Auth.doctorColl st) = None ->
  Auth.bcryptHash env (Auth.password body) = Returns h ->
  Auth.specialization body = None \/ Auth.location body = None ->
  Auth.register env body st
  = (Returns {| Auth.reg_statusCode := 500; Auth.reg_success := false;
                Auth.reg_message :=
                  "Error registering doctor: Cannot read properties of undefined (reading 'toLowerCase')";
                Auth.reg_doctorId := None |},
     addCalls st [Auth.CallFindByEmail (Auth.email body);
                  Auth.CallHash (Auth.password body)]).
Proof.
  intros Hf Hfind Hh Hmiss. rewrite register_eq. cbv zeta. rewrite Hf, Hfind, Hh.
  destruct Hmiss as [-> | ->]; [reflexivity|].
  destruct (Auth.specialization body); reflexivity.
Qed.

Lemma X21_witness :
  fst (Auth.register quietEnv noLocationForm accounts0)
  = Returns (registerError Auth.toLowerCaseError).
Proof.
  rewrite (X21_register_missing_specialization quietEnv noLocationForm accounts0
             "$2a$10$hash"
             eq_refl eq_refl eq_refl (or_intror eq_refl)).
  reflexivity.
Defined.

(** X22. A complete form with a new e-mail, in a world where hashing and
    the insertion succeed, is answered 201 with the generated code; the
    collection gains, at its end, a pending document that holds the hash
    and not the password, the lower-cased specialization and location, the
    generated code as id, and no picture. *)
Theorem X22_register_success (env : Auth.Env) (body : Auth.RegisterBody)
    (st : Auth.State) (n e h sp loc : string) :
  Auth.findFault env = None ->
  Auth.name body = Some n -> n <> "" ->
  Auth.email body = Some e -> e <> "" ->
  e ∉ map Doctor.email (Auth.doctorColl st) ->
  Auth.bcryptHash env (Auth.password body) = Returns h -> h <> "" ->
  Auth.specialization body = Some sp ->
  Auth.location body = Some loc ->
  let doc := {| Doctor.name := n; Doctor.email := e; Doctor.passwordHash := h;
                Doctor.phone := Auth.phone body; Doctor.gender := Auth.gender body;
                Doctor.status := Some "pending"; Doctor.idproof := None;
                Doctor.profilePicture := None;
                Doctor.doctorid := Some (Auth.generatedCode env);
                Doctor.specialization := Some (Auth.toLowerCase env sp);
                Doctor.location := Some (Auth.toLowerCase env loc) |} in
  Auth.createFault env doc (Auth.doctorColl st) = None ->
  Auth.register env body st
  = (Returns {| Auth.reg_statusCode := 201; Auth.reg_success := true;
                Auth.reg_message :=
                  "Doctor registered successfully! Please wait for admin approval.";
                Auth.reg_doctorId := Some (Auth.generatedCode env) |},
     {| Auth.doctorColl := Auth.doctorColl st ++ [doc];
        Auth.session := Auth.session st;
        Auth.calls := Auth.calls st ++ [Auth.CallFindByEmail (Some e);
                                        Auth.CallHash (Auth.password body);
                                        Auth.CallCreate doc] |}).
Proof.
  intros Hf Hn Hnne He Hene Hfresh Hh Hhne Hsp Hloc doc Hc.
  rewrite register_eq. cbv zeta. rewrite Hf, Hh, Hsp, Hloc.
  assert (Hfind : find (Auth.byEmail (Auth.email body)) (Auth.doctorColl st) = None).
  { destruct (find _ _) as [d|] eqn:Hfind; [|reflexivity].
    apply find_some in Hfind as [Hin Hm]. rewrite He in Hm. cbn in Hm.
    apply String.eqb_eq in Hm. exfalso. apply Hfresh. rewrite <- Hm.
    apply list_elem_of_In, in_map, Hin. }
  rewrite Hfind.
  assert (Hdoc : Auth.newDoctor body h (Auth.generatedCode env) (Auth.toLowerCase env sp)
                   (Auth.toLowerCase env loc) = doc).
  { unfold Auth.newDoctor, doc. rewrite Hn, He.
    destruct n; [congruence|]. destruct e; [congruence|]. reflexivity. }
  rewrite Hdoc, Hc, He.
  replace (negb _) with false; [reflexivity|].
  unfold doc. cbn [Doctor.name Doctor.email Doctor.passwordHash].
  destruct n, e, h; cbn; congruence.
Qed.

Lemma X22_witness :
  exists st',
    Auth.register quietEnv jonesForm accounts0 = (Returns (registerOk "DOC-0042"), st') /\
    map Doctor.email (Auth.doctorColl st') = ["smith@x.com"; "jones@x.com"] /\
    map Doctor.passwordHash (Auth.doctorColl st') = ["$2a$10$hash"; "$2a$10$hash"].
Proof.
  eexists. split.
  - apply (X22_register_success quietEnv jonesForm accounts0 "Jones" "jones@x.com"
             "$2a$10$hash" "neurology" "pune"); try reflexivity; try discriminate.
    cbn. rewrite list_elem_of_singleton. discriminate.
  - split; reflexivity.
Defined.

Lemma find_byEmail_last (e : string) (l : list Doctor.t) (doc : Doctor.t) :
  e ∉ map Doctor.email l ->
  Doctor.email doc = e ->
  find (Auth.byEmail (Some e)) (l ++ [doc]) = Some doc.
Proof.
  intros Hfresh Hdoc. induction l as [|d l IH]; cbn.
  - apply String.eqb_eq in Hdoc. by rewrite Hdoc.
  - destruct (String.eqb_spec (Doctor.email d) e) as [E|E].
    + exfalso. apply Hfresh. cbn. rewrite E. by left.
    + apply IH. intros Hin. apply Hfresh. cbn. by right.
Qed.

(** X23. Register, then log in: a doctor who has just been registered is
    answered 403 at login, whatever the password and whatever
    [bcrypt.compare] would say, and gets no session. *)
Theorem X23_register_then_login (env env' : Auth.Env) (body : Auth.RegisterBody)
    (st : Auth.State) (pw : option string) (resp : Auth.RegisterResponse) :
  fst (Auth.register env body st) = Returns resp ->
  Auth.reg_statusCode resp = 201 ->
  Auth.findFault env' = None ->
  let st1 := snd (Auth.register env body st) in
  let r := Auth.login env' {| Auth.login_email := Auth.email body;
                              Auth.login_password := pw |} st1 in
  fst r = Returns {| Auth.login_statusCode := 403; Auth.login_success := false;
                     Auth.login_message :=
                       "Your account is pending approval. Please wait for admin approval.";
                     Auth.login_doctorId := None; Auth.login_redirectUrl := None |} /\
  Auth.session (snd r) = Auth.session st.
Proof.
  intros Hr H201 Hf' st1 r. subst st1 r. revert Hr. rewrite register_eq. cbv zeta.
  destruct (Auth.findFault env); [intros [= <-]; discriminate H201|].
  destruct (find _ _) as [d|] eqn:Hfind; [intros [= <-]; discriminate H201|].
  destruct (Auth.bcryptHash env _) as [ph|e]; [|intros [= <-]; discriminate H201].
  destruct (Auth.specialization body) as [sp|]; [|intros [= <-]; discriminate H201].
  destruct (Auth.location body) as [loc|]; [|intros [= <-]; discriminate H201].
  destruct (negb _) eqn:Hvalid; [intros [= <-]; discriminate H201|].
  destruct (Auth.createFault env _ _); [intros [= <-]; discriminate H201|].
  intros _. cbn [snd].
  apply negb_false_iff in Hvalid. apply andb_true_iff in Hvalid as [Hvalid _].
  apply andb_true_iff in Hvalid as [_ Hemail].
  cbn [Auth.newDoctor Doctor.email] in Hemail.
  destruct (Auth.email body) as [[|c e]|] eqn:Hbody; try discriminate.
  rewrite login_eq. cbv zeta. rewrite Hf'. cbn [Auth.login_email inserted Auth.doctorColl].
  rewrite find_byEmail_last.
  - cbn. by split.
  - eapply find_byEmail_None; eauto.
  - cbn. by rewrite Hbody.
Qed.

Lemma X23_witness :
  fst (Auth.login quietEnv {| Auth.login_email := Some "jones@x.com";
                              Auth.login_password := Some "s3cret" |}
         (snd (Auth.register quietEnv jonesForm accounts0)))
  = Returns loginPending.
Proof.
  apply (X23_register_then_login quietEnv quietEnv jonesForm accounts0 (Some "s3cret")
           (registerOk "DOC-0042")); reflexivity.
Defined.

(** ** The profile picture *)

(** The case table of [uploadPicture] behind the guard. *)
Lemma uploadPicture_eq (env : Auth.Env) (file : option string) (st : Auth.State)
    (d : string) :
  loggedInAs (Auth.session st) = Some d ->
  Auth.uploadPicture env file st =
  match file with
  | None => (Returns (Respond pictureMissing), st)
  | Some path =>
      let u := Auth.CallUpload path in
      match Auth.cloudinaryUpload env path with
      | Throws e => (Returns (Respond (pictureError e)), addCalls st [u])
      | Returns url =>
          let c := Auth.CallUpdatePicture d url in
          match Auth.updateFault env with
          | Some e => (Returns (Respond (pictureError e)), addCalls st [u; c])
          | None =>
              let p := Auth.updateFirst (Auth.hasDoctorId d) (Auth.setProfilePicture url)
                         (Auth.doctorColl st) in
              (Returns (Respond (pictureOk url
                                   (option_map DoctorPages.withoutPasswordHash (snd p)))),
               {| Auth.doctorColl := fst p; Auth.session := Auth.session st;
                  Auth.calls := Auth.calls st ++ [u; c] |})
          end
      end
  end.
Proof.
  intros Hl. unfold Auth.uploadPicture, Auth.getSession. unfold Auth.sbind at 1.
  rewrite (guard_passes _ _ _ _ Hl).
  unfold Auth.cloudinary_upload, Auth.doctor_updatePicture, Auth.outcome, Auth.stry,
    Auth.sbind, Auth.sret, Auth.sthrow, Auth.call, Auth.getDoctors, Auth.putDoctors,
    addCalls.
  destruct file as [path|]; [|reflexivity]. cbv zeta.
  destruct (Auth.cloudinaryUpload env path) as [url|e]; [|reflexivity].
  cbn [Auth.doctorColl Auth.session Auth.calls]. rewrite <- app_assoc. cbn [app].
  destruct (Auth.updateFault env); [reflexivity|].
  cbn [Auth.doctorColl Auth.session Auth.calls].
  destruct (Auth.updateFirst _ _ _) as [coll' upd]. reflexivity.
Qed.

Lemma updateFirst_none (p : Doctor.t -> bool) (f : Doctor.t -> Doctor.t)
    (l : list Doctor.t) :
  (forall x, x ∈ l -> p x = false) -> Auth.updateFirst p f l = (l, None).
Proof.
  induction l as [|x l IH]; intros H; [reflexivity|]. cbn.
  rewrite (H x) by by left. rewrite IH; [reflexivity|]. intros y Hy. apply H. by right.
Qed.

Lemma updateFirst_first (p : Doctor.t -> bool) (f : Doctor.t -> Doctor.t)
    (before after : list Doctor.t) (x : Doctor.t) :
  (forall y, y ∈ before -> p y = false) -> p x = true ->
  Auth.updateFirst p f (before ++ x :: after) = (before ++ f x :: after, Some (f x)).
Proof.
  intros Hb Hx. induction before as [|y l IH]; cbn.
  - by rewrite Hx.
  - rewrite (Hb y) by by left. rewrite IH; [reflexivity|]. intros z Hz. apply Hb. by right.
Qed.

Lemma hasDoctorId_true (d : string) (x : Doctor.t) :
  Auth.hasDoctorId d x = true <-> Doctor.doctorid x = Some d.
Proof.
  unfold Auth.hasDoctorId. destruct (Doctor.doctorid x) as [i|]; [|split; discriminate].
  rewrite String.eqb_eq. split; congruence.
Qed.

Lemma hasDoctorId_false (d : string) (x : Doctor.t) :
  Doctor.doctorid x <> Some d -> Auth.hasDoctorId d x = false.
Proof.
  intros H. destruct (Auth.hasDoctorId d x) eqn:E; [|reflexivity].
  apply hasDoctorId_true in E. contradiction.
Qed.

(** X24. A logged-in doctor whose file the media service stores: the
    answer is 200 with the URL of the stored file, and the session is left
    alone. The first doctor document with the id of the session gets that
    URL as its picture and is returned without the password hash; every
    other document, and every other field of that one, is as before. When
    no document has that id the answer is still the 200 success, with no
    doctor in it, and the collection is as before. *)
Theorem X24_uploadPicture_sets_own_picture (env : Auth.Env) (path url : string)
    (st : Auth.State) (d : string) :
  loggedInAs (Auth.session st) = Some d ->
  Auth.cloudinaryUpload env path = Returns url ->
  Auth.updateFault env = None ->
  let r := Auth.uploadPicture env (Some path) st in
  Auth.session (snd r) = Auth.session st /\
  ((forall doc, doc ∈ Auth.doctorColl st -> Doctor.doctorid doc <> Some d) ->
   fst r = Returns (Respond {| Auth.pic_statusCode := 200; Auth.pic_success := true;
                               Auth.pic_message := "Profile picture uploaded successfully";
                               Auth.pic_profilePicture := Some url;
                               Auth.pic_doctor := None |}) /\
   Auth.doctorColl (snd r) = Auth.doctorColl st) /\
  (forall before doc after,
     Auth.doctorColl st = before ++ doc :: after ->
     Doctor.doctorid doc = Some d ->
     (forall other, other ∈ before -> Doctor.doctorid other <> Some d) ->
     let doc' := Auth.setProfilePicture url doc in
     fst r = Returns (Respond {| Auth.pic_statusCode := 200; Auth.pic_success := true;
                                 Auth.pic_message := "Profile picture uploaded successfully";
                                 Auth.pic_profilePicture := Some url;
                                 Auth.pic_doctor
                                   := Some (DoctorPages.withoutPasswordHash doc') |}) /\
     Auth.doctorColl (snd r) = before ++ doc' :: after /\
     Doctor.profilePicture doc' = Some url /\
     Doctor.passwordHash doc' = Doctor.passwordHash doc /\
     Doctor.doctorid doc' = Doctor.doctorid doc /\
     Doctor.email doc' = Doctor.email doc /\
     Doctor.status doc' = Doctor.status doc).
Proof.
  intros Hl Hu Hf r. subst r. rewrite (uploadPicture_eq env (Some path) st d Hl).
  cbv zeta. rewrite Hu, Hf. cbn [fst snd Auth.session Auth.doctorColl].
  split; [reflexivity|]. split.
  - intros Hnone. rewrite updateFirst_none; [by split|].
    intros x Hx. apply hasDoctorId_false. by apply Hnone.
  - intros before doc after Hcoll Hd Hbefore. rewrite Hcoll.
    rewrite updateFirst_first.
    + by repeat split.
    + intros y Hy. apply hasDoctorId_false. by apply Hbefore.
    + by apply hasDoctorId_true.
Qed.

Lemma X24_witness :
  let r := Auth.uploadPicture quietEnv (Some "public/1717200000000-me.png") accounts_smith in
  map Doctor.profilePicture (Auth.doctorColl (snd r))
  = [Some "https://res.cloudinary.com/demo/p.png"] /\
  map Doctor.passwordHash (Auth.doctorColl (snd r)) = ["$2a$10$hash"].
Proof.
  cbv zeta.
  destruct (X24_uploadPicture_sets_own_picture quietEnv "public/1717200000000-me.png"
              "https://res.cloudinary.com/demo/p.png" accounts_smith "d1"
              eq_refl eq_refl eq_refl) as (_ & _ & H).
  assert (Hnil : forall other : Doctor.t, other ∈ [] -> Doctor.doctorid other <> Some "d1")
    by (intros other Hin; by apply not_elem_of_nil in Hin).
  destruct (H [] Scenario.smith [] eq_refl eq_refl Hnil) as (_ & -> & _).
  split; reflexivity.
Defined.

(** X25. The failures of the picture route, for a logged-in doctor: no
    file is answered 400 and nothing is called; a refusal of the media
    service is answered 500 with its message and no update is attempted; a
    failing update is answered 500 after the file has been stored. In all
    three the doctor collection and the session are as before. *)
Theorem X25_uploadPicture_failures (env : Auth.Env) (st : Auth.State) (d : string) :
  loggedInAs (Auth.session st) = Some d ->
  Auth.uploadPicture env None st
  = (Returns (Respond {| Auth.pic_statusCode := 400; Auth.pic_success := false;
                         Auth.pic_message := "No file uploaded";
                         Auth.pic_profilePicture := None; Auth.pic_doctor := None |}), st) /\
  (forall path e, Auth.cloudinaryUpload env path = Throws e ->
     Auth.uploadPicture env (Some path) st
     = (Returns (Respond {| Auth.pic_statusCode := 500; Auth.pic_success := false;
                            Auth.pic_message := "Error uploading profile picture: "
                                                  +:+ JS.interp (Err.message e);
                            Auth.pic_profilePicture := None; Auth.pic_doctor := None |}),
        addCalls st [Auth.CallUpload path])) /\
  (forall path url e, Auth.cloudinaryUpload env path = Returns url ->
     Auth.updateFault env = Some e ->
     Auth.uploadPicture env (Some path) st
     = (Returns (Respond {| Auth.pic_statusCode := 500; Auth.pic_success := false;
                            Auth.pic_message := "Error uploading profile picture: "
                                                  +:+ JS.interp (Err.message e);
                            Auth.pic_profilePicture := None; Auth.pic_doctor := None |}),
        addCalls st [Auth.CallUpload path; Auth.CallUpdatePicture d url])).
Proof.
  intros Hl. split; [|split].
  - by rewrite (uploadPicture_eq env None st d Hl).
  - intros path e Hu. rewrite (uploadPicture_eq env (Some path) st d Hl). cbv zeta.
    by rewrite Hu.
  - intros path url e Hu Hf. rewrite (uploadPicture_eq env (Some path) st d Hl). cbv zeta.
    by rewrite Hu, Hf.
Qed.

Lemma X25_witness :
  Auth.uploadPicture quietEnv None accounts_smith
  = (Returns (Respond pictureMissing), accounts_smith).
Proof.
  apply (X25_uploadPicture_failures quietEnv accounts_smith "d1"). reflexivity.
Defined.

(** ** Dates *)

(** Every day of the cycle of 400 years goes to its day number and back. *)
Lemma cycle_table :
  forallb (fun yoe =>
    forallb (fun mp =>
      forallb (fun d => implb (d <=? Calendar.monthLength yoe mp) (Calendar.cellOk yoe mp d))
        (Calendar.range 1 31))
      (Calendar.range 0 12)) (Calendar.range 0 400) = true.
Proof. vm_compute. reflexivity. Qed.

Lemma in_range (a : Z) (n : nat) (x : Z) :
  a <= x < a + Z.of_nat n -> In x (Calendar.range a n).
Proof.
  intros H. unfold Calendar.range. apply in_map_iff.
  exists (Z.to_nat (x - a)). split; [lia|]. apply in_seq. lia.
Qed.

Lemma cell_ok (yoe mp d : Z) :
  0 <= yoe < 400 -> 0 <= mp < 12 -> 1 <= d <= Calendar.monthLength yoe mp ->
  0 <= Calendar.doeOf yoe mp d < 146097 /\
  Calendar.cellOf (Calendar.doeOf yoe mp d) = (yoe, mp, d).
Proof.
  intros Hy Hm Hd.
  assert (Hd31 : d <= 31).
  { unfold Calendar.monthLength in Hd.
    repeat match type of Hd with context [if ?b then _ else _] => destruct b end; lia. }
  pose proof (proj1 (forallb_forall _ _) cycle_table yoe
                (in_range 0 400 yoe ltac:(lia))) as H1.
  cbv beta in H1.
  pose proof (proj1 (forallb_forall _ _) H1 mp (in_range 0 12 mp ltac:(lia))) as H2.
  cbv beta in H2.
  pose proof (proj1 (forallb_forall _ _) H2 d (in_range 1 31 d ltac:(lia))) as H.
  cbv beta in H. clear H1 H2.
  replace (d <=? Calendar.monthLength yoe mp) with true in H by (symmetry; apply Z.leb_le; lia).
  cbn [implb] in H. unfold Calendar.cellOk in H. cbv zeta in H.
  destruct (Calendar.cellOf (Calendar.doeOf yoe mp d)) as [[yoe' mp'] d'].
  apply andb_true_iff in H as [H Hc]. apply andb_true_iff in H as [H0 H1].
  apply andb_true_iff in Hc as [Hc H4]. apply andb_true_iff in Hc as [H2 H3].
  apply Z.leb_le in H0. apply Z.ltb_lt in H1.
  apply Z.eqb_eq in H2, H3, H4. subst. split; [lia | reflexivity].
Qed.

Lemma isLeap_cycle (a k : Z) : JSDate.isLeap (a + 400 * k) = JSDate.isLeap a.
Proof.
  unfold JSDate.isLeap.
  replace ((a + 400 * k) mod 4) with (a mod 4)
    by (replace (a + 400 * k) with (a + (100 * k) * 4) by lia; by rewrite Z_mod_plus_full).
  replace ((a + 400 * k) mod 100) with (a mod 100)
    by (replace (a + 400 * k) with (a + (4 * k) * 100) by lia; by rewrite Z_mod_plus_full).
  replace ((a + 400 * k) mod 400) with (a mod 400)
    by (replace (a + 400 * k) with (a + k * 400) by lia; by rewrite Z_mod_plus_full).
  reflexivity.
Qed.

Lemma month_index (m : Z) :
  1 <= m <= 12 ->
  0 <= (m + 9) mod 12 < 12 /\
  m = (if (m + 9) mod 12 <? 10 then (m + 9) mod 12 + 3 else (m + 9) mod 12 - 9) /\
  (m = 2 -> (m + 9) mod 12 = 11) /\
  (m <> 2 -> forall y yoe,
     JSDate.daysInMonth y m = Calendar.monthLength yoe ((m + 9) mod 12)).
Proof.
  intros Hm.
  assert (Hc : m = 1 \/ m = 2 \/ m = 3 \/ m = 4 \/ m = 5 \/ m = 6 \/ m = 7 \/ m = 8 \/
               m = 9 \/ m = 10 \/ m = 11 \/ m = 12) by lia.
  repeat (destruct Hc as [Hc | Hc]); subst m;
    (split; [by vm_compute|]); (split; [reflexivity|]);
    (split; [try reflexivity; discriminate|]); try (intros _ y yoe; reflexivity).
  intros H. by destruct H.
Qed.

(** Every date of the calendar goes to its day number and back. *)
Lemma civilFromDays_daysFromCivil (y m d : Z) :
  1 <= m <= 12 -> 1 <= d <= JSDate.daysInMonth y m ->
  JSDate.civilFromDays (JSDate.daysFromCivil y m d) = (y, m, d).
Proof.
  intros Hm Hd.
  destruct (month_index m Hm) as (Hmp & Hmm & Hfeb & Hother).
  set (y' := if m <=? 2 then y - 1 else y).
  set (era := y' / 400). set (yoe := y' - era * 400).
  set (mp := (m + 9) mod 12) in *.
  assert (Hyoe : 0 <= yoe < 400).
  { subst yoe era. pose proof (Z.mod_pos_bound y' 400 ltac:(lia)) as Hb.
    rewrite Z.mod_eq in Hb by lia. lia. }
  assert (Hy : y = (if m <=? 2 then yoe + era * 400 + 1 else yoe + era * 400)).
  { subst yoe y'. destruct (m <=? 2); lia. }
  assert (Hlen : JSDate.daysInMonth y m = Calendar.monthLength yoe mp).
  { destruct (Z.eq_dec m 2) as [E|E]; [|by apply Hother].
    rewrite (Hfeb E). rewrite E in Hy |- *.
    unfold JSDate.daysInMonth, Calendar.monthLength. cbn [Z.eqb Pos.eqb Z.leb Z.compare Pos.compare Pos.compare_cont] in *.
    rewrite Hy at 1. replace (yoe + era * 400 + 1) with ((yoe + 1) + 400 * era) by lia.
    by rewrite isLeap_cycle. }
  destruct (cell_ok yoe mp d Hyoe Hmp ltac:(lia)) as [Hdoe Hcell].
  assert (Hdays : JSDate.daysFromCivil y m d
                  = era * 146097 + Calendar.doeOf yoe mp d - 719468) by reflexivity.
  unfold JSDate.civilFromDays. cbv zeta. rewrite Hdays.
  replace (era * 146097 + Calendar.doeOf yoe mp d - 719468 + 719468)
    with (Calendar.doeOf yoe mp d + era * 146097) by lia.
  rewrite Z.div_add by lia. rewrite (Z.div_small _ 146097) by lia. rewrite Z.add_0_l.
  replace (Calendar.doeOf yoe mp d + era * 146097 - era * 146097)
    with (Calendar.doeOf yoe mp d) by lia.
  unfold Calendar.cellOf in Hcell. cbv zeta in Hcell.
  injection Hcell as H1 H2 H3.
  rewrite H1 in *. rewrite H2 in *. rewrite H3.
  rewrite <- Hmm. by rewrite <- Hy.
Qed.

Lemma digit_digitChar (k : Z) : 0 <= k <= 9 -> JSDate.digit (digitChar k) = Some k.
Proof.
  intros H.
  assert (Hc : k = 0 \/ k = 1 \/ k = 2 \/ k = 3 \/ k = 4 \/ k = 5 \/ k = 6 \/ k = 7 \/
               k = 8 \/ k = 9) by lia.
  repeat (destruct Hc as [Hc | Hc]); subst k; reflexivity.
Qed.

Lemma daysInMonth_le_31 (y m : Z) : JSDate.daysInMonth y m <= 31.
Proof.
  unfold JSDate.daysInMonth.
  repeat match goal with |- context [if ?b then _ else _] => destruct b end; lia.
Qed.

(** A date-only string is read as the midnight, UTC, of its date. *)
Lemma parseDateOnly_isoDate (y m d : Z) :
  1 <= y <= 9999 -> 1 <= m <= 12 -> 1 <= d <= JSDate.daysInMonth y m ->
  JSDate.parseDateOnly (isoDate y m d)
  = Some (JSDate.daysFromCivil y m d * JSDate.msPerDay).
Proof.
  intros Hy Hm Hd. pose proof (daysInMonth_le_31 y m) as H31.
  unfold JSDate.parseDateOnly, isoDate. cbn [list_ascii_of_string].
  change (JSDate.digits 0 [digitChar (y / 1000); digitChar (y / 100 mod 10);
                           digitChar (y / 10 mod 10); digitChar (y mod 10)])
    with (match JSDate.digit (digitChar (y / 1000)) with
          | Some a =>
              match JSDate.digit (digitChar (y / 100 mod 10)) with
              | Some b =>
                  match JSDate.digit (digitChar (y / 10 mod 10)) with
                  | Some c =>
                      match JSDate.digit (digitChar (y mod 10)) with
                      | Some e => Some ((((0 * 10 + a) * 10 + b) * 10 + c) * 10 + e)
                      | None => None
                      end
                  | None => None
                  end
              | None => None
              end
          | None => None
          end).
  change (JSDate.digits 0 [digitChar (m / 10); digitChar (m mod 10)])
    with (match JSDate.digit (digitChar (m / 10)) with
          | Some a =>
              match JSDate.digit (digitChar (m mod 10)) with
              | Some b => Some ((0 * 10 + a) * 10 + b)
              | None => None
              end
          | None => None
          end).
  change (JSDate.digits 0 [digitChar (d / 10); digitChar (d mod 10)])
    with (match JSDate.digit (digitChar (d / 10)) with
          | Some a =>
              match JSDate.digit (digitChar (d mod 10)) with
              | Some b => Some ((0 * 10 + a) * 10 + b)
              | None => None
              end
          | None => None
          end).
  rewrite !digit_digitChar by (Z.div_mod_to_equations; lia).
  replace ((((0 * 10 + y / 1000) * 10 + y / 100 mod 10) * 10 + y / 10 mod 10) * 10 + y mod 10)
    with y by (Z.div_mod_to_equations; lia).
  replace ((0 * 10 + m / 10) * 10 + m mod 10) with m by (Z.div_mod_to_equations; lia).
  replace ((0 * 10 + d / 10) * 10 + d mod 10) with d by (Z.div_mod_to_equations; lia).
  replace ((1 <=? y) && (1 <=? m) && (m <=? 12) && (1 <=? d) && (d <=? JSDate.daysInMonth y m))
    with true; [reflexivity|].
  symmetry. rewrite !andb_true_iff, !Z.leb_le. lia.
Qed.

Lemma localDay_of_midnight (h : JSDate.Host) (n : Z) :
  let t := n * JSDate.msPerDay in
  (0 <= JSDate.tzOffset h t < 1440 -> JSDate.localDay h t = n) /\
  (-1440 <= JSDate.tzOffset h t < 0 -> JSDate.localDay h t = n - 1).
Proof.
  cbv zeta. unfold JSDate.localDay, JSDate.msPerDay.
  generalize (JSDate.tzOffset h (n * 86400000)). intros k.
  split; intros H; Z.div_mod_to_equations; lia.
Qed.

(** X26. A date-only appointment date [YYYY-MM-DD] is read as midnight
    UTC. On a host at UTC or ahead of it the mail names that very day, with
    its weekday and month name, and on an [en-US] host the generated
    message carries that day as month, day and year in figures. *)
Theorem X26_date_only_names_its_day (w : World) (y m d : Z) (timeSlot : option string) :
  1 <= y <= 9999 -> 1 <= m <= 12 -> 1 <= d <= JSDate.daysInMonth y m ->
  let n := JSDate.daysFromCivil y m d in
  0 <= JSDate.tzOffset (host w) (n * JSDate.msPerDay) < 1440 ->
  EmailService.formattedDate w (Some (isoDate y m d))
  = JSDate.weekdayName (JSDate.weekday n) +:+ ", " +:+ JSDate.monthName m +:+ " "
      +:+ JS.dec d +:+ ", " +:+ JS.dec y /\
  (JSDate.defaultLocale (host w) = JSDate.en_US ->
   DoctorRoutes.defaultMessage w timeSlot (Some (isoDate y m d))
   = "Your appointment has been confirmed for " +:+ JS.interp timeSlot +:+ " on "
       +:+ JS.dec m +:+ "/" +:+ JS.dec d +:+ "/" +:+ JS.dec y).
Proof.
  intros Hy Hm Hd n Hk.
  unfold EmailService.formattedDate, DoctorRoutes.defaultMessage, JSDate.newDate.
  rewrite parseDateOnly_isoDate by assumption. fold n.
  unfold JSDate.toLocaleDateString_long, JSDate.toLocaleDateString.
  rewrite (proj1 (localDay_of_midnight (host w) n) Hk).
  unfold n. rewrite civilFromDays_daysFromCivil by assumption.
  assert (Hera : JSDate.yearOfEra y = y).
  { unfold JSDate.yearOfEra. destruct (Z.leb_spec y 0); [lia | reflexivity]. }
  rewrite Hera. split; [reflexivity|]. by intros ->.
Qed.

Lemma X26_witness :
  EmailService.formattedDate Scenario.world (Some "2024-06-01") = "Saturday, June 1, 2024" /\
  DoctorRoutes.defaultMessage Scenario.world (Some "10:00-10:30") (Some "2024-06-01")
  = "Your appointment has been confirmed for 10:00-10:30 on 6/1/2024".
Proof.
  destruct (X26_date_only_names_its_day Scenario.world 2024 6 1 (Some "10:00-10:30"))
    as [H1 H2];
    [lia | lia | split; vm_compute; discriminate
    | split; vm_compute; first [reflexivity | discriminate] |].
  split; [exact H1 | exact (H2 eq_refl)].
Defined.

Lemma weekday_before (n : Z) :
  JSDate.weekdayName (JSDate.weekday (n - 1)) <> JSDate.weekdayName (JSDate.weekday n).
Proof.
  unfold JSDate.weekday.
  pose proof (Z.mod_pos_bound (n + 4) 7 ltac:(lia)) as Hb.
  assert (Hw : (n - 1 + 4) mod 7 = ((n + 4) mod 7 + 6) mod 7).
  { rewrite Zplus_mod_idemp_l. replace (n + 4 + 6) with (n - 1 + 4 + 1 * 7) by lia.
    by rewrite Z_mod_plus_full. }
  rewrite Hw. revert Hb. generalize ((n + 4) mod 7). intros k Hb.
  assert (Hc : k = 0 \/ k = 1 \/ k = 2 \/ k = 3 \/ k = 4 \/ k = 5 \/ k = 6) by lia.
  repeat (destruct Hc as [Hc | Hc]); subst k; vm_compute; discriminate.
Qed.

(** X27. On a host behind UTC the same string falls on the evening before:
    the mail names the previous day of the calendar, with that day's
    weekday. *)
Theorem X27_behind_utc_names_the_day_before (w : World) (y m d y' m' d' : Z) :
  1 <= y <= 9999 -> 1 <= m <= 12 -> 1 <= d <= JSDate.daysInMonth y m ->
  1 <= y' -> 1 <= m' <= 12 -> 1 <= d' <= JSDate.daysInMonth y' m' ->
  JSDate.daysFromCivil y' m' d' = JSDate.daysFromCivil y m d - 1 ->
  let n := JSDate.daysFromCivil y m d in
  -1440 <= JSDate.tzOffset (host w) (n * JSDate.msPerDay) < 0 ->
  EmailService.formattedDate w (Some (isoDate y m d))
  = JSDate.weekdayName (JSDate.weekday (n - 1)) +:+ ", " +:+ JSDate.monthName m' +:+ " "
      +:+ JS.dec d' +:+ ", " +:+ JS.dec y' /\
  JSDate.weekdayName (JSDate.weekday (n - 1)) <> JSDate.weekdayName (JSDate.weekday n).
Proof.
  intros Hy Hm Hd Hy' Hm' Hd' Hprev n Hk. split.
  - unfold EmailService.formattedDate, JSDate.newDate.
    rewrite parseDateOnly_isoDate by assumption. fold n.
    unfold JSDate.toLocaleDateString_long.
    rewrite (proj2 (localDay_of_midnight (host w) n) Hk).
    unfold n. rewrite <- Hprev. rewrite civilFromDays_daysFromCivil by assumption.
    assert (Hera : JSDate.yearOfEra y' = y').
    { unfold JSDate.yearOfEra. destruct (Z.leb_spec y' 0); [lia | reflexivity]. }
    by rewrite Hera.
  - apply weekday_before.
Qed.

Lemma X27_witness :
  EmailService.formattedDate world_newYork (Some "2024-06-01") = "Friday, May 31, 2024".
Proof.
  destruct (X27_behind_utc_names_the_day_before world_newYork 2024 6 1 2024 5 31)
    as [H1 _];
    [lia | lia | split; vm_compute; discriminate | lia | lia
    | split; vm_compute; discriminate | reflexivity
    | split; vm_compute; first [reflexivity | discriminate] |].
  exact H1.
Defined.
